(** * AIEngineService: a shallow embedding of the per-turn chat pipeline

    The development follows the [AIEngineService] class: the data the
    service passes around (requests, conversation contexts, analyses,
    knowledge nodes, responses), the collaborators it talks to (TTL cache,
    catalog store, completion provider, coupon issuer) and the methods of
    the class, each under the name it has in the source.  Around the
    engine it covers the handler of the chat route that calls it, the
    connection state behind the TTL cache, and the two import loops of the
    product service.

    Conventions.
    - JavaScript strings are [string]s of 7-bit code units; bytes above 127
      are carried along as opaque characters (neither letters, digits nor
      white space).
    - JavaScript numbers are exact rationals ([Q]); rounding of IEEE doubles
      is not modelled.
    - [async] methods run to completion one after the other; a method is a
      computation in the monad [M] below, which threads the cache, records
      every collaborator call and propagates thrown errors. *)

From Stdlib Require Import String Ascii QArith Qround ZArith Lia Lqa Bool List.
From Stdlib Require Import Sorting.Sorted Sorting.Permutation.
From stdpp Require Import base option list gmap strings.
From stdpp Require Import pretty.

Local Open Scope string_scope.
Local Open Scope Z_scope.
Local Open Scope Q_scope.
Local Open Scope nat_scope.
Local Open Scope list_scope.

(** ** JavaScript string primitives *)

Module Js.

Definition code (c : ascii) : nat := nat_of_ascii c.

Definition is_upper (c : ascii) : bool := (65 <=? code c) && (code c <=? 90).
Definition is_lower (c : ascii) : bool := (97 <=? code c) && (code c <=? 122).
Definition is_digit (c : ascii) : bool := (48 <=? code c) && (code c <=? 57).

(** [\w] of a regular expression: letters, digits and the underscore. *)
Definition is_word (c : ascii) : bool :=
  is_upper c || is_lower c || is_digit c || (code c =? 95).

(** [\s] restricted to 7-bit text: TAB, LF, VT, FF, CR and SPACE. *)
Definition is_space (c : ascii) : bool :=
  ((9 <=? code c) && (code c <=? 13)) || (code c =? 32).

(** [.] without the [s] flag: anything but LF and CR. *)
Definition is_dot (c : ascii) : bool :=
  negb ((code c =? 10) || (code c =? 13)).

Definition lower_char (c : ascii) : ascii :=
  if is_upper c then ascii_of_nat (code c + 32) else c.

Definition upper_char (c : ascii) : ascii :=
  if is_lower c then ascii_of_nat (code c - 32) else c.

(** [String.prototype.toLowerCase]. *)
Fixpoint toLowerCase (s : string) : string :=
  match s with
  | EmptyString => EmptyString
  | String c s' => String (lower_char c) (toLowerCase s')
  end.

Fixpoint starts_with (p s : string) : bool :=
  match p, s with
  | EmptyString, _ => true
  | String a p', String b s' => Ascii.eqb a b && starts_with p' s'
  | String _ _, EmptyString => false
  end.

(** [String.prototype.includes]. *)
Fixpoint includes (s sub : string) : bool :=
  starts_with sub s ||
  match s with
  | EmptyString => false
  | String _ s' => includes s' sub
  end.

(** [String.prototype.substring(0, n)]. *)
Fixpoint substring0 (n : nat) (s : string) : string :=
  match n, s with
  | S n', String c s' => String c (substring0 n' s')
  | _, _ => EmptyString
  end.

(** [Array.prototype.join]. *)
Fixpoint join (sep : string) (l : list string) : string :=
  match l with
  | [] => EmptyString
  | [x] => x
  | x :: l' => x +:+ sep +:+ join sep l'
  end.

(** [Array.prototype.includes] on an array of strings. *)
Definition array_includes (l : list string) (x : string) : bool :=
  existsb (String.eqb x) l.

(** [s.split(/\s+/)]: the pieces between maximal runs of white space.  A
    leading or trailing run leaves an empty piece at that end, and the empty
    string splits into one empty piece. *)
Fixpoint split_ws_from (in_run : bool) (cur : string) (s : string) : list string :=
  match s with
  | EmptyString => [cur]
  | String c s' =>
      if is_space c then
        if in_run then split_ws_from true EmptyString s'
        else cur :: split_ws_from true EmptyString s'
      else split_ws_from false (cur +:+ String c EmptyString) s'
  end.

Definition split_ws (s : string) : list string := split_ws_from false EmptyString s.

(** [String.prototype.trim] on 7-bit text. *)
Fixpoint trim_start (s : string) : string :=
  match s with
  | String c s' => if is_space c then trim_start s' else s
  | EmptyString => EmptyString
  end.

Fixpoint rev_string (acc s : string) : string :=
  match s with
  | EmptyString => acc
  | String c s' => rev_string (String c acc) s'
  end.

Definition trim (s : string) : string :=
  rev_string EmptyString (trim_start (rev_string EmptyString (trim_start s))).

(** [s.replace(re, empty)] for the global pattern that matches a single or
    a double quote character (codes 39 and 34). *)
Fixpoint strip_quotes (s : string) : string :=
  match s with
  | EmptyString => EmptyString
  | String c s' =>
      if (code c =? 39) || (code c =? 34) then strip_quotes s'
      else String c (strip_quotes s')
  end.

(** *** Base64, as [Buffer.from(s).toString('base64')] produces it *)

Definition b64_alphabet : string :=
  "ABCDEFGHIJKLMNOPQRSTUVWXYZabcdefghijklmnopqrstuvwxyz0123456789+/".

Definition b64_char (n : nat) : ascii :=
  match String.get n b64_alphabet with
  | Some c => c
  | None => "="%char
  end.

Fixpoint base64_fuel (fuel : nat) (s : string) : string :=
  match fuel with
  | O => EmptyString
  | S fuel' =>
      match s with
      | EmptyString => EmptyString
      | String a EmptyString =>
          let x := code a in
          String (b64_char (x / 4))
            (String (b64_char ((x mod 4) * 16)) "==")
      | String a (String b EmptyString) =>
          let x := code a in
          let y := code b in
          String (b64_char (x / 4))
            (String (b64_char ((x mod 4) * 16 + y / 16))
               (String (b64_char ((y mod 16) * 4)) "="))
      | String a (String b (String c s')) =>
          let x := code a in
          let y := code b in
          let z := code c in
          String (b64_char (x / 4))
            (String (b64_char ((x mod 4) * 16 + y / 16))
               (String (b64_char ((y mod 16) * 4 + z / 64))
                  (String (b64_char (z mod 64)) (base64_fuel fuel' s'))))
      end
  end.

Definition base64 (s : string) : string := base64_fuel (S (String.length s)) s.

End Js.

(** ** Regular expressions

    The patterns of the service use literals, alternation, optional and
    repeated groups, the classes [\s], [\d], [.] and small bracket sets, the
    assertions [\b], [^] and [$], and one capture group.  [rmatch] is a
    backtracking matcher in continuation-passing style; alternatives are
    tried in the order the ECMAScript semantics tries them (left branch
    first, greedy repetition longest first, lazy repetition shortest
    first), so the first success is the match JavaScript reports. *)

Module Regex.

Inductive cset : Type :=
  | CSpace                       (* \s *)
  | CDigit                       (* \d *)
  | CDot                         (* . *)
  | COneOf (l : list ascii)      (* [abc] *)
  | COneOfOrSpace (l : list ascii).  (* [abc\s] *)

Definition cset_mem (cs : cset) (c : ascii) : bool :=
  match cs with
  | CSpace => Js.is_space c
  | CDigit => Js.is_digit c
  | CDot => Js.is_dot c
  | COneOf l => existsb (Ascii.eqb c) l
  | COneOfOrSpace l => existsb (Ascii.eqb c) l || Js.is_space c
  end.

Inductive regex : Type :=
  | Eps
  | Chr (c : ascii)
  | Cls (cs : cset)
  | Seq (r1 r2 : regex)
  | Alt (r1 r2 : regex)
  | Opt (r : regex)              (* r?  *)
  | Plus (r : regex)             (* r+  *)
  | PlusLazy (r : regex)         (* r+? *)
  | Cap (r : regex)              (* (r), the capture group *)
  | WordB                        (* \b *)
  | Bol                          (* ^ *)
  | Eol.                         (* $ *)

(** [r*] is [(r+)?]: both try one more iteration before giving up. *)
Definition Star (r : regex) : regex := Opt (Plus r).

Fixpoint lit (s : string) : regex :=
  match s with
  | EmptyString => Eps
  | String c EmptyString => Chr c
  | String c s' => Seq (Chr c) (lit s')
  end.

Fixpoint alts (l : list regex) : regex :=
  match l with
  | [] => Eps
  | [r] => r
  | r :: l' => Alt r (alts l')
  end.

Definition words (l : list string) : regex := alts (map lit l).

Fixpoint seqs (l : list regex) : regex :=
  match l with
  | [] => Eps
  | [r] => r
  | r :: l' => Seq r (seqs l')
  end.

Definition chr_eq (ci : bool) (a c : ascii) : bool :=
  if ci then Ascii.eqb (Js.upper_char a) (Js.upper_char c) else Ascii.eqb a c.

Definition word_opt (o : option ascii) : bool :=
  match o with
  | Some c => Js.is_word c
  | None => false
  end.

Definition head_char (s : string) : option ascii :=
  match s with
  | String c _ => Some c
  | EmptyString => None
  end.

Definition orelse {A : Type} (x y : option A) : option A :=
  match x with
  | Some a => Some a
  | None => y
  end.

(** The text a group consumed: what lies between the remaining input at its
    start and the remaining input at its end. *)
Definition consumed (before after : string) : string :=
  Js.substring0 (String.length before - String.length after) before.

Section Matcher.
Context {A : Type}.
Variable ci : bool.   (* the [i] flag *)

(** A continuation receives the character just before the current
    position, the remaining input and the capture so far. *)
Definition kont : Type := option ascii -> string -> option string -> option A.

Fixpoint rmatch (r : regex) (prev : option ascii) (s : string)
    (cap : option string) (k : kont) {struct r} : option A :=
  match r with
  | Eps => k prev s cap
  | Chr c =>
      match s with
      | String a s' => if chr_eq ci a c then k (Some a) s' cap else None
      | EmptyString => None
      end
  | Cls cs =>
      match s with
      | String a s' => if cset_mem cs a then k (Some a) s' cap else None
      | EmptyString => None
      end
  | Seq r1 r2 =>
      rmatch r1 prev s cap (fun p s' c => rmatch r2 p s' c k)
  | Alt r1 r2 =>
      orelse (rmatch r1 prev s cap k) (rmatch r2 prev s cap k)
  | Opt r1 =>
      orelse (rmatch r1 prev s cap k) (k prev s cap)
  | Plus r1 =>
      (fix loop (fuel : nat) (prev : option ascii) (s : string)
           (cap : option string) {struct fuel} : option A :=
         match fuel with
         | O => None
         | S fuel' =>
             rmatch r1 prev s cap (fun p s' c =>
               if String.length s' <? String.length s
               then orelse (loop fuel' p s' c) (k p s' c)
               else k p s' c)
         end) (S (String.length s)) prev s cap
  | PlusLazy r1 =>
      (fix loop (fuel : nat) (prev : option ascii) (s : string)
           (cap : option string) {struct fuel} : option A :=
         match fuel with
         | O => None
         | S fuel' =>
             rmatch r1 prev s cap (fun p s' c =>
               if String.length s' <? String.length s
               then orelse (k p s' c) (loop fuel' p s' c)
               else k p s' c)
         end) (S (String.length s)) prev s cap
  | Cap r1 =>
      rmatch r1 prev s cap (fun p s' _ => k p s' (Some (consumed s s')))
  | WordB =>
      if xorb (word_opt prev) (word_opt (head_char s)) then k prev s cap else None
  | Bol =>
      match prev with
      | None => k prev s cap
      | Some _ => None
      end
  | Eol =>
      match s with
      | EmptyString => k prev s cap
      | String _ _ => None
      end
  end.

(** Try every start position from left to right. *)
Fixpoint search (r : regex) (prev : option ascii) (s : string) (k : kont) : option A :=
  orelse (rmatch r prev s None k)
    match s with
    | EmptyString => None
    | String c s' => search r (Some c) s' k
    end.
End Matcher.

(** [re.test(s)] for a pattern without the [g] flag. *)
Definition test (ci : bool) (r : regex) (s : string) : bool :=
  match search ci r None s (fun _ _ _ => Some tt) with
  | Some _ => true
  | None => false
  end.

(** [s.match(re)] for a pattern without the [g] flag: the text of capture
    group 1 of the first match ([Some None] when the group took no part). *)
Definition match_group (ci : bool) (r : regex) (s : string) : option (option string) :=
  search ci r None s (fun _ _ c => Some c).

End Regex.

Import Regex.


(** [s.match(re)] for a pattern with the [g] flag: the text of every match,
    scanning from left to right and resuming where the last match ended. *)
Fixpoint match_all_fuel (fuel : nat) (ci : bool) (r : regex)
    (prev : option ascii) (s : string) : list string :=
  match fuel with
  | O => []
  | S fuel' =>
      let advance :=
        match s with
        | EmptyString => []
        | String c s' => match_all_fuel fuel' ci r (Some c) s'
        end in
      match rmatch ci r prev s None (fun p s' _ => Some (p, s')) with
      | Some (p, s') =>
          Regex.consumed s s' ::
            (if String.length s' <? String.length s
             then match_all_fuel fuel' ci r p s'
             else advance)
      | None => advance
      end
  end.

Definition match_all (ci : bool) (r : regex) (s : string) : list string :=
  match_all_fuel (S (String.length s)) ci r None s.

(** ** Numbers *)

Definition Qmin (a b : Q) : Q := if Qle_bool a b then a else b.
Definition Qmax (a b : Q) : Q := if Qle_bool a b then b else a.
Definition Qlt_bool (a b : Q) : bool := negb (Qle_bool b a).

(** [Math.min(...l)] and [Math.max(...l)] of a non-empty array. *)
Definition Math_min (l : list Q) : Q :=
  match l with
  | [] => 0%Q
  | x :: l' => fold_left Qmin l' x
  end.

Definition Math_max (l : list Q) : Q :=
  match l with
  | [] => 0%Q
  | x :: l' => fold_left Qmax l' x
  end.

(** [Math.random()]: a 53-bit dyadic fraction in [0, 1), read off the random
    bits the environment supplies. *)
Definition Math_random (bits : N) : Q :=
  Qmake (Z.of_N (bits mod 2 ^ 53)) (2 ^ 53).

Definition Math_floor (q : Q) : Z := Qfloor q.

(** [parseFloat] on the texts the price pattern produces: decimal digits,
    optionally followed by a point and more digits. *)
Fixpoint parse_digits (acc : Z) (scale : positive) (s : string) : Z * positive * string :=
  match s with
  | String c s' =>
      if Js.is_digit c
      then parse_digits (10 * acc + Z.of_nat (Js.code c - 48))%Z (10 * scale)%positive s'
      else (acc, scale, s)
  | EmptyString => (acc, scale, s)
  end.

Definition parseFloat (s : string) : Q :=
  let '(ip, _, rest) := parse_digits 0%Z 1%positive s in
  match rest with
  | String "."%char rest' =>
      let '(fp, scale, _) := parse_digits 0%Z 1%positive rest' in
      (inject_Z ip + Qmake fp scale)%Q
  | _ => inject_Z ip
  end.

(** [s.replace('$', '')]: drops the first dollar sign. *)
Fixpoint drop_first_dollar (s : string) : string :=
  match s with
  | EmptyString => EmptyString
  | String c s' => if Ascii.eqb c "$"%char then s' else String c (drop_first_dollar s')
  end.

(** ** Data model *)

Module ChatMessage.
Record t : Type := { type : string; content : string }.
End ChatMessage.

Module Category.
Record t : Type := { name : string }.
End Category.

Module Image.
Record t : Type := { src : string }.
End Image.

(** A catalog record.  Optional fields are those the service reads through
    a default ([x || d]) or a guard; the array fields [categories] and
    [images] are always present. *)
Module Product.
Record t : Type := {
  id : string;
  name : string;
  description : option string;
  shortDescription : option string;
  price : Q;
  regularPrice : option Q;
  salePrice : option Q;
  currency : option string;
  stockStatus : string;
  averageRating : option Q;
  reviewCount : option Q;
  categories : list Category.t;
  images : list Image.t;
  permalink : string
}.
End Product.

(** The [metadata] object of a knowledge node. *)
Module NodeMeta.
Record t : Type := {
  type : string;
  id : option string;
  name : option string;
  price : option Q;
  currency : option string;
  categories : list string;
  rating : option Q;
  reviewCount : option Q;
  inStock : option bool;
  permalink : option string;
  shortDescription : option string;
  imageUrl : option string;
  salePrice : option Q;
  regularPrice : option Q;
  onSale : option bool
}.
End NodeMeta.

Module LangGraphNode.
Record t : Type := {
  id : string;
  content : string;
  metadata : option NodeMeta.t;
  score : option Q
}.
End LangGraphNode.

Module PriceRange.
Record t : Type := { min : Q; max : Q }.
End PriceRange.

Module ProductPreferences.
Record t : Type := {
  categories : list string;
  priceRange : option PriceRange.t;
  features : list string
}.
End ProductPreferences.

(** [productKnowledge] is the field [generateAIResponse] adds to the context
    object for [enhanceResponse] to read. *)
Module ConversationContext.
Record t : Type := {
  sessionId : string;
  userId : option string;
  siteId : string;
  userInterests : list string;
  previousMessages : list ChatMessage.t;
  currentIntent : option string;
  sentimentHistory : list Q;
  productPreferences : ProductPreferences.t;
  productKnowledge : option (list LangGraphNode.t)
}.

Definition set_previousMessages (v : list ChatMessage.t) (c : t) : t :=
  {| sessionId := sessionId c; userId := userId c; siteId := siteId c;
     userInterests := userInterests c; previousMessages := v;
     currentIntent := currentIntent c; sentimentHistory := sentimentHistory c;
     productPreferences := productPreferences c;
     productKnowledge := productKnowledge c |}.

Definition set_userInterests (v : list string) (c : t) : t :=
  {| sessionId := sessionId c; userId := userId c; siteId := siteId c;
     userInterests := v; previousMessages := previousMessages c;
     currentIntent := currentIntent c; sentimentHistory := sentimentHistory c;
     productPreferences := productPreferences c;
     productKnowledge := productKnowledge c |}.

Definition set_productPreferences (v : ProductPreferences.t) (c : t) : t :=
  {| sessionId := sessionId c; userId := userId c; siteId := siteId c;
     userInterests := userInterests c; previousMessages := previousMessages c;
     currentIntent := currentIntent c; sentimentHistory := sentimentHistory c;
     productPreferences := v;
     productKnowledge := productKnowledge c |}.

Definition set_productKnowledge (v : list LangGraphNode.t) (c : t) : t :=
  {| sessionId := sessionId c; userId := userId c; siteId := siteId c;
     userInterests := userInterests c; previousMessages := previousMessages c;
     currentIntent := currentIntent c; sentimentHistory := sentimentHistory c;
     productPreferences := productPreferences c;
     productKnowledge := Some v |}.
End ConversationContext.

Module RequestContext.
Record t : Type := { previousMessages : option (list ChatMessage.t) }.
End RequestContext.

Module AIRequest.
Record t : Type := {
  sessionId : string;
  userId : option string;
  siteId : string;
  message : string;
  context : option RequestContext.t
}.
End AIRequest.

(** [request.context?.previousMessages]. *)
Definition request_previousMessages (request : AIRequest.t) : option (list ChatMessage.t) :=
  match AIRequest.context request with
  | Some c => RequestContext.previousMessages c
  | None => None
  end.

Module Entities.
Record t : Type := {
  products : option (list string);
  categories : option (list string)
}.
End Entities.

(** The analysis object the classifier hands to the rest of the turn. *)
Module Analysis.
Record t : Type := {
  intent : string;
  sentiment : Q;
  confidence : Q;
  entities : option Entities.t;
  urgency : string;
  purchaseReadiness : string
}.
End Analysis.

(** What [JSON.parse] finds in the classifier's reply: any key may be absent. *)
Module ParsedAnalysis.
Record t : Type := {
  intent : option string;
  sentiment : option Q;
  confidence : option Q;
  entities : option Entities.t;
  urgency : option string;
  purchaseReadiness : option string
}.
End ParsedAnalysis.

(** The coupon type lives outside this service; the service only moves
    issued coupons around. *)
Module Coupon.
Record t : Type := { code : string }.
End Coupon.

Module CouponParams.
Record t : Type := {
  discountType : option string;
  amount : option Q;
  validityDays : option Q
}.
End CouponParams.

Module Eligibility.
Record t : Type := { eligible : bool; maxDiscount : Q }.
End Eligibility.

(** Entries of [response.actions]: [{ type, payload }]. *)
Inductive Action : Type :=
  | show_products (products : list Product.t)
  | generate_coupon (coupon : Coupon.t)
  | transfer_human (reason : option string).

Definition action_type (a : Action) : string :=
  match a with
  | show_products _ => "show_products"
  | generate_coupon _ => "generate_coupon"
  | transfer_human _ => "transfer_human"
  end.

(** The display record [enhanceResponse] builds for each product. *)
Module ProductSummary.
Record t : Type := {
  id : string;
  name : string;
  price : Q;
  price_html : string;
  currency : string;
  regular_price : Q;
  sale_price : option Q;
  on_sale : option bool;
  short_description : string;
  image_url : string;
  permalink : string;
  rating : Q;
  rating_html : string;
  review_count : Q;
  in_stock : bool;
  stock_status : string;
  categories : string;
  category_list : list string;
  badge : string;
  availability_text : string
}.
End ProductSummary.

Inductive MetaVal : Type :=
  | MNum (q : Q)
  | MStr (s : string)
  | MBool (b : bool).

Module AIResponse.
Record t : Type := {
  message : string;
  intent : string;
  confidence : Q;
  sentiment : Q;
  actions : list Action;
  products : option (list ProductSummary.t);
  coupons : option (list Coupon.t);
  shouldEndConversation : option bool;
  metadata : option (gmap string MetaVal)
}.

Definition set_metadata (v : gmap string MetaVal) (r : t) : t :=
  {| message := message r; intent := intent r; confidence := confidence r;
     sentiment := sentiment r; actions := actions r; products := products r;
     coupons := coupons r; shouldEndConversation := shouldEndConversation r;
     metadata := Some v |}.

Definition set_products (v : list ProductSummary.t) (r : t) : t :=
  {| message := message r; intent := intent r; confidence := confidence r;
     sentiment := sentiment r; actions := actions r; products := Some v;
     coupons := coupons r; shouldEndConversation := shouldEndConversation r;
     metadata := metadata r |}.

Definition set_coupons (v : list Coupon.t) (r : t) : t :=
  {| message := message r; intent := intent r; confidence := confidence r;
     sentiment := sentiment r; actions := actions r; products := products r;
     coupons := Some v; shouldEndConversation := shouldEndConversation r;
     metadata := metadata r |}.

Definition set_shouldEndConversation (v : bool) (r : t) : t :=
  {| message := message r; intent := intent r; confidence := confidence r;
     sentiment := sentiment r; actions := actions r; products := products r;
     coupons := coupons r; shouldEndConversation := Some v;
     metadata := metadata r |}.
End AIResponse.

(** [response.metadata], read as a map: an absent object has no keys. *)
Definition metadata_of (r : AIResponse.t) : gmap string MetaVal :=
  match AIResponse.metadata r with
  | Some m => m
  | None => ∅
  end.

(** *** The completion provider's wire types *)

Module FunctionSpec.
Record t : Type := {
  name : string;
  description : string;
  properties : list (string * string);   (* parameter name, JSON type *)
  required : list string
}.
End FunctionSpec.

Module PromptMessage.
Record t : Type := { role : string; content : string }.
End PromptMessage.

Module CompletionParams.
Record t : Type := {
  model : string;
  messages : list PromptMessage.t;
  max_tokens : Q;
  temperature : Q;
  functions : option (list FunctionSpec.t);
  function_call : option string
}.
End CompletionParams.

Module FunctionCall.
Record t : Type := { name : string; arguments : option string }.
End FunctionCall.

(** [completion.choices[0]?.message]. *)
Module ResponseMessage.
Record t : Type := {
  content : option string;
  function_call : option FunctionCall.t
}.
End ResponseMessage.

Module Completion.
Record t : Type := {
  message : option ResponseMessage.t;
  total_tokens : option Q
}.
End Completion.

(** The object [JSON.parse(functionCall.arguments)] yields. *)
Module CallParams.
Record t : Type := {
  query : option string;
  category : option string;
  maxPrice : option Q;
  minPrice : option Q;
  productId : option string;
  discountType : option string;
  amount : option Q;
  validityDays : option Q;
  reason : option string
}.
End CallParams.

(** The [filters] argument of [ProductModel.searchProducts]. *)
Module SearchFilters.
Record t : Type := {
  status : string;
  price_gte : option Q;
  price_lte : option Q;
  category : option string
}.
End SearchFilters.

(** ** Effects

    A thrown value is represented by its [message].  A computation reads the
    collaborators from a [World], threads a [Store] (the TTL cache plus the
    log of collaborator calls made so far) and ends in a value or a throw.
    The calls of [logger] and the timers are taken to return and are left
    out; the two calls of logInteraction, [logAIInteraction] and
    [trackAIInteraction], run unguarded inside the [try] of processMessage
    and are collaborators that may throw.  Cache entries carry no expiry,
    the store holds what has not expired. *)

Definition JsError : Type := string.

Inductive Result (A : Type) : Type :=
  | Ok (a : A)
  | Throw (e : JsError).
Arguments Ok {A} a.
Arguments Throw {A} e.

(** Collaborator calls, as they are logged in the store. *)
Inductive Call : Type :=
  | CacheGet (key : string)
  | CacheSet (key : string)
  | DbCountDocuments (siteId status : string)
  | DbFindOne (id : option string) (siteId : string)
  | DbSearchProducts (siteId : string) (query : option string) (filters : SearchFilters.t)
  | DbFindBySite (siteId status : string)
  | DbFindByCategory (siteId category : string)
  | DbFindSortedByName (siteId : string) (includeOutOfStock : bool)
  | LlmCreate (params : CompletionParams.t)
  | CouponCheckEligibility (sessionId siteId : string) (userId : option string)
  | CouponGenerate (sessionId siteId : string) (params : CouponParams.t)
  | AnalyticsTrack (sessionId siteId intent : string)
  | CouponGenerateNull (sessionId siteId : string).

Record World : Type := {
  (* config *)
  cfg_model : string;
  cfg_maxTokens : Q;
  cfg_temperature : Q;
  (* TTL cache: whether the client is connected *)
  redis_up : bool;
  (* catalog store (ProductModel) *)
  db_countDocuments : string -> string -> Result Q;
  db_findOne : option string -> string -> Result (option Product.t);
  db_searchProducts :
    string -> option string -> SearchFilters.t -> Result (list Product.t);
  db_findBySite : string -> string -> Result (list Product.t);
  db_findByCategory : string -> string -> Result (list Product.t);
  db_findSortedByName : string -> bool -> Result (list Product.t);
  (* completion provider *)
  llm_create : CompletionParams.t -> Result Completion.t;
  (* coupon issuer (CouponService) *)
  coupon_checkEligibility :
    string -> string -> option string -> Result Eligibility.t;
  coupon_generate :
    string -> string -> CouponParams.t -> Result (option Coupon.t);
  (* the same method handed [null] for its parameters *)
  coupon_generate_null : string -> string -> Result (option Coupon.t);
  (* the interaction log and the analytics sink: a [Throw] is a
     synchronous throw of the call *)
  log_aiInteraction : Q -> string -> Result unit;
  analytics_trackAIInteraction :
    string -> string -> string -> Q -> Q -> Q -> Result unit;
  (* language runtime *)
  random_bits : N;
  date_now : Q;
  number_toString : Q -> string;
  json_parse_analysis : string -> Result ParsedAnalysis.t;
  (* [None] is the value [null]: the one result of [JSON.parse] on which a
     property read throws *)
  json_parse_arguments : string -> Result (option CallParams.t);
  regexp_compiles : string -> bool
}.

(** The three key prefixes the service uses ([conversation_context:],
    [product_knowledge:], [ai_response:]) split the cache into three
    namespaces, one per value type. *)
Record Store : Type := {
  contexts : gmap string ConversationContext.t;
  knowledge : gmap string (list LangGraphNode.t);
  responses : gmap string AIResponse.t;
  calls : list Call
}.

Definition log (c : Call) (s : Store) : Store :=
  {| contexts := contexts s; knowledge := knowledge s;
     responses := responses s; calls := calls s ++ [c] |}.

Definition M (A : Type) : Type := World -> Store -> Result A * Store.

Definition ret {A : Type} (a : A) : M A := fun _ s => (Ok a, s).

Definition throw {A : Type} (e : JsError) : M A := fun _ s => (Throw e, s).

Definition bind {A B : Type} (m : M A) (f : A -> M B) : M B :=
  fun w s =>
    match m w s with
    | (Ok a, s') => f a w s'
    | (Throw e, s') => (Throw e, s')
    end.

(** [try { m } catch (error) { h error }]. *)
Definition try_catch {A : Type} (m : M A) (h : JsError -> M A) : M A :=
  fun w s =>
    match m w s with
    | (Ok a, s') => (Ok a, s')
    | (Throw e, s') => h e w s'
    end.

(** Reading a configuration or runtime value. *)
Definition ask {A : Type} (f : World -> A) : M A := fun w s => (Ok (f w), s).

(** A logged call to a collaborator that may fail. *)
Definition call {A : Type} (c : Call) (f : World -> Result A) : M A :=
  fun w s => (f w, log c s).

Notation "'let*' x ':=' m 'in' f" := (bind m (fun x => f))
  (at level 10, x name, m at level 100, f at level 200).
Notation "m ';;' f" := (bind m (fun _ => f))
  (at level 100, f at level 200, right associativity).

(** [for (const x of l) { acc = await f(acc, x) }]. *)
Fixpoint for_of {A B : Type} (l : list A) (acc : B) (f : B -> A -> M B) : M B :=
  match l with
  | [] => ret acc
  | x :: l' => let* acc' := f acc x in for_of l' acc' f
  end.

(** *** The cache client ([redisCache])

    [get] and [set] catch every client error themselves: without a client a
    read is a miss and a write stores nothing.

    The exported [redisCache] is a [Proxy] around an empty target whose
    handler has a [get] trap and nothing else: every property read is
    forwarded to a hidden [RedisCache] instance, while a property write,
    having no trap, lands on the target.  The methods of the class run with
    the Proxy as [this].  In [getClient], therefore, the test
    [!this.client] reads the field of the instance, the assignment
    [this.client = client] stores the client on the target, and
    [return this.client] reads the field of the instance again. *)

(** [RedisCache.getClient] with the Proxy as [this]: [instance_client] is
    the [client] field of the hidden instance, [safe] what
    [getRedisClientSafe] returns. *)
Definition proxy_getClient {C : Type} (instance_client safe : option C) : option C :=
  match instance_client with          (* if (!this.client) *)
  | Some client => Some client
  | None =>
      match safe with
      | None => None
      | Some _ =>                     (* this.client = client: kept by the target *)
          instance_client             (* return this.client *)
      end
  end.

(** The client the engine's cache calls get.  The field of the hidden
    instance starts as [null], and no assignment ever reaches it. *)
Definition redisCache_getClient (w : World) : option unit :=
  proxy_getClient None (if redis_up w then Some tt else None).

Definition redisCache_get_context (key : string) : M (option ConversationContext.t) :=
  fun w s =>
    (Ok match redisCache_getClient w with
        | Some _ => contexts s !! key
        | None => None
        end,
     log (CacheGet key) s).

Definition redisCache_set_context (key : string) (v : ConversationContext.t) : M bool :=
  fun w s =>
    let s' := log (CacheSet key) s in
    match redisCache_getClient w with
    | Some _ =>
        (Ok true,
         {| contexts := <[key := v]> (contexts s'); knowledge := knowledge s';
            responses := responses s'; calls := calls s' |})
    | None => (Ok false, s')
    end.

Definition redisCache_get_knowledge (key : string) : M (option (list LangGraphNode.t)) :=
  fun w s =>
    (Ok match redisCache_getClient w with
        | Some _ => knowledge s !! key
        | None => None
        end,
     log (CacheGet key) s).

Definition redisCache_set_knowledge (key : string) (v : list LangGraphNode.t) : M bool :=
  fun w s =>
    let s' := log (CacheSet key) s in
    match redisCache_getClient w with
    | Some _ =>
        (Ok true,
         {| contexts := contexts s'; knowledge := <[key := v]> (knowledge s');
            responses := responses s'; calls := calls s' |})
    | None => (Ok false, s')
    end.

Definition redisCache_set_response (key : string) (v : AIResponse.t) : M bool :=
  fun w s =>
    let s' := log (CacheSet key) s in
    match redisCache_getClient w with
    | Some _ =>
        (Ok true,
         {| contexts := contexts s'; knowledge := knowledge s';
            responses := <[key := v]> (responses s'); calls := calls s' |})
    | None => (Ok false, s')
    end.

(** ** The service: pure helpers *)

Definition dq : string := String (ascii_of_nat 34) EmptyString.
Definition nl : string := String (ascii_of_nat 10) EmptyString.

(** [w] followed by an optional [s], as in [products?]. *)
Definition plural (w : string) : regex := Seq (lit w) (Opt (Chr "s")).

Definition spaces : regex := Plus (Cls CSpace).

(** *** inferIntentFromKeywords *)

Definition intentPatterns : list (string * regex) :=
  [ ("greeting",
      Seq Bol (words ["hi"; "hello"; "hey"; "good morning"; "good afternoon";
                      "good evening"]));
    ("product_inquiry",
      words ["looking for"; "need"; "want"; "show me"; "find"; "search";
             "recommend"; "suggest"]);
    ("price_question",
      words ["price"; "cost"; "how much"; "expensive"; "cheap"; "afford"; "budget"]);
    ("comparison",
      words ["compare"; "versus"; "vs"; "difference"; "better"; "best"; "which"]);
    ("purchase_intent",
      words ["buy"; "purchase"; "order"; "checkout"; "add to cart"]);
    ("complaint",
      words ["problem"; "issue"; "wrong"; "broken"; "defective"; "return";
             "complaint"]);
    ("goodbye",
      words ["bye"; "goodbye"; "thanks"; "thank you"; "that's all"]) ].

(** The [for ... of Object.entries(intentPatterns)] loop. *)
Fixpoint first_matching (patterns : list (string * regex)) (s : string) : option string :=
  match patterns with
  | [] => None
  | (intent, pattern) :: rest =>
      if test true pattern s then Some intent else first_matching rest s
  end.

Definition inferIntentFromKeywords (message : string) : string :=
  let lowerMessage := Js.toLowerCase message in
  match first_matching intentPatterns lowerMessage with
  | Some intent => intent
  | None => "unknown"
  end.

(** *** calculateSimpleSentiment *)

Definition positiveWords : list string :=
  ["good"; "great"; "excellent"; "love"; "like"; "amazing"; "perfect"].

Definition negativeWords : list string :=
  ["bad"; "terrible"; "hate"; "awful"; "disappointed"; "wrong"; "broken"].

(** One step of the [words.forEach] loop. *)
Definition score_word (score : Z) (word : string) : Z :=
  let score1 := if Js.array_includes positiveWords word then (score + 1)%Z else score in
  if Js.array_includes negativeWords word then (score1 - 1)%Z else score1.

Definition sentiment_score (words : list string) : Z := fold_left score_word words 0%Z.

Definition calculateSimpleSentiment (message : string) : Q :=
  let words := Js.split_ws (Js.toLowerCase message) in
  let score := sentiment_score words in
  Qmax (-1) (Qmin 1 (inject_Z score / inject_Z (Z.of_nat (length words)) * 10)).

(** *** extractUserInterests *)

Definition interestKeywords : list string :=
  ["electronics"; "clothing"; "shoes"; "books"; "home"; "garden";
   "sports"; "fitness"; "beauty"; "health"; "toys"; "automotive";
   "cheap"; "expensive"; "quality"; "durable"; "fast"; "reliable"].

(** [Set.prototype.add] on a set kept in insertion order. *)
Definition set_add (interests : list string) (x : string) : list string :=
  if Js.array_includes interests x then interests else interests ++ [x].

Definition extractUserInterests (messages : list ChatMessage.t) : list string :=
  fold_left
    (fun interests message =>
       if String.eqb (ChatMessage.type message) "user" then
         let content := Js.toLowerCase (ChatMessage.content message) in
         fold_left
           (fun interests keyword =>
              if Js.includes content keyword then set_add interests keyword
              else interests)
           interestKeywords interests
       else interests)
    messages [].

(** *** analyzeProductPreferences *)

(** [/\$?(\d+(?:\.\d{2})?)/g] *)
Definition pricePattern : regex :=
  Seq (Opt (Chr "$"))
      (Cap (Seq (Plus (Cls CDigit))
                (Opt (seqs [Chr "."; Cls CDigit; Cls CDigit])))).

Definition analyzeProductPreferences (messages : list ChatMessage.t) : ProductPreferences.t :=
  fold_left
    (fun preferences message =>
       if String.eqb (ChatMessage.type message) "user" then
         let content := Js.toLowerCase (ChatMessage.content message) in
         match match_all false pricePattern content with
         | [] => preferences
         | priceMatches =>
             let prices := map (fun p => parseFloat (drop_first_dollar p)) priceMatches in
             if 2 <=? length prices then
               {| ProductPreferences.categories := ProductPreferences.categories preferences;
                  ProductPreferences.priceRange :=
                    Some {| PriceRange.min := Math_min prices;
                            PriceRange.max := Math_max prices |};
                  ProductPreferences.features := ProductPreferences.features preferences |}
             else preferences
         end
       else preferences)
    messages
    {| ProductPreferences.categories := [];
       ProductPreferences.priceRange := None;
       ProductPreferences.features := [] |}.

(** *** The query patterns of enhanceResponse *)

Definition productNouns : regex :=
  alts [plural "product"; plural "item"; plural "laptop"; plural "computer"].

(** [/\b(how many|total|count)\s+(products?|items?|laptops?|computers?)\b/i] *)
Definition isInventoryQuery (query : string) : bool :=
  test true
    (seqs [WordB; words ["how many"; "total"; "count"]; spaces; productNouns; WordB])
    query.

(** [/\b(show|display|see|list)\s+(all|entire|complete|every)\s+
      (products?|items?|laptops?|computers?|inventory|catalog)\b/i] *)
Definition isShowAllQuery (query : string) : bool :=
  test true
    (seqs [WordB; words ["show"; "display"; "see"; "list"]; spaces;
           words ["all"; "entire"; "complete"; "every"]; spaces;
           alts [plural "product"; plural "item"; plural "laptop"; plural "computer";
                 lit "inventory"; lit "catalog"];
           WordB])
    query.

(** [/\b(show|suggest|recommend|find|looking for|need|want|buy)\s+
      (products?|laptop|computer|gaming|design)\b/i] *)
Definition isProductRequest (query : string) : bool :=
  test true
    (seqs [WordB;
           words ["show"; "suggest"; "recommend"; "find"; "looking for"; "need";
                  "want"; "buy"];
           spaces;
           alts [plural "product"; lit "laptop"; lit "computer"; lit "gaming";
                 lit "design"];
           WordB])
    query.

(** [/\b(asus|msi|lenovo|hp|katana|strix|vivobook|expertbook|zenbook)\b/i] *)
Definition isSpecificProductQuery (query : string) : bool :=
  test true
    (seqs [WordB;
           words ["asus"; "msi"; "lenovo"; "hp"; "katana"; "strix"; "vivobook";
                  "expertbook"; "zenbook"];
           WordB])
    query.

(** *** The query patterns of getProductKnowledge *)

Definition isRequestingAllProducts (query : string) : bool :=
  test true
    (seqs [WordB; words ["all"; "every"; "entire"; "complete"; "whole"]; spaces;
           alts [plural "product"; lit "inventory"; lit "catalog"; plural "item";
                 plural "laptop"; plural "computer"];
           WordB])
    query
  || test true
       (seqs [WordB; words ["show"; "give"; "list"]; spaces;
              Opt (Seq (lit "me") spaces);
              words ["all"; "every"; "everything"]; WordB])
       query
  || test true (seqs [WordB; lit "inventory"; WordB]) query.

(** *** The reply patterns of parseFunctionCallsFromContent *)

(** [/search[_\s]products?\s*[:\-]?\s*(.+?)(?:\n|$)/i] *)
Definition searchCallPattern : regex :=
  seqs [lit "search"; Cls (COneOfOrSpace ["_"%char]); plural "product";
        Star (Cls CSpace); Opt (Cls (COneOf [":"%char; "-"%char]));
        Star (Cls CSpace);
        Cap (PlusLazy (Cls CDot));
        Alt (Chr (ascii_of_nat 10)) Eol].

(** [/generate[_\s]coupon|discount|offer/i] *)
Definition couponCallPattern : regex :=
  alts [seqs [lit "generate"; Cls (COneOfOrSpace ["_"%char]); lit "coupon"];
        lit "discount"; lit "offer"].

(** [/transfer|human|agent|representative/i] *)
Definition transferCallPattern : regex :=
  words ["transfer"; "human"; "agent"; "representative"].

(** *** Ranking (the comparator passed to [sort] in enhanceResponse) *)

Definition instock (p : Product.t) : bool :=
  String.eqb (Product.stockStatus p) "instock".

(** [x || 0] on an optional number. *)
Definition or_zero (o : option Q) : Q :=
  match o with
  | Some q => q
  | None => 0%Q
  end.

Definition compareProducts (a b : Product.t) : Q :=
  (* Priority 1: in stock products first *)
  if instock a && negb (instock b) then (-1)%Q
  else if instock b && negb (instock a) then 1%Q
  else
    (* Priority 2: higher ratings *)
    let ratingA := or_zero (Product.averageRating a) in
    let ratingB := or_zero (Product.averageRating b) in
    if negb (Qeq_bool ratingA ratingB) then (ratingB - ratingA)%Q
    else
      (* Priority 3: more reviews *)
      let reviewsA := or_zero (Product.reviewCount a) in
      let reviewsB := or_zero (Product.reviewCount b) in
      (reviewsB - reviewsA)%Q.

(** [Array.prototype.sort(compareFn)]: the sort is stable, so for a
    consistent comparator its result is the one stable ordering, which
    insertion from the right computes.  [x] goes in front of the first
    element it does not compare greater than. *)
Fixpoint sort_insert {A : Type} (compareFn : A -> A -> Q) (x : A) (l : list A) : list A :=
  match l with
  | [] => [x]
  | y :: l' =>
      if Qle_bool (compareFn x y) 0 then x :: y :: l'
      else y :: sort_insert compareFn x l'
  end.

Definition Array_sort {A : Type} (compareFn : A -> A -> Q) (l : list A) : list A :=
  fold_right (sort_insert compareFn) [] l.

(** The cap chosen by the query shape. *)
Definition maxProducts (query : string) : nat :=
  if isShowAllQuery query then 12
  else if isSpecificProductQuery query then 3
  else 6.

Definition prioritizedProducts (query : string) (relevantProducts : list Product.t)
  : list Product.t :=
  take (maxProducts query) (Array_sort compareProducts relevantProducts).

(** *** Display formatting *)

(** A number is truthy when it is present and not zero. *)
Definition truthy_num (o : option Q) : option Q :=
  match o with
  | Some q => if Qeq_bool q 0 then None else Some q
  | None => None
  end.

(** A string is truthy when it is present and not empty. *)
Definition truthy_str (o : option string) : option string :=
  match o with
  | Some EmptyString => None
  | other => other
  end.

Definition or_str (o : option string) (d : string) : string :=
  match truthy_str o with
  | Some s => s
  | None => d
  end.

Definition span (class body : string) : string :=
  "<span class=" +:+ dq +:+ class +:+ dq +:+ ">" +:+ body +:+ "</span>".

(** The five-slot rating loop.  The source gives the half-star slot the
    same empty star as the remaining slots, so only [fullStars] matters. *)
Fixpoint stars (slots : nat) (i : Z) (fullStars : Z) : string :=
  match slots with
  | O => EmptyString
  | S slots' =>
      (if (i <? fullStars)%Z then "★" else "☆") +:+ stars slots' (i + 1)%Z fullStars
  end.

Definition summarize (toString : Q -> string) (product : Product.t) : ProductSummary.t :=
  let salePrice :=
    match truthy_num (Product.salePrice product) with
    | Some sp => if Qlt_bool 0 sp then Some sp else None
    | None => None
    end in
  let regularPrice :=
    match truthy_num (Product.regularPrice product) with
    | Some rp => rp
    | None => Product.price product
    end in
  let isOnSale :=
    match salePrice with
    | Some sp => Some (Qlt_bool sp regularPrice)
    | None => None
    end in
  let cur := or_str (Product.currency product) "$" in
  let priceHtml :=
    match isOnSale, salePrice with
    | Some true, Some sp =>
        span "sale-price" (cur +:+ toString sp) +:+ " " +:+
        span "regular-price" (cur +:+ toString regularPrice) +:+ " " +:+
        span "sale-badge" "SALE"
    | _, _ => span "current-price" (cur +:+ toString (Product.price product))
    end in
  let rating := or_zero (Product.averageRating product) in
  let fullStars := Math_floor rating in
  let names := map Category.name (Product.categories product) in
  {| ProductSummary.id := Product.id product;
     ProductSummary.name := Product.name product;
     ProductSummary.price := Product.price product;
     ProductSummary.price_html := priceHtml;
     ProductSummary.currency := or_str (Product.currency product) "USD";
     ProductSummary.regular_price := regularPrice;
     ProductSummary.sale_price := salePrice;
     ProductSummary.on_sale := isOnSale;
     ProductSummary.short_description :=
       match truthy_str (Product.shortDescription product) with
       | Some d => d
       | None =>
           match Product.description product with
           | Some d => Js.substring0 180 d
           | None => EmptyString
           end
       end;
     ProductSummary.image_url :=
       match Product.images product with
       | img :: _ => Image.src img
       | [] => "/wp-content/uploads/woocommerce-placeholder.png"
       end;
     ProductSummary.permalink := Product.permalink product;
     ProductSummary.rating := rating;
     ProductSummary.rating_html := stars 5 0%Z fullStars;
     ProductSummary.review_count := or_zero (Product.reviewCount product);
     ProductSummary.in_stock := instock product;
     ProductSummary.stock_status := Product.stockStatus product;
     ProductSummary.categories := Js.join ", " names;
     ProductSummary.category_list := names;
     ProductSummary.badge :=
       match isOnSale with
       | Some true => "Sale"
       | _ => if negb (instock product) then "Out of Stock" else EmptyString
       end;
     ProductSummary.availability_text :=
       if instock product then "In Stock" else "Out of Stock" |}.

(** *** Knowledge nodes *)

Definition show_str (o : option string) : string :=
  match o with
  | Some s => s
  | None => "undefined"
  end.

Definition show_num (toString : Q -> string) (o : option Q) : string :=
  match o with
  | Some q => toString q
  | None => "undefined"
  end.

Definition productNode (toString : Q -> string) (product : Product.t) : LangGraphNode.t :=
  let names := map Category.name (Product.categories product) in
  {| LangGraphNode.id := Product.id product;
     LangGraphNode.content :=
       Product.name product +:+ ": " +:+ show_str (Product.description product) +:+
       ". Price: " +:+ show_str (Product.currency product) +:+
       toString (Product.price product) +:+
       ". Categories: " +:+ Js.join ", " names +:+
       ". Rating: " +:+ show_num toString (Product.averageRating product) +:+
       "/5 (" +:+ show_num toString (Product.reviewCount product) +:+ " reviews).";
     LangGraphNode.metadata := Some
       {| NodeMeta.type := "product";
          NodeMeta.id := Some (Product.id product);
          NodeMeta.name := Some (Product.name product);
          NodeMeta.price := Some (Product.price product);
          NodeMeta.currency := Product.currency product;
          NodeMeta.categories := names;
          NodeMeta.rating := Product.averageRating product;
          NodeMeta.reviewCount := Product.reviewCount product;
          NodeMeta.inStock := Some (instock product);
          NodeMeta.permalink := Some (Product.permalink product);
          NodeMeta.shortDescription :=
            match truthy_str (Product.shortDescription product) with
            | Some d => Some d
            | None =>
                match Product.description product with
                | Some d => Some (Js.substring0 150 d)
                | None => None
                end
            end;
          NodeMeta.imageUrl :=
            match Product.images product with
            | img :: _ => Some (Image.src img)
            | [] => None
            end;
          NodeMeta.salePrice := Product.salePrice product;
          NodeMeta.regularPrice := Product.regularPrice product;
          NodeMeta.onSale :=
            match truthy_num (Product.salePrice product),
                  Product.regularPrice product with
            | Some sp, Some rp => Some (Qlt_bool sp rp)
            | Some _, None => Some false
            | None, _ => None
            end |};
     LangGraphNode.score := Some 1%Q |}.

Definition categoryNode (category : string) : LangGraphNode.t :=
  {| LangGraphNode.id := "category_" +:+ category;
     LangGraphNode.content :=
       "Product category: " +:+ category +:+
       ". Available products in this category.";
     LangGraphNode.metadata := Some
       {| NodeMeta.type := "category";
          NodeMeta.id := None;
          NodeMeta.name := Some category;
          NodeMeta.price := None;
          NodeMeta.currency := None;
          NodeMeta.categories := [];
          NodeMeta.rating := None;
          NodeMeta.reviewCount := None;
          NodeMeta.inStock := None;
          NodeMeta.permalink := None;
          NodeMeta.shortDescription := None;
          NodeMeta.imageUrl := None;
          NodeMeta.salePrice := None;
          NodeMeta.regularPrice := None;
          NodeMeta.onSale := None |};
     LangGraphNode.score := Some (8 # 10)%Q |}.

(** [[...new Set(names)]]: the distinct names in order of first occurrence. *)
Definition distinct (names : list string) : list string :=
  fold_left set_add names [].

Definition categoriesOf (products : list Product.t) : list string :=
  distinct (flat_map (fun p => map Category.name (Product.categories p)) products).

(** The node list [getProductKnowledge] builds from its products. *)
Definition knowledgeNodes (toString : Q -> string) (products : list Product.t)
  : list LangGraphNode.t :=
  map (productNode toString) products ++ map categoryNode (categoriesOf products).

(** [node.metadata?.type === 'product'] *)
Definition isProductNode (node : LangGraphNode.t) : bool :=
  match LangGraphNode.metadata node with
  | Some m => String.eqb (NodeMeta.type m) "product"
  | None => false
  end.

(** The identifiers enhanceResponse extracts from the product nodes. *)
Definition nodeProductIds (productKnowledge : list LangGraphNode.t) : list string :=
  omap
    (fun node =>
       match LangGraphNode.metadata node with
       | Some m => truthy_str (NodeMeta.id m)
       | None => None
       end)
    (filter (fun node => isProductNode node = true) productKnowledge).

(** *** Prompts and the function catalog *)

Definition sentimentWord (sentiment : Q) : string :=
  if Qlt_bool 0 sentiment then "positive"
  else if Qlt_bool sentiment 0 then "negative"
  else "neutral".

Definition systemPromptText (analysis : Analysis.t) (knowledgeText : string) : string :=
  Js.join nl
    [ "You are an AI sales assistant for an e-commerce website. Your role is to help customers find products, answer questions, and guide them toward making purchases.";
      EmptyString;
      "CONTEXT:";
      "- Customer intent: " +:+ Analysis.intent analysis;
      "- Customer sentiment: " +:+ sentimentWord (Analysis.sentiment analysis);
      "- Purchase readiness: " +:+ Analysis.purchaseReadiness analysis;
      "- Urgency: " +:+ Analysis.urgency analysis;
      EmptyString;
      "AVAILABLE PRODUCTS:";
      knowledgeText;
      EmptyString;
      "GUIDELINES:";
      "1. Be helpful, friendly, and knowledgeable about the products";
      "2. Ask clarifying questions when needed";
      "3. When recommending products, provide detailed information including features, benefits, and pricing";
      "4. Use engaging language that highlights product value propositions";
      "5. Always be honest about product limitations and suitability";
      "6. Encourage customers to ask questions about specific features or requirements";
      "7. When suggesting multiple products, explain the differences and help customers choose";
      "8. Include product ratings and customer feedback when available";
      "9. Mention any special offers, discounts, or promotions available";
      "3. Recommend products based on customer needs";
      "4. Highlight key features, benefits, and value propositions";
      "5. Address any concerns or objections";
      "6. Guide customers toward making a purchase decision";
      "7. Offer alternatives if the exact product isn't available";
      "8. Be honest about limitations and stock status";
      "9. Use natural, conversational language";
      "10. Keep responses concise but informative";
      EmptyString;
      "SALES TECHNIQUES:";
      "- Build rapport and trust";
      "- Understand customer needs before recommending";
      "- Present solutions, not just products";
      "- Create urgency when appropriate";
      "- Handle objections professionally";
      "- Use social proof (reviews, ratings) when available";
      "- Offer value-added services or bundles";
      EmptyString;
      "Remember: Your goal is to provide excellent customer service while helping drive sales. Always prioritize the customer's needs and satisfaction." ].

Definition analysisPrompt (toString : Q -> string) (message : string) (context : ConversationContext.t) : string :=
  Js.join nl
    [ EmptyString;
      "Analyze the following user message and provide structured analysis:";
      EmptyString;
      "Message: " +:+ dq +:+ message +:+ dq;
      EmptyString;
      "Previous context:";
      "- User interests: " +:+ Js.join ", " (ConversationContext.userInterests context);
      "- Session history: " +:+ toString (inject_Z (Z.of_nat (length (ConversationContext.previousMessages context)))) +:+ " messages";
      "- Current intent: " +:+ or_str (ConversationContext.currentIntent context) "unknown";
      EmptyString;
      "Please analyze:";
      "1. Primary intent (greeting, product_inquiry, price_question, comparison, purchase_intent, complaint, goodbye)";
      "2. Sentiment (-1.0 to 1.0)";
      "3. Confidence level (0.0 to 1.0)";
      "4. Extracted entities (products, categories, features, price mentions)";
      "5. Urgency level (low, medium, high)";
      "6. Purchase readiness (researching, considering, ready_to_buy)";
      EmptyString;
      "Respond with valid JSON only:";
      EmptyString ].

Definition buildSystemPrompt (siteId : string) (analysis : Analysis.t)
    (productKnowledge : list LangGraphNode.t) : string :=
  let knowledgeText := Js.join nl (map LangGraphNode.content productKnowledge) in
  systemPromptText analysis knowledgeText.

(** [previousMessages.slice(-10)] followed by the current message. *)
Definition buildConversationMessages (previousMessages : list ChatMessage.t)
    (currentMessage : string) : list PromptMessage.t :=
  let recentMessages := drop (length previousMessages - 10) previousMessages in
  map (fun msg =>
         {| PromptMessage.role :=
              if String.eqb (ChatMessage.type msg) "user" then "user" else "assistant";
            PromptMessage.content := ChatMessage.content msg |})
      recentMessages
  ++ [ {| PromptMessage.role := "user"; PromptMessage.content := currentMessage |} ].

Definition getAvailableFunctions : list FunctionSpec.t :=
  [ {| FunctionSpec.name := "search_products";
       FunctionSpec.description := "Search for products based on customer query";
       FunctionSpec.properties :=
         [("query", "string"); ("category", "string"); ("maxPrice", "number");
          ("minPrice", "number")];
       FunctionSpec.required := ["query"] |};
    {| FunctionSpec.name := "get_product_details";
       FunctionSpec.description := "Get detailed information about a specific product";
       FunctionSpec.properties := [("productId", "string")];
       FunctionSpec.required := ["productId"] |};
    {| FunctionSpec.name := "generate_coupon";
       FunctionSpec.description := "Generate a discount coupon for the customer";
       FunctionSpec.properties :=
         [("discountType", "string"); ("amount", "number"); ("products", "array")];
       FunctionSpec.required := ["discountType"; "amount"] |};
    {| FunctionSpec.name := "request_human_transfer";
       FunctionSpec.description := "Transfer conversation to a human agent";
       FunctionSpec.properties := [("reason", "string")];
       FunctionSpec.required := ["reason"] |} ].

(** *** getFallbackResponse *)

Definition fallbackMessages : list string :=
  [ "I apologize, but I'm having some technical difficulties right now. Could you please rephrase your question?";
    "I'm sorry, I didn't quite understand that. Could you tell me more about what you're looking for?";
    "Let me help you find what you need. What specific product or information are you looking for today?";
    "I'm here to help you with your shopping needs. What can I assist you with?" ].

(** [fallbackMessages[Math.floor(Math.random() * fallbackMessages.length)]];
    an index outside the array would read [undefined], shown here as the
    empty string. *)
Definition randomMessage (bits : N) : string :=
  let index :=
    Math_floor (Math_random bits * inject_Z (Z.of_nat (length fallbackMessages))) in
  if (index <? 0)%Z then EmptyString
  else match fallbackMessages !! Z.to_nat index with
       | Some m => m
       | None => EmptyString
       end.

Definition getFallbackResponse (request : AIRequest.t) (error : JsError) : M AIResponse.t :=
  let* bits := ask random_bits in
  ret {| AIResponse.message := randomMessage bits;
         AIResponse.intent := "unknown";
         AIResponse.confidence := (1 # 10)%Q;
         AIResponse.sentiment := 0%Q;
         AIResponse.actions := [];
         AIResponse.products := None;
         AIResponse.coupons := None;
         AIResponse.shouldEndConversation := None;
         AIResponse.metadata :=
           Some (<["fallback" := MBool true]> (<["error" := MStr error]> ∅)) |}.

(** ** The service: methods *)

(** An unlogged runtime operation that may throw ([JSON.parse], ...). *)
Definition run {A : Type} (f : World -> Result A) : M A := fun w s => (f w, s).

Definition publish : SearchFilters.t :=
  {| SearchFilters.status := "publish"; SearchFilters.price_gte := None;
     SearchFilters.price_lte := None; SearchFilters.category := None |}.

Definition ProductModel_searchProducts (siteId : string) (query : option string)
    (filters : SearchFilters.t) : M (list Product.t) :=
  call (DbSearchProducts siteId query filters)
       (fun w => db_searchProducts w siteId query filters).

Definition ProductModel_findBySite (siteId status : string) : M (list Product.t) :=
  call (DbFindBySite siteId status) (fun w => db_findBySite w siteId status).

Definition ProductModel_findByCategory (siteId category : string) : M (list Product.t) :=
  call (DbFindByCategory siteId category) (fun w => db_findByCategory w siteId category).

Definition ProductModel_findOne (id : option string) (siteId : string)
  : M (option Product.t) :=
  call (DbFindOne id siteId) (fun w => db_findOne w id siteId).

Definition ProductModel_countDocuments (siteId status : string) : M Q :=
  call (DbCountDocuments siteId status) (fun w => db_countDocuments w siteId status).

Definition couponService_checkCouponEligibility (sessionId siteId : string)
    (userId : option string) : M Eligibility.t :=
  call (CouponCheckEligibility sessionId siteId userId)
       (fun w => coupon_checkEligibility w sessionId siteId userId).

Definition couponService_generateCouponForSession (sessionId siteId : string)
    (params : CouponParams.t) : M (option Coupon.t) :=
  call (CouponGenerate sessionId siteId params)
       (fun w => coupon_generate w sessionId siteId params).

(** [generateCouponForSession(sessionId, siteId, null)] *)
Definition couponService_generateCouponForSession_null (sessionId siteId : string)
  : M (option Coupon.t) :=
  call (CouponGenerateNull sessionId siteId)
       (fun w => coupon_generate_null w sessionId siteId).

Definition openai_create (params : CompletionParams.t) : M Completion.t :=
  call (LlmCreate params) (fun w => llm_create w params).

(** *** ProductService.getAllProducts *)

Definition getAllProducts (siteId : string) (includeOutOfStock : bool) : M (list Product.t) :=
  try_catch
    (call (DbFindSortedByName siteId includeOutOfStock)
          (fun w => db_findSortedByName w siteId includeOutOfStock))
    (fun _ => ret []).

(** *** buildConversationContext *)

Definition buildConversationContext (request : AIRequest.t) : M ConversationContext.t :=
  let cacheKey := "conversation_context:" +:+ AIRequest.sessionId request in
  let* cached := redisCache_get_context cacheKey in
  let context :=
    match cached with
    | Some context => context
    | None =>
        {| ConversationContext.sessionId := AIRequest.sessionId request;
           ConversationContext.userId := AIRequest.userId request;
           ConversationContext.siteId := AIRequest.siteId request;
           ConversationContext.userInterests := [];
           ConversationContext.previousMessages :=
             match request_previousMessages request with
             | Some l => l
             | None => []
             end;
           ConversationContext.currentIntent := None;
           ConversationContext.sentimentHistory := [];
           ConversationContext.productPreferences :=
             {| ProductPreferences.categories := [];
                ProductPreferences.priceRange := None;
                ProductPreferences.features := [] |};
           ConversationContext.productKnowledge := None |}
    end in
  (* Update context with current request: an array, even an empty one, is truthy *)
  let context :=
    match request_previousMessages request with
    | Some previousMessages =>
        ConversationContext.set_previousMessages previousMessages context
    | None => context
    end in
  let context :=
    ConversationContext.set_userInterests
      (extractUserInterests (ConversationContext.previousMessages context)) context in
  let context :=
    ConversationContext.set_productPreferences
      (analyzeProductPreferences (ConversationContext.previousMessages context)) context in
  redisCache_set_context cacheKey context ;;
  ret context.

(** *** analyzeUserMessage *)

Definition analysisParams (model prompt : string) : CompletionParams.t :=
  {| CompletionParams.model := model;
     CompletionParams.messages :=
       [ {| PromptMessage.role := "system";
            PromptMessage.content :=
              "You are an expert at analyzing user messages for e-commerce chatbots. Always respond with valid JSON." |};
         {| PromptMessage.role := "user"; PromptMessage.content := prompt |} ];
     CompletionParams.max_tokens := 500%Q;
     CompletionParams.temperature := (3 # 10)%Q;
     CompletionParams.functions := None;
     CompletionParams.function_call := None |}.

(** [completion.choices[0]?.message?.content] *)
Definition completion_content (completion : Completion.t) : option string :=
  match Completion.message completion with
  | Some m => ResponseMessage.content m
  | None => None
  end.

Definition or_default {A : Type} (o : option A) (d : A) : A :=
  match o with
  | Some a => a
  | None => d
  end.

(** The object literal with defaults followed by [...analysis]: a key the
    parsed object has wins over the default. *)
Definition mergeAnalysis (analysis : ParsedAnalysis.t) : Analysis.t :=
  {| Analysis.intent := or_default (ParsedAnalysis.intent analysis) "unknown";
     Analysis.sentiment := or_default (ParsedAnalysis.sentiment analysis) 0%Q;
     Analysis.confidence := or_default (ParsedAnalysis.confidence analysis) (5 # 10)%Q;
     Analysis.entities :=
       Some (or_default (ParsedAnalysis.entities analysis)
               {| Entities.products := None; Entities.categories := None |});
     Analysis.urgency := or_default (ParsedAnalysis.urgency analysis) "medium";
     Analysis.purchaseReadiness :=
       or_default (ParsedAnalysis.purchaseReadiness analysis) "researching" |}.

Definition fallbackAnalysis (message : string) : Analysis.t :=
  {| Analysis.intent := inferIntentFromKeywords message;
     Analysis.sentiment := calculateSimpleSentiment message;
     Analysis.confidence := (3 # 10)%Q;
     Analysis.entities := Some {| Entities.products := None; Entities.categories := None |};
     Analysis.urgency := "medium";
     Analysis.purchaseReadiness := "researching" |}.

Definition analyzeUserMessage (message : string) (context : ConversationContext.t)
  : M Analysis.t :=
  try_catch
    (let* toString := ask number_toString in
     let* model := ask cfg_model in
     let* completion :=
       openai_create (analysisParams model (analysisPrompt toString message context)) in
     let analysisText := or_str (completion_content completion) "{}" in
     let* analysis := run (fun w => json_parse_analysis w analysisText) in
     ret (mergeAnalysis analysis))
    (fun _ => ret (fallbackAnalysis message)).

(** *** getProductKnowledge *)

Definition knowledgeCacheKey (query siteId : string) : string :=
  "product_knowledge:" +:+ siteId +:+ ":" +:+ Js.substring0 20 (Js.base64 query).

Definition getProductKnowledge (query siteId : string) : M (list LangGraphNode.t) :=
  try_catch
    (let cacheKey := knowledgeCacheKey query siteId in
     let* cached := redisCache_get_knowledge cacheKey in
     match cached with
     | Some nodes => ret nodes
     | None =>
         let* products :=
           if isRequestingAllProducts query
           then getAllProducts siteId true
           else ProductModel_searchProducts siteId (Some query) publish in
         (* If no search results, get all products of the site as fallback *)
         let* products :=
           match products with
           | [] => ProductModel_findBySite siteId "publish"
           | _ => ret products
           end in
         let* toString := ask number_toString in
         let nodes := knowledgeNodes toString products in
         redisCache_set_knowledge cacheKey nodes ;;
         ret nodes
     end)
    (fun _ => ret []).

(** *** searchProducts (the private method) *)

Definition searchFilters (parameters : CallParams.t) : SearchFilters.t :=
  let minPrice := truthy_num (CallParams.minPrice parameters) in
  let maxPrice := truthy_num (CallParams.maxPrice parameters) in
  {| SearchFilters.status := "publish";
     SearchFilters.price_gte := minPrice;
     SearchFilters.price_lte := maxPrice;
     SearchFilters.category := truthy_str (CallParams.category parameters) |}.

Definition searchProducts (parameters : CallParams.t) (siteId : string)
  : M (list Product.t) :=
  try_catch
    (let filters := searchFilters parameters in
     (* new RegExp(parameters.category, 'i') throws on a malformed pattern *)
     (match SearchFilters.category filters with
      | Some category =>
          run (fun w => if regexp_compiles w category then Ok tt
                        else Throw "Invalid regular expression")
      | None => ret tt
      end) ;;
     ProductModel_searchProducts siteId (CallParams.query parameters) filters)
    (fun _ => ret []).

Definition noParams : CallParams.t :=
  {| CallParams.query := None; CallParams.category := None;
     CallParams.maxPrice := None; CallParams.minPrice := None;
     CallParams.productId := None; CallParams.discountType := None;
     CallParams.amount := None; CallParams.validityDays := None;
     CallParams.reason := None |}.

Definition queryParams (query : string) : CallParams.t :=
  {| CallParams.query := Some query; CallParams.category := None;
     CallParams.maxPrice := None; CallParams.minPrice := None;
     CallParams.productId := None; CallParams.discountType := None;
     CallParams.amount := None; CallParams.validityDays := None;
     CallParams.reason := None |}.

(** *** handleFunctionCall *)

Definition couponParamsOf (parameters : CallParams.t) : CouponParams.t :=
  {| CouponParams.discountType := CallParams.discountType parameters;
     CouponParams.amount := CallParams.amount parameters;
     CouponParams.validityDays := CallParams.validityDays parameters |}.

Definition handleFunctionCall (functionCall : FunctionCall.t)
    (context : ConversationContext.t) : M (list Action) :=
  let sessionId := ConversationContext.sessionId context in
  let siteId := ConversationContext.siteId context in
  try_catch
    (let functionName := FunctionCall.name functionCall in
     (* [parameters] is [None] when the arguments parse to [null] *)
     let* parameters :=
       run (fun w =>
              json_parse_arguments w (or_str (FunctionCall.arguments functionCall) "{}")) in
     if String.eqb functionName "search_products" then
       let* products :=
         match parameters with
         | Some parameters => searchProducts parameters siteId
         | None =>
             (* searchProducts(null, siteId): the read of parameters.minPrice
                throws inside its own try, whose catch returns [] *)
             ret []
         end in
       ret [show_products products]
     else if String.eqb functionName "get_product_details" then
       match parameters with
       | Some parameters =>
           let* product :=
             ProductModel_findOne (CallParams.productId parameters) siteId in
           ret match product with
               | Some product => [show_products [product]]
               | None => []
               end
       | None => throw "Cannot read properties of null (reading 'productId')"
       end
     else if String.eqb functionName "generate_coupon" then
       let* coupon :=
         match parameters with
         | Some parameters =>
             couponService_generateCouponForSession sessionId siteId
               (couponParamsOf parameters)
         | None => couponService_generateCouponForSession_null sessionId siteId
         end in
       ret match coupon with
           | Some coupon => [generate_coupon coupon]
           | None => []
           end
     else if String.eqb functionName "request_human_transfer" then
       match parameters with
       | Some parameters => ret [transfer_human (CallParams.reason parameters)]
       | None => throw "Cannot read properties of null (reading 'reason')"
       end
     else ret [])
    (fun _ => ret []).

(** *** parseFunctionCallsFromContent

    The [actions] array is filled step by step inside one [try]; a throw
    leaves what was pushed so far and skips the remaining steps. *)

Definition parseSearchStep (content : string) (context : ConversationContext.t)
  : M (list Action) :=
  match match_group true searchCallPattern content with
  | Some (Some group1) =>
      let query := Js.strip_quotes (Js.trim group1) in
      let* products := searchProducts (queryParams query) (ConversationContext.siteId context) in
      ret [show_products products]
  | Some None => throw "Cannot read properties of undefined (reading 'trim')"
  | None => ret []
  end.

Definition textCouponParams : CouponParams.t :=
  {| CouponParams.discountType := Some "percentage";
     CouponParams.amount := Some 10%Q;
     CouponParams.validityDays := None |}.

Definition parseCouponStep (content : string) (context : ConversationContext.t)
    (actions : list Action) : M (list Action) :=
  if test true couponCallPattern content then
    let* coupon :=
      couponService_generateCouponForSession
        (ConversationContext.sessionId context) (ConversationContext.siteId context)
        textCouponParams in
    ret match coupon with
        | Some coupon => actions ++ [generate_coupon coupon]
        | None => actions
        end
  else ret actions.

Definition parseTransferStep (content : string) (actions : list Action) : list Action :=
  if test true transferCallPattern content
  then actions ++ [transfer_human (Some "Customer requested human assistance")]
  else actions.

Definition parseFunctionCallsFromContent (content : string)
    (context : ConversationContext.t) : M (list Action) :=
  try_catch
    (let* actions := parseSearchStep content context in
     try_catch
       (let* actions := parseCouponStep content context actions in
        ret (parseTransferStep content actions))
       (fun _ => ret actions))
    (fun _ => ret []).

(** *** getRelevantProducts *)

(** [products.filter((p, i, self) => i === self.findIndex(q => q.id === p.id))] *)
Definition uniqueProducts (products : list Product.t) : list Product.t :=
  fold_left
    (fun kept product =>
       if existsb (fun q => String.eqb (Product.id q) (Product.id product)) kept
       then kept else kept ++ [product])
    products [].

(** [l.filter(msg => msg.type === 'user').pop()] *)
Definition lastUserMessage (messages : list ChatMessage.t) : option ChatMessage.t :=
  last (filter (fun msg => String.eqb (ChatMessage.type msg) "user" = true) messages).

Definition or_empty {A : Type} (o : option (list A)) : list A :=
  match o with
  | Some l => l
  | None => []
  end.

Definition getRelevantProducts (analysis : Analysis.t) (context : ConversationContext.t)
  : M (list Product.t) :=
  let siteId := ConversationContext.siteId context in
  try_catch
    (let entities := Analysis.entities analysis in
     (* Search based on extracted entities *)
     let* products :=
       for_of (or_empty (match entities with
                              | Some e => Entities.products e
                              | None => None
                              end)) []
         (fun products productName =>
            let* found := ProductModel_searchProducts siteId (Some productName) publish in
            ret (products ++ found)) in
     (* Search by categories *)
     let* products :=
       for_of (or_empty (match entities with
                              | Some e => Entities.categories e
                              | None => None
                              end)) products
         (fun products category =>
            let* found := ProductModel_findByCategory siteId category in
            ret (products ++ found)) in
     (* Fallback to user interests *)
     let* products :=
       match products, ConversationContext.userInterests context with
       | [], _ :: _ =>
           ProductModel_searchProducts siteId
             (Some (Js.join " " (ConversationContext.userInterests context))) publish
       | _, _ => ret products
       end in
     (* If still no products and intent is unknown or product-related *)
     let* products :=
       match products with
       | [] =>
           if String.eqb (Analysis.intent analysis) "unknown"
              || String.eqb (Analysis.intent analysis) "product_inquiry"
           then
             match lastUserMessage (ConversationContext.previousMessages context) with
             | Some msg =>
                 let* products :=
                   ProductModel_searchProducts siteId (Some (ChatMessage.content msg))
                     publish in
                 match products with
                 | [] => ProductModel_findBySite siteId "publish"
                 | _ => ret products
                 end
             | None => ret products
             end
           else ret products
       | _ => ret products
       end in
     ret (uniqueProducts products))
    (fun _ => ret []).

(** *** generateCouponIfEligible *)

Definition eligibleCouponParams (eligibility : Eligibility.t) : CouponParams.t :=
  {| CouponParams.discountType := Some "percentage";
     CouponParams.amount := Some (Qmin (Eligibility.maxDiscount eligibility) 15);
     CouponParams.validityDays := Some 7%Q |}.

Definition generateCouponIfEligible (context : ConversationContext.t)
    (analysis : Analysis.t) : M (list Coupon.t) :=
  let sessionId := ConversationContext.sessionId context in
  let siteId := ConversationContext.siteId context in
  try_catch
    (let* eligibility :=
       couponService_checkCouponEligibility sessionId siteId
         (ConversationContext.userId context) in
     if negb (Eligibility.eligible eligibility) then ret []
     else
       let couponParams := eligibleCouponParams eligibility in
       let* coupon :=
         couponService_generateCouponForSession sessionId siteId couponParams in
       ret match coupon with
           | Some coupon => [coupon]
           | None => []
           end)
    (fun _ => ret []).

(** *** generateAIResponse

    Besides the response, the method leaves the retrieved knowledge on the
    context object; the updated context is returned next to the response. *)

Definition generationParams (w_model : string) (maxTokens temperature : Q)
    (isClaudeModel : bool) (systemPrompt : string) (messages : list PromptMessage.t)
  : CompletionParams.t :=
  let functionDescriptions :=
    Js.join nl
      (map (fun fn => "Function: " +:+ FunctionSpec.name fn +:+ " - " +:+
                      FunctionSpec.description fn)
           getAvailableFunctions) in
  {| CompletionParams.model := w_model;
     CompletionParams.messages :=
       {| PromptMessage.role := "system";
          PromptMessage.content :=
            if isClaudeModel
            then systemPrompt +:+ nl +:+ nl +:+ "Available functions:" +:+ nl +:+
                 functionDescriptions
            else systemPrompt |} :: messages;
     CompletionParams.max_tokens := maxTokens;
     CompletionParams.temperature := temperature;
     CompletionParams.functions :=
       if isClaudeModel then None else Some getAvailableFunctions;
     CompletionParams.function_call :=
       if isClaudeModel then None else Some "auto" |}.

Definition apologyMessage : string :=
  "I apologize, but I encountered an issue. Could you please rephrase your question?".

Definition generateAIResponse (request : AIRequest.t) (context : ConversationContext.t)
    (analysis : Analysis.t) : M (AIResponse.t * ConversationContext.t) :=
  try_catch
    (let* productKnowledge :=
       getProductKnowledge (AIRequest.message request)
         (ConversationContext.siteId context) in
     let context := ConversationContext.set_productKnowledge productKnowledge context in
     let systemPrompt :=
       buildSystemPrompt (ConversationContext.siteId context) analysis productKnowledge in
     let messages :=
       buildConversationMessages (ConversationContext.previousMessages context)
         (AIRequest.message request) in
     let* model := ask cfg_model in
     let* maxTokens := ask cfg_maxTokens in
     let* temperature := ask cfg_temperature in
     let isClaudeModel := Js.includes model "claude" in
     let* completion :=
       openai_create
         (generationParams model maxTokens temperature isClaudeModel systemPrompt messages) in
     let responseMessage := Completion.message completion in
     let tokenUsage := or_zero (Completion.total_tokens completion) in
     (* Handle function calls *)
     let* actions :=
       match responseMessage with
       | Some rm =>
           match ResponseMessage.function_call rm with
           | Some functionCall => handleFunctionCall functionCall context
           | None =>
               match truthy_str (ResponseMessage.content rm) with
               | Some content =>
                   if isClaudeModel
                   then parseFunctionCallsFromContent content context
                   else ret []
               | None => ret []
               end
           end
       | None => ret []
       end in
     let* now := ask date_now in
     ret ({| AIResponse.message := or_str (completion_content completion) apologyMessage;
             AIResponse.intent := Analysis.intent analysis;
             AIResponse.confidence := Analysis.confidence analysis;
             AIResponse.sentiment := Analysis.sentiment analysis;
             AIResponse.actions := actions;
             AIResponse.products := None;
             AIResponse.coupons := None;
             AIResponse.shouldEndConversation := None;
             AIResponse.metadata :=
               Some (<["tokenUsage" := MNum tokenUsage]>
                     (<["model" := MStr model]>
                      (<["processingTime" := MNum now]> ∅))) |},
          context))
    (fun error => throw error).

(** *** enhanceResponse *)

Definition productIntents : list string :=
  ["product_inquiry"; "comparison"; "purchase_intent"].

Definition hasProductKnowledge (context : ConversationContext.t) : bool :=
  existsb isProductNode (or_empty (ConversationContext.productKnowledge context)).

Definition shouldIncludeProducts (context : ConversationContext.t)
    (analysis : Analysis.t) (query : string) : bool :=
  isProductRequest query
  || isShowAllQuery query
  || hasProductKnowledge context
  || isSpecificProductQuery query
  || Js.array_includes productIntents (Analysis.intent analysis).

(** The [for (const productId of productIds)] loop. *)
Definition fetchKnownProducts (context : ConversationContext.t) : M (list Product.t) :=
  for_of (nodeProductIds (or_empty (ConversationContext.productKnowledge context))) []
    (fun relevantProducts productId =>
       let* product :=
         ProductModel_findOne (Some productId) (ConversationContext.siteId context) in
       ret match product with
           | Some product => relevantProducts ++ [product]
           | None => relevantProducts
           end).

(** [enhanced.coupons?.length > 0] *)
Definition hasCoupons (r : AIResponse.t) : bool :=
  match AIResponse.coupons r with
  | Some (_ :: _) => true
  | _ => false
  end.

Definition attachProducts (enhanced : AIResponse.t) (context : ConversationContext.t)
    (analysis : Analysis.t) (query : string) : M AIResponse.t :=
  if shouldIncludeProducts context analysis query then
    (* First, try to get products from the retrieved knowledge *)
    let* relevantProducts :=
      if hasProductKnowledge context then fetchKnownProducts context else ret [] in
    (* If no products from there, fall back to other methods *)
    let* relevantProducts :=
      match relevantProducts with
      | [] => getRelevantProducts analysis context
      | _ => ret relevantProducts
      end in
    match relevantProducts with
    | [] => ret enhanced
    | _ =>
        let* toString := ask number_toString in
        ret (AIResponse.set_products
               (map (summarize toString) (prioritizedProducts query relevantProducts))
               enhanced)
    end
  else ret enhanced.

Definition attachCoupons (enhanced : AIResponse.t) (context : ConversationContext.t)
    (analysis : Analysis.t) : M AIResponse.t :=
  if String.eqb (Analysis.intent analysis) "purchase_intent"
     && String.eqb (Analysis.purchaseReadiness analysis) "ready_to_buy"
  then
    let* coupons := generateCouponIfEligible context analysis in
    ret (AIResponse.set_coupons coupons enhanced)
  else ret enhanced.

Definition decideEnd (enhanced : AIResponse.t) (analysis : Analysis.t) : AIResponse.t :=
  AIResponse.set_shouldEndConversation
    (String.eqb (Analysis.intent analysis) "goodbye"
     || (String.eqb (Analysis.intent analysis) "purchase_intent" && hasCoupons enhanced))
    enhanced.

Definition enhanceResponse (response : AIResponse.t) (context : ConversationContext.t)
    (analysis : Analysis.t) (query : string) : M AIResponse.t :=
  let enhanced := response in
  try_catch
    (* For inventory count queries, no product list: only the count *)
    (if isInventoryQuery query then
       let* totalProducts :=
         ProductModel_countDocuments (ConversationContext.siteId context) "publish" in
       ret (AIResponse.set_metadata
              (<["totalProductCount" := MNum totalProducts]> (metadata_of enhanced))
              enhanced)
     else
       let* enhanced := attachProducts enhanced context analysis query in
       (* Generate coupon if user shows purchase intent *)
       let* enhanced := attachCoupons enhanced context analysis in
       (* Determine if conversation should end *)
       ret (decideEnd enhanced analysis))
    (fun _ => ret response).

(** *** cacheResponse, logInteraction, processMessage *)

Definition cacheResponse (request : AIRequest.t) (response : AIResponse.t) : M unit :=
  try_catch
    (let cacheKey :=
       "ai_response:" +:+ Js.base64 (AIRequest.message request) +:+ ":" +:+
       AIRequest.siteId request in
     redisCache_set_response cacheKey response ;;
     ret tt)
    (fun _ => ret tt).

(** [response.metadata?.tokenUsage || 0]; the entry is only ever stored as
    a number. *)
Definition responseTokenUsage (response : AIResponse.t) : Q :=
  match metadata_of response !! "tokenUsage" with
  | Some (MNum tokenUsage) => tokenUsage
  | _ => 0%Q
  end.

(** Neither call is guarded, and [trackAIInteraction] is not awaited: what
    can end the turn here is a synchronous throw of one of the two calls. *)
Definition logInteraction (request : AIRequest.t) (response : AIResponse.t) : M unit :=
  let tokenUsage := responseTokenUsage response in
  let intent := or_str (Some (AIResponse.intent response)) "unknown" in
  let* model := ask cfg_model in
  run (fun w => log_aiInteraction w tokenUsage model) ;;
  (* Track analytics *)
  call (AnalyticsTrack (AIRequest.sessionId request) (AIRequest.siteId request) intent)
       (fun w =>
          analytics_trackAIInteraction w (AIRequest.sessionId request)
            (AIRequest.siteId request) intent (AIResponse.sentiment response)
            (AIResponse.confidence response) tokenUsage).

(** The body of the [try] block of processMessage. *)
Definition processTurn (request : AIRequest.t) : M AIResponse.t :=
  let* context := buildConversationContext request in
  let* analysis := analyzeUserMessage (AIRequest.message request) context in
  let* generated := generateAIResponse request context analysis in
  let '(aiResponse, context) := generated in
  let* enhancedResponse :=
    enhanceResponse aiResponse context analysis (AIRequest.message request) in
  cacheResponse request enhancedResponse ;;
  logInteraction request enhancedResponse ;;
  ret enhancedResponse.

Definition processMessage (request : AIRequest.t) : M AIResponse.t :=
  try_catch (processTurn request) (fun error => getFallbackResponse request error).

(** ** The chat route ([routes/ai.ts])

    The handler of [POST /chat], as it runs behind the validation
    middleware.  [ChatService] is a collaborator: its two methods are
    oracles of the route's world and its calls are logged next to the store
    of the engine.  Console output is left out. *)

Module UserData.
Record t : Type := { user_id : option string; userId : option string }.
End UserData.

(** [req.body.context] *)
Module ChatContext.
Record t : Type := {
  current_page : option string;
  user_data : option UserData.t;
  store_url : option string;
  store_name : option string
}.
End ChatContext.

Module ChatBody.
Record t : Type := {
  session_id : option string;
  message : string;
  context : option ChatContext.t
}.
End ChatBody.

(** What the handler reads of the Express request. *)
Module ChatRequest.
Record t : Type := {
  shopId : option string;      (* set by the tenant middleware *)
  ip : option string;
  userAgent : option string;   (* req.get('User-Agent') *)
  body : ChatBody.t
}.
End ChatRequest.

(** The argument of [chatService.createChatSession]. *)
Module NewSession.
Record t : Type := {
  siteId : string;
  userId : string;
  ip : option string;          (* userInfo *)
  userAgent : string;
  referrer : string;
  timestamp : Q;
  currentUrl : string;         (* context *)
  storeUrl : string;
  storeName : string;
  contextUserAgent : string;
  spread : option ChatContext.t   (* ...context *)
}.
End NewSession.

(** The [metadata] of a message handed to [chatService.sendMessage]. *)
Inductive MessageMeta : Type :=
  | PluginMeta (context : option ChatContext.t) (ip userAgent : option string)
  | AiMeta (confidence processing_time : Q).

Definition meta_source (m : MessageMeta) : string :=
  match m with
  | PluginMeta _ _ _ => "plugin"
  | AiMeta _ _ => "ai"
  end.

(** The argument of [chatService.sendMessage]. *)
Module OutMessage.
Record t : Type := {
  sessionId : string;
  message : string;
  type : string;
  userId : option string;
  metadata : MessageMeta
}.
End OutMessage.

(** What [chatService.sendMessage] resolves to, as far as the route reads it. *)
Module StoredMessage.
Record t : Type := {
  id : string;
  content : option string;
  message : option string;
  createdAt : Q
}.
End StoredMessage.

Inductive ChatCall : Type :=
  | CreateChatSession (args : NewSession.t)
  | SendMessage (args : OutMessage.t).

Record RouteWorld : Type := {
  engine : World;
  chat_createChatSession : NewSession.t -> Result string;   (* the id of the session *)
  chat_sendMessage : OutMessage.t -> Result StoredMessage.t;
  route_now : Q;                                            (* new Date(), Date.now() *)
  route_now_iso : string                                    (* new Date().toISOString() *)
}.

Module MessageView.
Record t : Type := { id : string; message : option string; timestamp : Q }.
End MessageView.

(** Values of the [metadata] object of the reply. *)
Inductive ReplyMetaVal : Type :=
  | RProducts (products : list ProductSummary.t)
  | RCoupons (coupons : list Coupon.t)
  | RActions (actions : list Action)
  | RNum (q : Q)
  | RStr (s : string)
  | RBool (b : bool).

Definition reply_meta (v : MetaVal) : ReplyMetaVal :=
  match v with
  | MNum q => RNum q
  | MStr s => RStr s
  | MBool b => RBool b
  end.

Module AiReply.
Record t : Type := {
  id : string;
  message : option string;
  timestamp : Q;
  products : list ProductSummary.t;
  metadata : gmap string ReplyMetaVal
}.
End AiReply.

Module ChatData.
Record t : Type := {
  session_id : string;
  user_message : MessageView.t;
  ai_response : AiReply.t;
  products : list ProductSummary.t;
  context : option ChatContext.t    (* [context || {}]: absent reads as the empty object *)
}.
End ChatData.

Inductive ResponseBody : Type :=
  | AuthRequired                                   (* error: 'Shop authentication required' *)
  | ChatSuccess (data : ChatData.t) (timestamp : string)
  | ChatFailure (message : JsError) (timestamp : string).  (* error: 'Chat processing failed' *)

Module HttpResponse.
Record t : Type := { status : nat; body : ResponseBody }.
End HttpResponse.

(** [context?.user_data] *)
Definition body_user_data (context : option ChatContext.t) : option UserData.t :=
  match context with
  | Some c => ChatContext.user_data c
  | None => None
  end.

(** [context?.user_data?.user_id] *)
Definition body_user_id (context : option ChatContext.t) : option string :=
  match body_user_data context with
  | Some u => UserData.user_id u
  | None => None
  end.

(** [context?.user_data?.userId] *)
Definition body_userId (context : option ChatContext.t) : option string :=
  match body_user_data context with
  | Some u => UserData.userId u
  | None => None
  end.

(** [context?.current_page] and its two neighbours. *)
Definition body_field (f : ChatContext.t -> option string) (context : option ChatContext.t)
  : option string :=
  match context with
  | Some c => f c
  | None => None
  end.

Definition newSessionArgs (req : ChatRequest.t) (shopId : string) (now : Q) : NewSession.t :=
  let context := ChatBody.context (ChatRequest.body req) in
  {| NewSession.siteId := shopId;
     NewSession.userId := or_str (body_user_id context) "anonymous";
     NewSession.ip := ChatRequest.ip req;
     NewSession.userAgent := or_str (ChatRequest.userAgent req) "Unknown";
     NewSession.referrer := or_str (body_field ChatContext.current_page context) "";
     NewSession.timestamp := now;
     NewSession.currentUrl := or_str (body_field ChatContext.current_page context) "";
     NewSession.storeUrl := or_str (body_field ChatContext.store_url context) "";
     NewSession.storeName := or_str (body_field ChatContext.store_name context) "";
     NewSession.contextUserAgent := or_str (ChatRequest.userAgent req) "";
     NewSession.spread := context |}.

Definition userMessageArgs (req : ChatRequest.t) (sessionId : string) : OutMessage.t :=
  let context := ChatBody.context (ChatRequest.body req) in
  {| OutMessage.sessionId := sessionId;
     OutMessage.message := ChatBody.message (ChatRequest.body req);
     OutMessage.type := "user";
     OutMessage.userId := body_user_id context;
     OutMessage.metadata :=
       PluginMeta context (ChatRequest.ip req) (ChatRequest.userAgent req) |}.

(** The request handed to the engine: the transcript it carries is always
    the empty array. *)
Definition aiRequest (req : ChatRequest.t) (sessionId shopId : string) : AIRequest.t :=
  let context := ChatBody.context (ChatRequest.body req) in
  {| AIRequest.sessionId := sessionId;
     AIRequest.userId := Some (or_str (body_userId context) "anonymous");
     AIRequest.siteId := shopId;
     AIRequest.message := ChatBody.message (ChatRequest.body req);
     AIRequest.context := Some {| RequestContext.previousMessages := Some [] |} |}.

Definition aiMessageArgs (sessionId responseText : string) (now : Q) : OutMessage.t :=
  {| OutMessage.sessionId := sessionId;
     OutMessage.message := responseText;
     OutMessage.type := "bot";
     OutMessage.userId := Some "ai-assistant";
     OutMessage.metadata := AiMeta (85 # 100) now |}.

(** [m.content || m.message] *)
Definition storedText (m : StoredMessage.t) : option string :=
  match truthy_str (StoredMessage.content m) with
  | Some c => Some c
  | None => StoredMessage.message m
  end.

(** The [metadata] of the reply: six fixed keys, then [...aiResponse.metadata],
    whose keys win. *)
Definition replyMetadata (aiResponse : AIResponse.t) : gmap string ReplyMetaVal :=
  (reply_meta <$> metadata_of aiResponse)
  ∪ <["products" := RProducts (or_empty (AIResponse.products aiResponse))]>
     (<["coupons" := RCoupons (or_empty (AIResponse.coupons aiResponse))]>
      (<["actions" := RActions (AIResponse.actions aiResponse)]>
       (<["intent" := RStr (AIResponse.intent aiResponse)]>
        (<["confidence" := RNum (AIResponse.confidence aiResponse)]>
         (<["sentiment" := RNum (AIResponse.sentiment aiResponse)]> ∅))))).

Definition chatData (req : ChatRequest.t) (sessionId : string)
    (userMessage aiMessage : StoredMessage.t) (aiResponse : AIResponse.t) : ChatData.t :=
  {| ChatData.session_id := sessionId;
     ChatData.user_message :=
       {| MessageView.id := StoredMessage.id userMessage;
          MessageView.message := storedText userMessage;
          MessageView.timestamp := StoredMessage.createdAt userMessage |};
     ChatData.ai_response :=
       {| AiReply.id := StoredMessage.id aiMessage;
          AiReply.message := storedText aiMessage;
          AiReply.timestamp := StoredMessage.createdAt aiMessage;
          AiReply.products := or_empty (AIResponse.products aiResponse);
          AiReply.metadata := replyMetadata aiResponse |};
     ChatData.products := or_empty (AIResponse.products aiResponse);
     ChatData.context := ChatBody.context (ChatRequest.body req) |}.

(** The outcome of the handler: the HTTP response, the store of the engine
    and the log of chat-service calls. *)
Definition RouteResult : Type := HttpResponse.t * Store * list ChatCall.

Definition chatFailed (rw : RouteWorld) (error : JsError) (s : Store) (chat : list ChatCall)
  : RouteResult :=
  ({| HttpResponse.status := 500;
      HttpResponse.body := ChatFailure error (route_now_iso rw) |}, s, chat).

(** The session of the turn: the one named in the body, or a new one. *)
Definition openSession (req : ChatRequest.t) (shopId : string) (rw : RouteWorld)
    (chat : list ChatCall) : Result string * list ChatCall :=
  match truthy_str (ChatBody.session_id (ChatRequest.body req)) with
  | Some sessionId => (Ok sessionId, chat)
  | None =>
      let args := newSessionArgs req shopId (route_now rw) in
      (chat_createChatSession rw args, chat ++ [CreateChatSession args])
  end.

Definition chatHandler (req : ChatRequest.t) (rw : RouteWorld) (s : Store)
    (chat : list ChatCall) : RouteResult :=
  match truthy_str (ChatRequest.shopId req) with
  | None =>
      ({| HttpResponse.status := 401; HttpResponse.body := AuthRequired |}, s, chat)
  | Some shopId =>
      match openSession req shopId rw chat with
      | (Throw error, chat) => chatFailed rw error s chat
      | (Ok sessionId, chat) =>
          (* Send the user message *)
          let userArgs := userMessageArgs req sessionId in
          let chat := chat ++ [SendMessage userArgs] in
          match chat_sendMessage rw userArgs with
          | Throw error => chatFailed rw error s chat
          | Ok userMessage =>
              (* Generate the reply with the engine *)
              match processMessage (aiRequest req sessionId shopId) (engine rw) s with
              | (Throw error, s) => chatFailed rw error s chat
              | (Ok aiResponse, s) =>
                  (* Send the AI message *)
                  let aiArgs :=
                    aiMessageArgs sessionId (AIResponse.message aiResponse) (route_now rw) in
                  let chat := chat ++ [SendMessage aiArgs] in
                  match chat_sendMessage rw aiArgs with
                  | Throw error => chatFailed rw error s chat
                  | Ok aiMessage =>
                      ({| HttpResponse.status := 200;
                          HttpResponse.body :=
                            ChatSuccess
                              (chatData req sessionId userMessage aiMessage aiResponse)
                              (route_now_iso rw) |},
                       s, chat)
                  end
              end
          end
      end
  end.

(** ** The cache connection ([config/redis.ts])

    A client of the Redis library is an object: the connection and every
    [RedisCache] hold references to it, and [isOpen] is a property of the
    object that changes as its socket opens and closes.  The state below
    keeps the [isOpen] flag of every client object created so far next to
    the three fields of the [RedisConnection] singleton. *)

(** [reconnectStrategy]: the delay before the next attempt, [None] for the
    [null] that gives up. *)
Definition reconnectStrategy (retries : Q) : option Q :=
  if Qlt_bool 5 retries then None
  else Some (Qmin (retries * 100) 2000).

Definition ClientRef : Type := nat.

Module RedisConnection.
Record t : Type := {
  client : option ClientRef;
  subscriber : option ClientRef;
  publisher : option ClientRef
}.

Definition none : t := {| client := None; subscriber := None; publisher := None |}.
End RedisConnection.

Record RedisState : Type := {
  isOpen : gmap ClientRef bool;
  next_client : ClientRef;          (* the next object createClient allocates *)
  redisConnection : RedisConnection.t
}.

(** [field?.isOpen], read as a condition. *)
Definition field_isOpen (st : RedisState) (field : option ClientRef) : bool :=
  match field with
  | Some c => default false (isOpen st !! c)
  | None => false
  end.

(** [connect]: [established c] tells whether the [connect()] of client [c]
    resolved before the ten-second timeout; the three connects succeed
    together or the [catch] resets all three fields. *)
Definition connect (redisUrl : option string) (established : ClientRef -> bool)
    (st : RedisState) : RedisState :=
  match truthy_str redisUrl with
  | None => st
  | Some url =>
      if String.eqb (Js.trim url) "" then st
      else if negb (Js.starts_with "redis://" url) && negb (Js.starts_with "rediss://" url)
      then st
      else
        let client := next_client st in
        let subscriber := S client in
        let publisher := S subscriber in
        let opened :=
          <[publisher := established publisher]>
            (<[subscriber := established subscriber]>
               (<[client := established client]> (isOpen st))) in
        {| isOpen := opened;
           next_client := S publisher;
           redisConnection :=
             if established client && established subscriber && established publisher
             then {| RedisConnection.client := Some client;
                     RedisConnection.subscriber := Some subscriber;
                     RedisConnection.publisher := Some publisher |}
             else RedisConnection.none |}
  end.

Inductive ClientRole : Type := MainClient | Subscriber | Publisher.

(** The ['error'] handlers registered by [connect]: each resets its field. *)
Definition onError (role : ClientRole) (st : RedisState) : RedisState :=
  let c := redisConnection st in
  {| isOpen := isOpen st;
     next_client := next_client st;
     redisConnection :=
       match role with
       | MainClient =>
           {| RedisConnection.client := None;
              RedisConnection.subscriber := RedisConnection.subscriber c;
              RedisConnection.publisher := RedisConnection.publisher c |}
       | Subscriber =>
           {| RedisConnection.client := RedisConnection.client c;
              RedisConnection.subscriber := None;
              RedisConnection.publisher := RedisConnection.publisher c |}
       | Publisher =>
           {| RedisConnection.client := RedisConnection.client c;
              RedisConnection.subscriber := RedisConnection.subscriber c;
              RedisConnection.publisher := None |}
       end |}.

(** [getClient], [getSubscriber] and [getPublisher] have the same body. *)
Definition getOpen (st : RedisState) (field : option ClientRef) : option ClientRef :=
  match field with
  | None => None
  | Some c => if default false (isOpen st !! c) then Some c else None
  end.

Definition getClient (st : RedisState) : option ClientRef :=
  getOpen st (RedisConnection.client (redisConnection st)).

Definition getSubscriber (st : RedisState) : option ClientRef :=
  getOpen st (RedisConnection.subscriber (redisConnection st)).

Definition getPublisher (st : RedisState) : option ClientRef :=
  getOpen st (RedisConnection.publisher (redisConnection st)).

Definition isConnected (st : RedisState) : bool :=
  field_isOpen st (RedisConnection.client (redisConnection st))
  && field_isOpen st (RedisConnection.subscriber (redisConnection st))
  && field_isOpen st (RedisConnection.publisher (redisConnection st)).

Definition getRedisClientSafe (st : RedisState) : option ClientRef :=
  if isConnected st then getClient st else None.

(** [RedisCache]: the instance keeps the first client it obtained. *)
Module RedisCache.
Record t : Type := { client : option ClientRef }.

Definition getClient (cache : t) (st : RedisState) : option ClientRef * t :=
  match client cache with
  | Some c => (Some c, cache)
  | None =>
      match getRedisClientSafe st with
      | None => (None, cache)
      | Some c => (Some c, {| client := Some c |})
      end
  end.
End RedisCache.

(** The state before the first [connect]. *)
Definition redisInitial : RedisState :=
  {| isOpen := ∅; next_client := 0; redisConnection := RedisConnection.none |}.

(** ** Catalog import ([ProductService])

    The WooCommerce API and the bulk write of the catalog store are
    collaborators.  The records that travel through the import are left
    abstract: [W] is what the shop API returns, [P] the product document
    that is written, and [transformWooCommerceProduct] is a total function
    between them, as it is on records of the declared interface.
    [syncProductReviews], [updateSyncTimestamp] and [clearProductCache]
    catch their own errors and do not touch the result; they are left out,
    as are logging, the timer and the pause between batches. *)

Module SyncOptions.
Record t : Type := {
  batchSize : option Q;
  includeVariations : option bool;
  includeReviews : option bool;
  compressionEnabled : option bool
}.
End SyncOptions.

Module SyncResult.
Record t : Type := { success : bool; synced : Z; errors : list string }.
End SyncResult.

Record ImportWorld (W P : Type) : Type := {
  (* getWooCommerceProductCount: the parsed [x-wp-total] header, [None] for NaN *)
  wc_productCount : Result (option Z);
  (* fetchWooCommerceProducts, by page and per_page *)
  wc_fetchProducts : nat -> Q -> Result (list W);
  (* ProductModel.bulkWrite: upsertedCount + modifiedCount *)
  db_bulkWrite : list P -> Result Z
}.
Arguments wc_productCount {W P} _.
Arguments wc_fetchProducts {W P} _ _ _.
Arguments db_bulkWrite {W P} _ _.

(** [bulkUpsertProducts]: an empty batch is not written. *)
Definition bulkUpsertProducts {W P : Type} (w : ImportWorld W P) (products : list P)
  : Result Z :=
  match products with
  | [] => Ok 0%Z
  | _ => db_bulkWrite w products
  end.

(** [options.batchSize || 500] *)
Definition syncBatchSize (options : SyncOptions.t) : Q :=
  match truthy_num (SyncOptions.batchSize options) with
  | Some size => size
  | None => 500%Q
  end.

(** [Math.ceil(totalCount / batchSize)] pages, numbered from 1; none when
    the count is NaN. *)
Definition syncPages (totalCount : option Z) (batchSize : Q) : list nat :=
  match totalCount with
  | Some count => seq 1 (Z.to_nat (Qceiling (inject_Z count / batchSize)))
  | None => []
  end.

Definition batchError (page : nat) (message : JsError) : string :=
  "Batch " +:+ pretty page +:+ " failed: " +:+ message.

(** What one batch does: the documents it wrote, or the error that ended it. *)
Definition batchOutcome {W P : Type} (w : ImportWorld W P) (transform : W -> P)
    (batchSize : Q) (page : nat) : Result Z :=
  match wc_fetchProducts w page batchSize with
  | Ok products => bulkUpsertProducts w (map transform products)
  | Throw e => Throw e
  end.

(** The body of the [for] loop, with its own [try]/[catch]. *)
Definition syncBatch {W P : Type} (w : ImportWorld W P) (transform : W -> P)
    (batchSize : Q) (state : Z * list string) (page : nat) : Z * list string :=
  let '(totalSynced, errors) := state in
  match batchOutcome w transform batchSize page with
  | Ok syncedCount => ((totalSynced + syncedCount)%Z, errors)
  | Throw message => (totalSynced, errors ++ [batchError page message])
  end.

Definition syncProductsFromWooCommerce {W P : Type} (w : ImportWorld W P)
    (transform : W -> P) (options : SyncOptions.t) : SyncResult.t :=
  let batchSize := syncBatchSize options in
  match wc_productCount w with
  | Ok totalCount =>
      let '(totalSynced, errors) :=
        fold_left (syncBatch w transform batchSize) (syncPages totalCount batchSize)
          (0%Z, []) in
      {| SyncResult.success := (length errors =? 0) || (0 <? totalSynced)%Z;
         SyncResult.synced := totalSynced;
         SyncResult.errors := errors |}
  | Throw message =>
      {| SyncResult.success := false;
         SyncResult.synced := 0%Z;
         SyncResult.errors := [message] |}
  end.

Module ImportResult.
Record t : Type := { imported : Z; updated : Z; failed : Z }.
End ImportResult.

(** One entry of [products.map(...)] in [bulkImportProducts].  [transform]
    is the mapping inside the inner [try], which throws on an entry it
    cannot read; the inner [catch] then counts the entry and yields [null].
    On an entry that is itself [null] or [undefined] ([None] here) the inner
    [catch] throws in turn, when it reads [product.id] for its log line. *)
Definition importEntry {R P : Type} (transform : R -> Result P) (product : option R)
  : Result (option P) :=
  match product with
  | Some product =>
      match transform product with
      | Ok p => Ok (Some p)
      | Throw _ => Ok None
      end
  | None => Throw "Cannot read properties of null (reading 'id')"
  end.

(** The [map] over the request: the mapped entries and the [failed]
    counter, or the throw that leaves the [map]. *)
Fixpoint importEntries {R P : Type} (transform : R -> Result P)
    (products : list (option R)) (failed : Z) : Result (list (option P) * Z) :=
  match products with
  | [] => Ok ([], failed)
  | product :: rest =>
      match importEntry transform product with
      | Throw error => Throw error
      | Ok mapped =>
          let failed := match mapped with
                        | Some _ => failed
                        | None => (failed + 1)%Z
                        end in
          match importEntries transform rest failed with
          | Throw error => Throw error
          | Ok (mappedRest, failed) => Ok (mapped :: mappedRest, failed)
          end
      end
  end.

Definition bulkImportProducts {R W P : Type} (w : ImportWorld W P)
    (transform : R -> Result P) (products : list (option R)) : ImportResult.t :=
  let gaveUp :=
    {| ImportResult.imported := 0%Z;
       ImportResult.updated := 0%Z;
       ImportResult.failed := Z.of_nat (length products) |} in
  match importEntries transform products 0%Z with
  | Throw _ => gaveUp
  | Ok (mapped, failed) =>
      let transformedProducts := omap (fun entry => entry) mapped in   (* filter(Boolean) *)
      match bulkUpsertProducts w transformedProducts with
      | Ok upsertedCount =>
          let imported := Z.min upsertedCount (Z.of_nat (length transformedProducts)) in
          let updated := Z.max 0 (upsertedCount - imported) in
          {| ImportResult.imported := imported;
             ImportResult.updated := updated;
             ImportResult.failed := failed |}
      | Throw _ => gaveUp
      end
  end.

(** ** Sample environments

    Concrete stores, catalogs and collaborators on which the methods can be
    run. *)

Definition emptyStore : Store :=
  {| contexts := ∅; knowledge := ∅; responses := ∅; calls := [] |}.

Definition laptop (id stock : string) (rating reviews : Q) : Product.t :=
  {| Product.id := id;
     Product.name := "Laptop " +:+ id;
     Product.description := Some "A laptop";
     Product.shortDescription := None;
     Product.price := 999%Q;
     Product.regularPrice := None;
     Product.salePrice := None;
     Product.currency := Some "$";
     Product.stockStatus := stock;
     Product.averageRating := Some rating;
     Product.reviewCount := Some reviews;
     Product.categories := [ {| Category.name := "laptops" |} ];
     Product.images := [];
     Product.permalink := "/product/" +:+ id |}.

Definition catalog : list Product.t :=
  [ laptop "p1" "outofstock" (9 # 2) 10;
    laptop "p2" "instock" 4 3;
    laptop "p3" "instock" (24 # 5) 7;
    laptop "p4" "instock" (24 # 5) 20;
    laptop "p5" "outofstock" 5 1 ].

Definition plainReply (text : string) : Completion.t :=
  {| Completion.message :=
       Some {| ResponseMessage.content := Some text;
               ResponseMessage.function_call := None |};
     Completion.total_tokens := Some 42%Q |}.

Definition noAnalysis : ParsedAnalysis.t :=
  {| ParsedAnalysis.intent := None; ParsedAnalysis.sentiment := None;
     ParsedAnalysis.confidence := None; ParsedAnalysis.entities := None;
     ParsedAnalysis.urgency := None; ParsedAnalysis.purchaseReadiness := None |}.

(** A world built from the answers its collaborators give. *)
Definition mkWorld (model : string) (up : bool)
    (count : Result Q)
    (search bySite : Result (list Product.t))
    (completion : Result Completion.t)
    (parsed : Result ParsedAnalysis.t)
    (eligibility : Result Eligibility.t)
    (issued : Result (option Coupon.t)) : World :=
  {| cfg_model := model;
     cfg_maxTokens := 1000%Q;
     cfg_temperature := (7 # 10)%Q;
     redis_up := up;
     db_countDocuments := fun _ _ => count;
     db_findOne := fun id _ =>
       match bySite with
       | Ok products =>
           Ok (List.find (fun p => match id with
                                   | Some i => String.eqb (Product.id p) i
                                   | None => true
                                   end) products)
       | Throw e => Throw e
       end;
     db_searchProducts := fun _ _ _ => search;
     db_findBySite := fun _ _ => bySite;
     db_findByCategory := fun _ _ => search;
     db_findSortedByName := fun _ _ => bySite;
     llm_create := fun _ => completion;
     coupon_checkEligibility := fun _ _ _ => eligibility;
     coupon_generate := fun _ _ _ => issued;
     coupon_generate_null := fun _ _ => issued;
     log_aiInteraction := fun _ _ => Ok tt;
     analytics_trackAIInteraction := fun _ _ _ _ _ _ => Ok tt;
     random_bits := 0%N;
     date_now := 0%Q;
     number_toString := fun _ => "0";
     json_parse_analysis := fun _ => parsed;
     json_parse_arguments := fun _ => Throw "Unexpected token";
     regexp_compiles := fun _ => true |}.

Definition down {A : Type} : Result A := Throw "service unavailable".

(** Every collaborator fails and the cache is disconnected. *)
Definition deadWorld : World :=
  mkWorld "gpt-4" false down down down down down down down.

(** A working shop on a text-pattern (Claude) model: the catalog is
    published, the text search finds nothing, the coupon issuer issues
    [SAVE] but reports the session as not eligible. *)
Definition shopWorld : World :=
  mkWorld "claude-3" true
    (Ok 5%Q) (Ok []) (Ok catalog)
    (Ok (plainReply "We have a special offer for you"))
    (Ok noAnalysis)
    (Ok {| Eligibility.eligible := false; Eligibility.maxDiscount := 0%Q |})
    (Ok (Some {| Coupon.code := "SAVE" |})).

(** The same shop with an eligible session allowed a 20% discount. *)
Definition eligibleWorld : World :=
  mkWorld "claude-3" true
    (Ok 5%Q) (Ok []) (Ok catalog)
    (Ok (plainReply "We have a special offer for you"))
    (Ok noAnalysis)
    (Ok {| Eligibility.eligible := true; Eligibility.maxDiscount := 20%Q |})
    (Ok (Some {| Coupon.code := "SAVE" |})).

(** The shop with the catalog store down. *)
Definition storeDownWorld : World :=
  mkWorld "claude-3" true
    down down down
    (Ok (plainReply "We have a special offer for you"))
    (Ok noAnalysis)
    (Ok {| Eligibility.eligible := true; Eligibility.maxDiscount := 20%Q |})
    (Ok (Some {| Coupon.code := "SAVE" |})).

Definition sampleContext (knowledge : option (list LangGraphNode.t)) : ConversationContext.t :=
  {| ConversationContext.sessionId := "sess1";
     ConversationContext.userId := None;
     ConversationContext.siteId := "S1";
     ConversationContext.userInterests := [];
     ConversationContext.previousMessages := [];
     ConversationContext.currentIntent := None;
     ConversationContext.sentimentHistory := [];
     ConversationContext.productPreferences :=
       {| ProductPreferences.categories := [];
          ProductPreferences.priceRange := None;
          ProductPreferences.features := [] |};
     ConversationContext.productKnowledge := knowledge |}.

Definition sampleAnalysis (intent readiness : string) : Analysis.t :=
  {| Analysis.intent := intent;
     Analysis.sentiment := 0%Q;
     Analysis.confidence := (5 # 10)%Q;
     Analysis.entities := Some {| Entities.products := None; Entities.categories := None |};
     Analysis.urgency := "medium";
     Analysis.purchaseReadiness := readiness |}.

Definition sampleResponse (intent : string) : AIResponse.t :=
  {| AIResponse.message := "Sure.";
     AIResponse.intent := intent;
     AIResponse.confidence := (5 # 10)%Q;
     AIResponse.sentiment := 0%Q;
     AIResponse.actions := [];
     AIResponse.products := None;
     AIResponse.coupons := None;
     AIResponse.shouldEndConversation := None;
     AIResponse.metadata := Some (<["tokenUsage" := MNum 42%Q]> ∅) |}.

Definition sampleRequest (message : string) (history : option (list ChatMessage.t))
  : AIRequest.t :=
  {| AIRequest.sessionId := "sess1";
     AIRequest.userId := None;
     AIRequest.siteId := "S1";
     AIRequest.message := message;
     AIRequest.context := Some {| RequestContext.previousMessages := history |} |}.

Definition helloMessage : ChatMessage.t :=
  {| ChatMessage.type := "user"; ChatMessage.content := "hello, I need cheap shoes" |}.

(** A store that holds a transcript for session [sess1]. *)
Definition cachedStore : Store :=
  {| contexts :=
       <["conversation_context:sess1" :=
           ConversationContext.set_previousMessages [helloMessage] (sampleContext None)]> ∅;
     knowledge := ∅; responses := ∅; calls := [] |}.

(** The context after retrieval found the whole sample catalog. *)
Definition catalogContext : ConversationContext.t :=
  sampleContext (Some (knowledgeNodes (fun _ => "0") catalog)).

Definition inventoryQuery : string := "how many laptops do you have".

(** A query that asks for everything and names a brand. *)
Definition showAllBrandQuery : string := "show all laptops asus".

(** The value of a computation that is known not to throw. *)
Definition value_of {A : Type} (d : A) (run : Result A * Store) : A :=
  match fst run with
  | Ok a => a
  | Throw _ => d
  end.

(** The world with another answer to the eligibility check. *)
Definition with_checkEligibility
    (f : string -> string -> option string -> Result Eligibility.t) (w : World) : World :=
  {| cfg_model := cfg_model w;
     cfg_maxTokens := cfg_maxTokens w;
     cfg_temperature := cfg_temperature w;
     redis_up := redis_up w;
     db_countDocuments := db_countDocuments w;
     db_findOne := db_findOne w;
     db_searchProducts := db_searchProducts w;
     db_findBySite := db_findBySite w;
     db_findByCategory := db_findByCategory w;
     db_findSortedByName := db_findSortedByName w;
     llm_create := llm_create w;
     coupon_checkEligibility := f;
     coupon_generate := coupon_generate w;
     coupon_generate_null := coupon_generate_null w;
     log_aiInteraction := log_aiInteraction w;
     analytics_trackAIInteraction := analytics_trackAIInteraction w;
     random_bits := random_bits w;
     date_now := date_now w;
     number_toString := number_toString w;
     json_parse_analysis := json_parse_analysis w;
     json_parse_arguments := json_parse_arguments w;
     regexp_compiles := regexp_compiles w |}.

Definition isEligibilityCheck (c : Call) : bool :=
  match c with
  | CouponCheckEligibility _ _ _ => true
  | _ => false
  end.

Definition offerReply : string := "We have a special offer for you".

(** The numbers [analyzeProductPreferences] reads in one message. *)
Definition messagePrices (message : ChatMessage.t) : list Q :=
  map (fun p => parseFloat (drop_first_dollar p))
      (match_all false pricePattern (Js.toLowerCase (ChatMessage.content message))).

(** The six openings of the greeting pattern. *)
Definition greetingWords : list string :=
  ["hi"; "hello"; "hey"; "good morning"; "good afternoon"; "good evening"].

Definition intentLabels : list string :=
  ["greeting"; "product_inquiry"; "price_question"; "comparison";
   "purchase_intent"; "complaint"; "goodbye"; "unknown"].

(** A store whose knowledge cache holds the nodes of the sample catalog
    for the query [show me gaming laptops] of site [S1]. *)
Definition gamingStore : Store :=
  {| contexts := ∅;
     knowledge :=
       <[knowledgeCacheKey "show me gaming laptops" "S1" :=
           knowledgeNodes (fun _ => "0") catalog]> ∅;
     responses := ∅; calls := [] |}.

(** The function names handleFunctionCall dispatches on. *)
Definition callableFunctions : list string :=
  map FunctionSpec.name getAvailableFunctions.

(** The kind of action a function name can produce. *)
Definition actionTypeFor (functionName : string) : string :=
  if String.eqb functionName "request_human_transfer" then "transfer_human"
  else if String.eqb functionName "generate_coupon" then "generate_coupon"
  else "show_products".

(** What a lookup by identifier finds, a failed lookup counting as nothing. *)
Definition knownProduct (w : World) (siteId productId : string) : option Product.t :=
  match db_findOne w (Some productId) siteId with
  | Ok o => o
  | Throw _ => None
  end.

(** The store after the collaborator calls [cs] were logged in turn. *)
Definition logs (cs : list Call) (s : Store) : Store :=
  {| contexts := contexts s; knowledge := knowledge s;
     responses := responses s; calls := calls s ++ cs |}.

(** A chat service that stores every message, and a route world around the
    sample shop. *)
Definition storeMessage (args : OutMessage.t) : Result StoredMessage.t :=
  Ok {| StoredMessage.id := "m-" +:+ OutMessage.type args;
        StoredMessage.content := Some (OutMessage.message args);
        StoredMessage.message := None;
        StoredMessage.createdAt := 0%Q |}.

Definition shopRoute : RouteWorld :=
  {| engine := shopWorld;
     chat_createChatSession := fun _ => Ok "sess-new";
     chat_sendMessage := storeMessage;
     route_now := 0%Q;
     route_now_iso := "2024-01-01T00:00:00.000Z" |}.

Definition chatRequest (shopId session_id : option string) (message : string)
  : ChatRequest.t :=
  {| ChatRequest.shopId := shopId;
     ChatRequest.ip := Some "127.0.0.1";
     ChatRequest.userAgent := None;
     ChatRequest.body :=
       {| ChatBody.session_id := session_id;
          ChatBody.message := message;
          ChatBody.context := None |} |}.

(** The six keys the route writes into the metadata of the reply itself. *)
Definition routeMetadataKeys : list string :=
  ["products"; "coupons"; "actions"; "intent"; "confidence"; "sentiment"].

(** The documents a batch wrote, none when it failed. *)
Definition batchCount (outcome : Result Z) : Z :=
  match outcome with
  | Ok n => n
  | Throw _ => 0%Z
  end.

(** A shop of three pages of two products whose second page cannot be
    fetched; every write stores what it is given. *)
Definition flakyShop : ImportWorld string string :=
  {| wc_productCount := Ok (Some 5%Z);
     wc_fetchProducts := fun page _ =>
       if Nat.eqb page 2 then Throw "timeout" else Ok ["a"; "b"];
     db_bulkWrite := fun products => Ok (Z.of_nat (length products)) |}.

Definition batchesOf (size : Q) : SyncOptions.t :=
  {| SyncOptions.batchSize := Some size;
     SyncOptions.includeVariations := None;
     SyncOptions.includeReviews := None;
     SyncOptions.compressionEnabled := None |}.

(** A world whose two logging sinks answer as given. *)
Definition with_sinks (logged tracked : Result unit) (w : World) : World :=
  {| cfg_model := cfg_model w;
     cfg_maxTokens := cfg_maxTokens w;
     cfg_temperature := cfg_temperature w;
     redis_up := redis_up w;
     db_countDocuments := db_countDocuments w;
     db_findOne := db_findOne w;
     db_searchProducts := db_searchProducts w;
     db_findBySite := db_findBySite w;
     db_findByCategory := db_findByCategory w;
     db_findSortedByName := db_findSortedByName w;
     llm_create := llm_create w;
     coupon_checkEligibility := coupon_checkEligibility w;
     coupon_generate := coupon_generate w;
     coupon_generate_null := coupon_generate_null w;
     log_aiInteraction := fun _ _ => logged;
     analytics_trackAIInteraction := fun _ _ _ _ _ _ => tracked;
     random_bits := random_bits w;
     date_now := date_now w;
     number_toString := number_toString w;
     json_parse_analysis := json_parse_analysis w;
     json_parse_arguments := json_parse_arguments w;
     regexp_compiles := regexp_compiles w |}.

(** ** Specification predicates *)

(** A computation that never throws. *)
Definition safe {A : Type} (m : M A) : Prop :=
  forall w s, exists a s', m w s = (Ok a, s').

(** [a] may stand before [b] in the ranking: the comparator does not put
    [a] after [b]. *)
Definition rank_le (a b : Product.t) : Prop :=
  Qle_bool (compareProducts a b) 0 = true.

(** An out-of-stock [a] is never in front of an in-stock [b]. *)
Definition stock_le (a b : Product.t) : Prop :=
  instock b = true -> instock a = true.

(** A computation that leaves one component of the store as it found it. *)
Definition keeps {A B : Type} (field : Store -> B) (m : M A) : Prop :=
  forall w s, field (snd (m w s)) = field s.

(** The key under which cacheResponse files the response of a request. *)
Definition responseCacheKey (request : AIRequest.t) : string :=
  "ai_response:" +:+ Js.base64 (AIRequest.message request) +:+ ":" +:+
  AIRequest.siteId request.

(** What the cache holds: the three namespaces of the store. *)
Definition cached (s : Store)
  : gmap string ConversationContext.t * gmap string (list LangGraphNode.t)
    * gmap string AIResponse.t :=
  (contexts s, knowledge s, responses s).

(** A computation whose outcome is the same from every store. *)
Definition oblivious {A : Type} (m : M A) : Prop :=
  forall w s1 s2, fst (m w s1) = fst (m w s2).

(** A computation for which the cache is inert: it leaves the cache as it
    finds it, and what it returns does not depend on what the cache holds. *)
Definition inert {A : Type} (m : M A) : Prop := keeps cached m /\ oblivious m.

(* end of specification predicates *)

(** * Properties *)

(** ** Sanity checks of the primitives *)

Example toLowerCase_mixed : Js.toLowerCase "Show ME All" = "show me all".
Proof. reflexivity. Qed.

Example split_ws_inner_run : Js.split_ws "this is  broken" = ["this"; "is"; "broken"].
Proof. reflexivity. Qed.

Example split_ws_outer_runs : Js.split_ws " a " = [""; "a"; ""].
Proof. reflexivity. Qed.

Example base64_padding :
  Js.base64 "laptops" = "bGFwdG9wcw==" /\ Js.base64 "Man" = "TWFu" /\ Js.base64 "Ma" = "TWE=".
Proof. repeat split; reflexivity. Qed.

Example inventory_pattern_matches :
  isInventoryQuery "How many  Laptops do you have" = true
  /\ isInventoryQuery "count productsx" = false.
Proof. split; reflexivity. Qed.

Example brand_pattern_needs_word_boundary :
  isSpecificProductQuery "I like hamsing" = false
  /\ isSpecificProductQuery "the MSI one" = true.
Proof. split; reflexivity. Qed.

Example search_call_capture :
  match_group true searchCallPattern
    ("I will search_products: red shoes" +:+ nl +:+ "next line")
  = Some (Some "red shoes").
Proof. reflexivity. Qed.

Example price_tokens :
  match_all false pricePattern "between $100 and 250.50 or 3.5"
  = ["$100"; "250.50"; "3"; "5"].
Proof. reflexivity. Qed.

(** ** Running computations *)

Lemma bind_inv {A B : Type} (m : M A) (f : A -> M B) w s r s' :
  bind m f w s = (r, s') ->
  (exists a s1, m w s = (Ok a, s1) /\ f a w s1 = (r, s'))
  \/ (exists e, m w s = (Throw e, s') /\ r = Throw e).
Proof.
  unfold bind. destruct (m w s) as [[a|e] s1]; intros H.
  - left. eauto.
  - right. inversion H; subst. eauto.
Qed.

Lemma try_catch_inv {A : Type} (m : M A) (h : JsError -> M A) w s r s' :
  try_catch m h w s = (r, s') ->
  (exists a, m w s = (Ok a, s') /\ r = Ok a)
  \/ (exists e s1, m w s = (Throw e, s1) /\ h e w s1 = (r, s')).
Proof.
  unfold try_catch. destruct (m w s) as [[a|e] s1]; intros H.
  - left. inversion H; subst. eauto.
  - right. eauto.
Qed.

Lemma safe_ret {A : Type} (a : A) : safe (ret a).
Proof. intros w s. unfold ret. eauto. Qed.

Lemma safe_bind {A B : Type} (m : M A) (f : A -> M B) :
  safe m -> (forall a, safe (f a)) -> safe (bind m f).
Proof.
  intros Hm Hf w s. destruct (Hm w s) as (a & s1 & E).
  unfold bind. rewrite E. apply Hf.
Qed.

Lemma safe_try_catch {A : Type} (m : M A) (h : JsError -> M A) :
  (forall e, safe (h e)) -> safe (try_catch m h).
Proof.
  intros Hh w s. unfold try_catch.
  destruct (m w s) as [[a|e] s1]; [eauto | apply Hh].
Qed.

Lemma safe_ask {A : Type} (f : World -> A) : safe (ask f).
Proof. intros w s. unfold ask. eauto. Qed.

(** ** The cache client *)

(** Through the Proxy, [getClient] never yields a client: whatever the
    connection reports, the field it returns is the one of the hidden
    instance, which stays [null]. *)
Lemma proxy_getClient_null {C : Type} (safe : option C) : proxy_getClient None safe = None.
Proof. destruct safe; reflexivity. Qed.

Lemma redisCache_getClient_null (w : World) : redisCache_getClient w = None.
Proof. apply proxy_getClient_null. Qed.

Lemma redisCache_get_context_miss (key : string) (w : World) (s : Store) :
  redisCache_get_context key w s = (Ok None, log (CacheGet key) s).
Proof. unfold redisCache_get_context. rewrite redisCache_getClient_null. reflexivity. Qed.

Lemma redisCache_set_context_off (key : string) (v : ConversationContext.t)
    (w : World) (s : Store) :
  redisCache_set_context key v w s = (Ok false, log (CacheSet key) s).
Proof. unfold redisCache_set_context. rewrite redisCache_getClient_null. reflexivity. Qed.

Lemma redisCache_get_knowledge_miss (key : string) (w : World) (s : Store) :
  redisCache_get_knowledge key w s = (Ok None, log (CacheGet key) s).
Proof. unfold redisCache_get_knowledge. rewrite redisCache_getClient_null. reflexivity. Qed.

Lemma redisCache_set_knowledge_off (key : string) (v : list LangGraphNode.t)
    (w : World) (s : Store) :
  redisCache_set_knowledge key v w s = (Ok false, log (CacheSet key) s).
Proof. unfold redisCache_set_knowledge. rewrite redisCache_getClient_null. reflexivity. Qed.

Lemma redisCache_set_response_off (key : string) (v : AIResponse.t)
    (w : World) (s : Store) :
  redisCache_set_response key v w s = (Ok false, log (CacheSet key) s).
Proof. unfold redisCache_set_response. rewrite redisCache_getClient_null. reflexivity. Qed.

(** ** Classifier fallback *)

Lemma first_matching_spec (patterns : list (string * regex)) (s : string) :
  match first_matching patterns s with
  | Some intent =>
      exists pre pattern post,
        patterns = pre ++ (intent, pattern) :: post
        /\ Forall (fun ip => test true (snd ip) s = false) pre
        /\ test true pattern s = true
  | None => Forall (fun ip => test true (snd ip) s = false) patterns
  end.
Proof.
  induction patterns as [|[intent pattern] rest IH]; simpl.
  - constructor.
  - destruct (test true pattern s) eqn:E.
    + exists [], pattern, rest. repeat split; [constructor | exact E].
    + destruct (first_matching rest s) as [i|].
      * destruct IH as (pre & p & post & -> & Hpre & Hp).
        exists ((intent, pattern) :: pre), p, post.
        repeat split; [constructor; [exact E | exact Hpre] | exact Hp].
      * constructor; [exact E | exact IH].
Qed.

Lemma split_ws_from_nonempty (in_run : bool) (cur s : string) :
  (0 < length (Js.split_ws_from in_run cur s))%nat.
Proof.
  revert in_run cur. induction s as [|c s IH]; intros in_run cur; simpl.
  - lia.
  - destruct (Js.is_space c); [destruct in_run|]; simpl; auto; lia.
Qed.

Lemma Qmin_le_l (a b : Q) : (Qmin a b <= a)%Q.
Proof.
  unfold Qmin. destruct (Qle_bool a b) eqn:E.
  - apply Qle_refl.
  - destruct (Qlt_le_dec a b) as [H|H]; [|exact H].
    apply Qlt_le_weak, Qle_bool_iff in H. congruence.
Qed.

Lemma Qmin_le_r (a b : Q) : (Qmin a b <= b)%Q.
Proof.
  unfold Qmin. destruct (Qle_bool a b) eqn:E.
  - apply Qle_bool_iff. exact E.
  - apply Qle_refl.
Qed.

Lemma Qmax_ge_l (a b : Q) : (a <= Qmax a b)%Q.
Proof.
  unfold Qmax. destruct (Qle_bool a b) eqn:E.
  - apply Qle_bool_iff. exact E.
  - apply Qle_refl.
Qed.

Lemma Qmax_lub (a b c : Q) : (a <= c)%Q -> (b <= c)%Q -> (Qmax a b <= c)%Q.
Proof. intros Ha Hb. unfold Qmax. destruct (Qle_bool a b); assumption. Qed.

(** The clamp [Math.max(-1, Math.min(1, x))]. *)
Lemma clamp_cases (x : Q) :
  let y := Qmax (-1) (Qmin 1 x) in
  (-1 <= y <= 1)%Q
  /\ ((-1 <= x <= 1)%Q -> (y == x)%Q)
  /\ ((1 < x)%Q -> y = 1%Q)
  /\ ((x < -1)%Q -> y = (-1)%Q).
Proof.
  simpl. unfold Qmax, Qmin.
  destruct (Qle_bool 1 x) eqn:E1.
  - apply Qle_bool_iff in E1.
    replace (Qle_bool (-1) 1) with true by reflexivity.
    repeat split; intros; lra.
  - assert (Hx : (x < 1)%Q).
    { destruct (Qlt_le_dec x 1) as [H|H]; [exact H|].
      apply Qle_bool_iff in H. congruence. }
    destruct (Qle_bool (-1) x) eqn:E2.
    + apply Qle_bool_iff in E2. repeat split; intros; lra.
    + assert (Hx2 : (x < -1)%Q).
      { destruct (Qlt_le_dec x (-1)) as [H|H]; [exact H|].
        apply Qle_bool_iff in H. congruence. }
      repeat split; intros; lra.
Qed.

Lemma array_includes_elem_of (l : list string) (x : string) :
  Js.array_includes l x = true <-> x ∈ l.
Proof.
  unfold Js.array_includes. rewrite existsb_exists. split.
  - intros (y & Hy & E). apply String.eqb_eq in E. subst y.
    apply list_elem_of_In. exact Hy.
  - intros H. exists x. split; [apply list_elem_of_In, H | apply String.eqb_refl].
Qed.

(** The [forEach] loop counts: one up for each word of the positive list,
    one down for each word of the negative list. *)
Lemma score_counts (positive negative : list string) (words : list string) (score : Z) :
  fold_left (fun score word =>
               let score1 := if Js.array_includes positive word
                             then (score + 1)%Z else score in
               if Js.array_includes negative word then (score1 - 1)%Z else score1)
    words score
  = (score + Z.of_nat (length (filter (fun word => word ∈ positive) words))
     - Z.of_nat (length (filter (fun word => word ∈ negative) words)))%Z.
Proof.
  revert score. induction words as [|word words IH]; intros score.
  - cbn. lia.
  - cbn [fold_left]. rewrite IH. cbv zeta.
    destruct (Js.array_includes positive word) eqn:Ep,
             (Js.array_includes negative word) eqn:En.
    + rewrite !filter_cons_True by (apply array_includes_elem_of; assumption).
      cbn [length]. lia.
    + rewrite (filter_cons_True (fun word => word ∈ positive))
        by (apply array_includes_elem_of; assumption).
      rewrite (filter_cons_False (fun word => word ∈ negative))
        by (rewrite <- array_includes_elem_of, En; discriminate).
      cbn [length]. lia.
    + rewrite (filter_cons_False (fun word => word ∈ positive))
        by (rewrite <- array_includes_elem_of, Ep; discriminate).
      rewrite (filter_cons_True (fun word => word ∈ negative))
        by (apply array_includes_elem_of; assumption).
      cbn [length]. lia.
    + rewrite (filter_cons_False (fun word => word ∈ positive))
        by (rewrite <- array_includes_elem_of, Ep; discriminate).
      rewrite (filter_cons_False (fun word => word ∈ negative))
        by (rewrite <- array_includes_elem_of, En; discriminate).
      lia.
Qed.

(** C6.  The fallback classifier tries the intent patterns in the order
    greeting, product_inquiry, price_question, comparison, purchase_intent,
    complaint, goodbye; it answers with the first pattern that matches the
    lower-cased message and with [unknown] when none does.  The message
    [bye] is classified as [goodbye]; [this is broken and terrible] gets a
    strictly negative sentiment; and every sentiment is the score of
    positive minus negative words, divided by the (never zero) number of
    white-space separated words, times ten, clamped to the interval from
    -1 to 1.  The score is the number of words of the message that are one
    of good, great, excellent, love, like, amazing, perfect, minus the
    number that are one of bad, terrible, hate, awful, disappointed, wrong,
    broken: so one positive word among twenty gives one half, one negative
    word among twenty minus one half, a positive and a negative word cancel,
    and [great] alone gives 1.  One message per intent shows each pattern at
    work, and two show the priority of the earlier pattern. *)
Theorem C6_classifier_fallback :
  map fst intentPatterns =
    ["greeting"; "product_inquiry"; "price_question"; "comparison";
     "purchase_intent"; "complaint"; "goodbye"]
  /\ (forall message : string,
        let lowerMessage := Js.toLowerCase message in
        (exists pre pattern post,
            intentPatterns = pre ++ (inferIntentFromKeywords message, pattern) :: post
            /\ Forall (fun ip => test true (snd ip) lowerMessage = false) pre
            /\ test true pattern lowerMessage = true)
        \/ (Forall (fun ip => test true (snd ip) lowerMessage = false) intentPatterns
            /\ inferIntentFromKeywords message = "unknown"))
  /\ inferIntentFromKeywords "bye" = "goodbye"
  /\ (calculateSimpleSentiment "this is broken and terrible" < 0)%Q
  /\ (forall message : string,
        let words := Js.split_ws (Js.toLowerCase message) in
        let raw :=
          (inject_Z (sentiment_score words) / inject_Z (Z.of_nat (length words)) * 10)%Q in
        (0 < length words)%nat
        /\ (-1 <= calculateSimpleSentiment message <= 1)%Q
        /\ ((-1 <= raw <= 1)%Q -> (calculateSimpleSentiment message == raw)%Q)
        /\ ((1 < raw)%Q -> calculateSimpleSentiment message = 1%Q)
        /\ ((raw < -1)%Q -> calculateSimpleSentiment message = (-1)%Q))
  /\ (forall words : list string,
        sentiment_score words
        = (Z.of_nat
             (length (filter (fun word =>
                                word ∈ ["good"; "great"; "excellent"; "love"; "like";
                                        "amazing"; "perfect"]) words))
           - Z.of_nat
               (length (filter (fun word =>
                                  word ∈ ["bad"; "terrible"; "hate"; "awful";
                                          "disappointed"; "wrong"; "broken"]) words)))%Z)
  /\ (calculateSimpleSentiment "great" == 1)%Q
  /\ (calculateSimpleSentiment
        "The screen is GOOD and the rest of it is what I expected from a phone in this price range"
      == 1 # 2)%Q
  /\ (calculateSimpleSentiment
        "the screen is bad and the rest of it is what i expected from a phone in this price range"
      == - (1 # 2))%Q
  /\ (calculateSimpleSentiment "good camera, bad battery" == 0)%Q
  /\ (calculateSimpleSentiment "good, not great." == 0)%Q
  /\ map inferIntentFromKeywords
       ["Hello there"; "show me laptops"; "how much is it"; "which one is better";
        "add to cart please"; "it arrived broken"; "thanks"; "ok";
        "hey, what is the price"; "i need to return it"; "say hi"]
     = ["greeting"; "product_inquiry"; "price_question"; "comparison";
        "purchase_intent"; "complaint"; "goodbye"; "unknown";
        "greeting"; "product_inquiry"; "unknown"].
Proof.
  split; [reflexivity|].
  split.
  { intros message lowerMessage. unfold inferIntentFromKeywords.
    fold lowerMessage.
    pose proof (first_matching_spec intentPatterns lowerMessage) as H.
    destruct (first_matching intentPatterns lowerMessage) as [intent|].
    - left. destruct H as (pre & pattern & post & H1 & H2 & H3).
      exists pre, pattern, post. auto.
    - right. auto. }
  split; [vm_compute; reflexivity|].
  split; [vm_compute; reflexivity|].
  split.
  { intros message words raw.
    split; [apply split_ws_from_nonempty|].
    unfold calculateSimpleSentiment. fold words. fold raw.
    exact (clamp_cases raw). }
  split.
  { intros words. unfold sentiment_score.
    change score_word
      with (fun score word =>
              let score1 := if Js.array_includes positiveWords word
                            then (score + 1)%Z else score in
              if Js.array_includes negativeWords word then (score1 - 1)%Z else score1).
    rewrite score_counts. unfold positiveWords, negativeWords. lia. }
  repeat (split; [vm_compute; reflexivity|]).
  vm_compute. reflexivity.
Qed.

(** ** Ranking *)

Section Ranking.

Lemma Qle_bool_false (a b : Q) : Qle_bool a b = false -> (b < a)%Q.
Proof.
  intros E. destruct (Qlt_le_dec b a) as [H|H]; [exact H|].
  apply Qle_bool_iff in H. congruence.
Qed.

Lemma Qeq_bool_sym (a b : Q) : Qeq_bool a b = Qeq_bool b a.
Proof.
  destruct (Qeq_bool a b) eqn:E1, (Qeq_bool b a) eqn:E2; try reflexivity.
  - apply Qeq_bool_iff in E1. symmetry in E1. apply Qeq_bool_iff in E1. congruence.
  - apply Qeq_bool_iff in E2. symmetry in E2. apply Qeq_bool_iff in E2. congruence.
Qed.

(** The comparator is total: of two products, one ranks no later than
    the other. *)
Lemma rank_total (a b : Product.t) : ~ rank_le a b -> rank_le b a.
Proof.
  unfold rank_le, compareProducts. intros H.
  apply not_true_is_false, Qle_bool_false in H.
  rewrite (Qeq_bool_sym (or_zero (Product.averageRating b))).
  destruct (instock a), (instock b); simpl in *;
    try (exfalso; lra); try reflexivity;
    destruct (Qeq_bool _ _); simpl in *; apply Qle_bool_iff; lra.
Qed.

Lemma Qeq_bool_neq' (a b : Q) : Qeq_bool a b = false -> ~ (a == b)%Q.
Proof. intros E H. apply Qeq_bool_iff in H. congruence. Qed.

(** The comparator is transitive, hence consistent: the stable order it
    induces is unique. *)
Lemma rank_trans (a b c : Product.t) : rank_le a b -> rank_le b c -> rank_le a c.
Proof.
  unfold rank_le, compareProducts.
  destruct (instock a), (instock b), (instock c); simpl;
    try (intros; reflexivity); try (intros H1 H2; discriminate);
    (destruct (Qeq_bool (or_zero (Product.averageRating a))
                 (or_zero (Product.averageRating b))) eqn:Eab;
     [apply Qeq_bool_iff in Eab | apply Qeq_bool_neq' in Eab]);
    (destruct (Qeq_bool (or_zero (Product.averageRating b))
                 (or_zero (Product.averageRating c))) eqn:Ebc;
     [apply Qeq_bool_iff in Ebc | apply Qeq_bool_neq' in Ebc]);
    (destruct (Qeq_bool (or_zero (Product.averageRating a))
                 (or_zero (Product.averageRating c))) eqn:Eac;
     [apply Qeq_bool_iff in Eac | apply Qeq_bool_neq' in Eac]);
    simpl; intros H1 H2;
    apply Qle_bool_iff in H1; apply Qle_bool_iff in H2; apply Qle_bool_iff;
    try lra; exfalso; (apply Eab || apply Ebc || apply Eac); lra.
Qed.

(** An in-stock product never ranks after one that is out of stock. *)
Lemma rank_le_instock (a b : Product.t) :
  rank_le a b -> instock b = true -> instock a = true.
Proof.
  unfold rank_le, compareProducts. intros H Hb. rewrite Hb in H.
  destruct (instock a); [reflexivity|]. simpl in H. discriminate H.
Qed.

Lemma sort_insert_perm (x : Product.t) (l : list Product.t) :
  Permutation (x :: l) (sort_insert compareProducts x l).
Proof.
  induction l as [|y l IH]; simpl; [reflexivity|].
  destruct (Qle_bool (compareProducts x y) 0); [reflexivity|].
  rewrite perm_swap. apply perm_skip. exact IH.
Qed.

Lemma Array_sort_perm (l : list Product.t) :
  Permutation l (Array_sort compareProducts l).
Proof.
  induction l as [|x l IH]; simpl; [constructor|].
  rewrite <- sort_insert_perm. apply perm_skip. exact IH.
Qed.

Lemma sort_insert_sorted (x : Product.t) (l : list Product.t) :
  Sorted rank_le l -> Sorted rank_le (sort_insert compareProducts x l).
Proof.
  induction 1 as [|y l Hl IH Hy]; simpl.
  - repeat constructor.
  - destruct (Qle_bool (compareProducts x y) 0) eqn:E.
    + repeat constructor; assumption.
    + assert (Hyx : rank_le y x).
      { apply rank_total. unfold rank_le. congruence. }
      constructor; [exact IH|].
      destruct Hy as [|z l' Hyz]; simpl.
      * constructor. exact Hyx.
      * destruct (Qle_bool (compareProducts x z) 0); constructor; assumption.
Qed.

Lemma Array_sort_sorted (l : list Product.t) :
  Sorted rank_le (Array_sort compareProducts l).
Proof.
  induction l as [|x l IH]; simpl; [constructor|].
  apply sort_insert_sorted. exact IH.
Qed.

(** Sorting a list that is already in rank order leaves it as it is. *)
Lemma Array_sort_fixed (l : list Product.t) :
  Sorted rank_le l -> Array_sort compareProducts l = l.
Proof.
  induction 1 as [|x l Hl IH Hx]; simpl; [reflexivity|].
  rewrite IH. destruct Hx as [|y l' Hxy]; simpl; [reflexivity|].
  unfold rank_le in Hxy. rewrite Hxy. reflexivity.
Qed.

Lemma Sorted_stock (l : list Product.t) :
  Sorted rank_le l -> StronglySorted stock_le l.
Proof.
  intros H. apply Sorted_StronglySorted.
  - intros a b c Hab Hbc Hc. apply Hab, Hbc, Hc.
  - induction H as [|x l Hl IH Hx]; constructor; [exact IH|].
    destruct Hx as [|y l' Hxy]; constructor.
    intros Hy. eapply rank_le_instock; eassumption.
Qed.

Lemma StronglySorted_lookup (l : list Product.t) (i j : nat) (a b : Product.t) :
  StronglySorted stock_le l -> (i < j)%nat ->
  l !! i = Some a -> l !! j = Some b -> stock_le a b.
Proof.
  intros H. revert i j. induction H as [|x l Hl IH Hx]; intros i j Hij Hi Hj.
  - discriminate Hi.
  - destruct j as [|j]; [lia|]. destruct i as [|i]; simpl in *.
    + inversion Hi; subst. rewrite Forall_forall in Hx. apply Hx.
      eapply list_elem_of_lookup_2. exact Hj.
    + eapply IH; [| exact Hi | exact Hj]. lia.
Qed.

Lemma Sorted_take (n : nat) (l : list Product.t) :
  Sorted rank_le l -> Sorted rank_le (take n l).
Proof.
  intros H. revert n. induction H as [|x l Hl IH Hx]; intros [|n]; simpl;
    try constructor.
  - apply IH.
  - destruct Hx as [|y l' Hxy]; destruct n; simpl; constructor. exact Hxy.
Qed.

End Ranking.

(** C4.  The ranking used by enhanceResponse is a function of the candidate
    list, and sorting is idempotent: sorting the sorted list gives the same
    list.  The sorted list is a rearrangement of the candidates, ordered by
    the comparator (no element is ranked after a later one), in which no
    in-stock product stands after an out-of-stock one.  Idempotence and the
    stock order also hold for the list after truncation to the cap. *)
Theorem C4_ranking_idempotent_in_stock_first (l : list Product.t) :
  let sorted := Array_sort compareProducts l in
  Array_sort compareProducts sorted = sorted
  /\ Permutation l sorted
  /\ StronglySorted rank_le sorted
  /\ (forall i j a b,
        (i < j)%nat -> sorted !! i = Some a -> sorted !! j = Some b ->
        instock b = true -> instock a = true)
  /\ (forall query,
        let shown := prioritizedProducts query l in
        prioritizedProducts query shown = shown
        /\ forall i j a b,
             (i < j)%nat -> shown !! i = Some a -> shown !! j = Some b ->
             instock b = true -> instock a = true).
Proof.
  intros sorted.
  assert (Hs : Sorted rank_le sorted) by apply Array_sort_sorted.
  split; [apply Array_sort_fixed, Hs|].
  split; [apply Array_sort_perm|].
  split.
  { apply Sorted_StronglySorted; [|exact Hs].
    intros a b c. apply rank_trans. }
  split.
  { intros i j a b Hij Hi Hj.
    exact (StronglySorted_lookup sorted i j a b (Sorted_stock _ Hs) Hij Hi Hj). }
  intros query shown.
  assert (Hshown : Sorted rank_le shown).
  { unfold shown, prioritizedProducts. apply Sorted_take, Hs. }
  split.
  - unfold prioritizedProducts at 1. rewrite (Array_sort_fixed _ Hshown).
    unfold shown, prioritizedProducts. rewrite take_take. f_equal. lia.
  - intros i j a b Hij Hi Hj.
    exact (StronglySorted_lookup shown i j a b (Sorted_stock _ Hshown) Hij Hi Hj).
Qed.

(** ** Session context *)



(** ** Response enhancement *)

Lemma calls_log (c : Call) (s : Store) : calls (log c s) = calls s ++ [c].
Proof. reflexivity. Qed.

(** What generateCouponIfEligible does, by the answers of the issuer. *)
Lemma generateCouponIfEligible_spec (context : ConversationContext.t)
    (analysis : Analysis.t) (w : World) (s : Store) :
  let sessionId := ConversationContext.sessionId context in
  let siteId := ConversationContext.siteId context in
  let userId := ConversationContext.userId context in
  let check := CouponCheckEligibility sessionId siteId userId in
  exists l s',
    generateCouponIfEligible context analysis w s = (Ok l, s')
    /\ match coupon_checkEligibility w sessionId siteId userId with
       | Ok e =>
           if Eligibility.eligible e then
             calls s' =
               calls s ++ [check; CouponGenerate sessionId siteId (eligibleCouponParams e)]
             /\ l = match coupon_generate w sessionId siteId (eligibleCouponParams e) with
                    | Ok (Some c) => [c]
                    | _ => []
                    end
           else calls s' = calls s ++ [check] /\ l = []
       | Throw _ => calls s' = calls s ++ [check] /\ l = []
       end.
Proof.
  intros sessionId siteId userId check.
  unfold generateCouponIfEligible, try_catch, bind,
    couponService_checkCouponEligibility, couponService_generateCouponForSession,
    call, ret.
  fold sessionId siteId userId check.
  destruct (coupon_checkEligibility w sessionId siteId userId) as [e|err].
  - destruct (Eligibility.eligible e); simpl.
    + destruct (coupon_generate w sessionId siteId (eligibleCouponParams e)) as [[c|]|err];
        eexists; eexists; (split; [reflexivity|]);
        simpl; rewrite <- app_assoc; split; reflexivity.
    + eexists; eexists; split; [reflexivity|]. split; reflexivity.
  - eexists; eexists; split; [reflexivity|]. split; reflexivity.
Qed.

Lemma attachCoupons_spec (enhanced : AIResponse.t) (context : ConversationContext.t)
    (analysis : Analysis.t) (w : World) (s : Store) :
  exists r s',
    attachCoupons enhanced context analysis w s = (Ok r, s')
    /\ if String.eqb (Analysis.intent analysis) "purchase_intent"
          && String.eqb (Analysis.purchaseReadiness analysis) "ready_to_buy"
       then exists l,
              generateCouponIfEligible context analysis w s = (Ok l, s')
              /\ r = AIResponse.set_coupons l enhanced
       else r = enhanced /\ s' = s.
Proof.
  unfold attachCoupons.
  destruct (String.eqb (Analysis.intent analysis) "purchase_intent"
            && String.eqb (Analysis.purchaseReadiness analysis) "ready_to_buy").
  - destruct (generateCouponIfEligible_spec context analysis w s) as (l & s' & E & _).
    unfold bind. rewrite E. unfold ret. eauto 6.
  - unfold ret. eauto.
Qed.

(** What attachProducts can return: the response as it was, or the
    response with the ranked, truncated and formatted list. *)
Lemma attachProducts_inv (enhanced : AIResponse.t) (context : ConversationContext.t)
    (analysis : Analysis.t) (query : string) (w : World) (s : Store) r s' :
  attachProducts enhanced context analysis query w s = (Ok r, s') ->
  r = enhanced
  \/ exists relevantProducts,
       relevantProducts <> []
       /\ r = AIResponse.set_products
                (map (summarize (number_toString w))
                     (prioritizedProducts query relevantProducts))
                enhanced.
Proof.
  unfold attachProducts.
  destruct (shouldIncludeProducts context analysis query).
  - intros H.
    apply bind_inv in H as [(rel0 & s1 & _ & H)|(e & _ & H)]; [|discriminate H].
    apply bind_inv in H as [(rel & s2 & _ & H)|(e & _ & H)]; [|discriminate H].
    destruct rel as [|p rel].
    + unfold ret in H. inversion H. left. reflexivity.
    + unfold bind, ask, ret in H. inversion H. right.
      exists (p :: rel). split; [discriminate | reflexivity].
  - unfold ret. intros H. inversion H. left. reflexivity.
Qed.

(** The three ways enhanceResponse can end. *)
Lemma enhanceResponse_inv (response : AIResponse.t) (context : ConversationContext.t)
    (analysis : Analysis.t) (query : string) (w : World) (s : Store) r s' :
  enhanceResponse response context analysis query w s = (Ok r, s') ->
  r = response
  \/ (isInventoryQuery query = true
      /\ exists n,
           db_countDocuments w (ConversationContext.siteId context) "publish" = Ok n
           /\ r = AIResponse.set_metadata
                    (<["totalProductCount" := MNum n]> (metadata_of response)) response)
  \/ (isInventoryQuery query = false
      /\ exists e1 s1 e2 s2,
           attachProducts response context analysis query w s = (Ok e1, s1)
           /\ attachCoupons e1 context analysis w s1 = (Ok e2, s2)
           /\ r = decideEnd e2 analysis).
Proof.
  unfold enhanceResponse. intros H.
  apply try_catch_inv in H as [(a & H & Hr)|(e & s1 & _ & H)].
  - inversion Hr; subst a; clear Hr.
    destruct (isInventoryQuery query) eqn:Hq.
    + right. left. split; [reflexivity|].
      apply bind_inv in H as [(n & s1 & Hn & H)|(e & _ & H)]; [|discriminate H].
      unfold ProductModel_countDocuments, call in Hn. inversion Hn.
      unfold ret in H. inversion H. eauto.
    + right. right. split; [reflexivity|].
      apply bind_inv in H as [(e1 & s1 & H1 & H)|(e & _ & H)]; [|discriminate H].
      apply bind_inv in H as [(e2 & s2 & H2 & H)|(e & _ & H)]; [|discriminate H].
      unfold ret in H. inversion H. subst. eauto 10.
  - unfold ret in H. inversion H. left. reflexivity.
Qed.

(** enhanceResponse catches every failure. *)
Lemma enhanceResponse_safe (response : AIResponse.t) (context : ConversationContext.t)
    (analysis : Analysis.t) (query : string) :
  safe (enhanceResponse response context analysis query).
Proof. apply safe_try_catch. intros e. apply safe_ret. Qed.

(** On an inventory-count query the only effect is the count query. *)
Lemma enhanceResponse_inventory (response : AIResponse.t) (context : ConversationContext.t)
    (analysis : Analysis.t) (query : string) (w : World) (s : Store) :
  isInventoryQuery query = true ->
  let siteId := ConversationContext.siteId context in
  enhanceResponse response context analysis query w s =
    (Ok match db_countDocuments w siteId "publish" with
        | Ok n =>
            AIResponse.set_metadata
              (<["totalProductCount" := MNum n]> (metadata_of response)) response
        | Throw _ => response
        end,
     log (DbCountDocuments siteId "publish") s).
Proof.
  intros Hq siteId. unfold enhanceResponse. rewrite Hq.
  unfold try_catch, bind, ProductModel_countDocuments, call, ret. fold siteId.
  destruct (db_countDocuments w siteId "publish"); reflexivity.
Qed.

(** C2, as the code has it.  On a query that matches the inventory-count
    pattern enhanceResponse makes one call, the count of published products
    of the site, attaches no product list and returns at once.  When the
    count succeeds the response is the generated one with the count stored
    under [totalProductCount] in its metadata; when the count query fails
    the generated response is returned unchanged. *)
Theorem C2_inventory_query_count_only (w : World) (s : Store)
    (response : AIResponse.t) (context : ConversationContext.t)
    (analysis : Analysis.t) (query : string) :
  isInventoryQuery query = true ->
  let siteId := ConversationContext.siteId context in
  exists r s',
    enhanceResponse response context analysis query w s = (Ok r, s')
    /\ calls s' = calls s ++ [DbCountDocuments siteId "publish"]
    /\ AIResponse.products r = AIResponse.products response
    /\ match db_countDocuments w siteId "publish" with
       | Ok n =>
           r = AIResponse.set_metadata
                 (<["totalProductCount" := MNum n]> (metadata_of response)) response
           /\ metadata_of r !! "totalProductCount" = Some (MNum n)
       | Throw _ => r = response
       end.
Proof.
  intros Hq siteId.
  rewrite (enhanceResponse_inventory response context analysis query w s Hq).
  fold siteId. eexists. eexists. split; [reflexivity|].
  split; [reflexivity|].
  destruct (db_countDocuments w siteId "publish") as [n|e]; simpl.
  - split; [reflexivity|]. split; [reflexivity|].
    unfold metadata_of. simpl. apply lookup_insert_eq.
  - split; reflexivity.
Qed.

Lemma C2_inventory_query_count_only_witness :
  isInventoryQuery inventoryQuery = true
  /\ exists r s',
       enhanceResponse (sampleResponse "unknown") (sampleContext None)
         (sampleAnalysis "unknown" "researching") inventoryQuery shopWorld emptyStore
         = (Ok r, s')
       /\ calls s' = [DbCountDocuments "S1" "publish"]
       /\ AIResponse.products r = None
       /\ metadata_of r !! "totalProductCount" = Some (MNum 5%Q).
Proof.
  split; [reflexivity|].
  destruct (C2_inventory_query_count_only shopWorld emptyStore
              (sampleResponse "unknown") (sampleContext None)
              (sampleAnalysis "unknown" "researching") inventoryQuery eq_refl)
    as (r & s' & H1 & H2 & H3 & H4 & H5).
  exists r, s'. repeat split; assumption.
Defined.

(** C2, counterexample to the claim as stated.  The query matches the
    inventory-count pattern, the catalog store is down: the response comes
    back without any total in its metadata. *)
Lemma C2_no_total_when_count_fails :
  isInventoryQuery inventoryQuery = true
  /\ exists r s',
       enhanceResponse (sampleResponse "unknown") (sampleContext None)
         (sampleAnalysis "unknown" "researching") inventoryQuery storeDownWorld emptyStore
         = (Ok r, s')
       /\ metadata_of r !! "totalProductCount" = None.
Proof.
  split; [reflexivity|].
  exists (sampleResponse "unknown"), (log (DbCountDocuments "S1" "publish") emptyStore).
  split; vm_compute; reflexivity.
Qed.

(** C9.  On a query that matches the inventory-count pattern the response
    enhanceResponse returns has the message, intent, confidence, sentiment,
    actions, products, coupons and end-of-conversation flag of the generated
    response, and the same metadata under every key except
    [totalProductCount]; the only collaborator called is the count query,
    so neither the coupon step nor the termination step runs, whatever the
    classified intent and purchase readiness are. *)
Theorem C9_inventory_short_circuit_frame (w : World) (s : Store)
    (response : AIResponse.t) (context : ConversationContext.t)
    (analysis : Analysis.t) (query : string) :
  isInventoryQuery query = true ->
  exists r s',
    enhanceResponse response context analysis query w s = (Ok r, s')
    /\ AIResponse.message r = AIResponse.message response
    /\ AIResponse.intent r = AIResponse.intent response
    /\ AIResponse.confidence r = AIResponse.confidence response
    /\ AIResponse.sentiment r = AIResponse.sentiment response
    /\ AIResponse.actions r = AIResponse.actions response
    /\ AIResponse.products r = AIResponse.products response
    /\ AIResponse.coupons r = AIResponse.coupons response
    /\ AIResponse.shouldEndConversation r = AIResponse.shouldEndConversation response
    /\ (forall k, k <> "totalProductCount" ->
          metadata_of r !! k = metadata_of response !! k)
    /\ calls s' =
         calls s ++ [DbCountDocuments (ConversationContext.siteId context) "publish"].
Proof.
  intros Hq.
  rewrite (enhanceResponse_inventory response context analysis query w s Hq).
  eexists. eexists. split; [reflexivity|].
  destruct (db_countDocuments w (ConversationContext.siteId context) "publish") as [n|e].
  - simpl. repeat (split; [reflexivity|]). split; [|reflexivity].
    intros k Hk. unfold metadata_of at 1. simpl.
    apply lookup_insert_ne. congruence.
  - repeat (split; [reflexivity|]). reflexivity.
Qed.

Lemma C9_inventory_short_circuit_frame_witness :
  isInventoryQuery inventoryQuery = true
  /\ exists r s',
       enhanceResponse (sampleResponse "purchase_intent") (sampleContext None)
         (sampleAnalysis "purchase_intent" "ready_to_buy") inventoryQuery
         eligibleWorld emptyStore = (Ok r, s')
       /\ AIResponse.coupons r = None
       /\ AIResponse.shouldEndConversation r = None
       /\ calls s' = [DbCountDocuments "S1" "publish"].
Proof.
  split; [reflexivity|].
  destruct (C9_inventory_short_circuit_frame eligibleWorld emptyStore
              (sampleResponse "purchase_intent") (sampleContext None)
              (sampleAnalysis "purchase_intent" "ready_to_buy") inventoryQuery eq_refl)
    as (r & s' & H & _ & _ & _ & _ & _ & _ & Hc & He & _ & Hcalls).
  exists r, s'. repeat split; assumption.
Defined.

Lemma prioritizedProducts_length (query : string) (l : list Product.t) :
  (length (prioritizedProducts query l) <= maxProducts query)%nat.
Proof. unfold prioritizedProducts. rewrite length_take. lia. Qed.

Lemma attachCoupons_products (enhanced : AIResponse.t) (context : ConversationContext.t)
    (analysis : Analysis.t) (w : World) (s : Store) r s' :
  attachCoupons enhanced context analysis w s = (Ok r, s') ->
  AIResponse.products r = AIResponse.products enhanced.
Proof.
  intros H.
  destruct (attachCoupons_spec enhanced context analysis w s) as (r0 & s0 & E & Hr).
  rewrite E in H. inversion H; subst.
  destruct (String.eqb (Analysis.intent analysis) "purchase_intent"
            && String.eqb (Analysis.purchaseReadiness analysis) "ready_to_buy").
  - destruct Hr as (l & _ & ->). reflexivity.
  - destruct Hr as [-> _]. reflexivity.
Qed.

(** C3, as the code has it.  A product list that enhanceResponse attaches
    is never longer than the cap of the query: 12 when the query matches
    the show-all pattern, 3 when it does not match the show-all pattern and
    names a brand or model, 6 otherwise.  The show-all pattern takes
    precedence over the brand pattern. *)
Theorem C3_product_list_cap (w : World) (s : Store)
    (response : AIResponse.t) (context : ConversationContext.t)
    (analysis : Analysis.t) (query : string) (r : AIResponse.t) (s' : Store) :
  enhanceResponse response context analysis query w s = (Ok r, s') ->
  AIResponse.products r <> AIResponse.products response ->
  exists l,
    AIResponse.products r = Some l
    /\ (length l <= maxProducts query)%nat
    /\ (isShowAllQuery query = true -> (length l <= 12)%nat)
    /\ (isShowAllQuery query = false -> isSpecificProductQuery query = true ->
        (length l <= 3)%nat)
    /\ (isShowAllQuery query = false -> isSpecificProductQuery query = false ->
        (length l <= 6)%nat).
Proof.
  intros H Hne.
  apply enhanceResponse_inv in H as [->|[(_ & n & _ & ->)|(_ & e1 & s1 & e2 & s2 & H1 & H2 & ->)]].
  - contradiction.
  - exfalso. apply Hne. reflexivity.
  - apply attachCoupons_products in H2.
    apply attachProducts_inv in H1 as [->|(rel & _ & ->)].
    + exfalso. apply Hne. simpl. exact H2.
    + eexists. split; [simpl; rewrite H2; reflexivity|].
      rewrite length_map.
      pose proof (prioritizedProducts_length query rel) as Hlen.
      unfold maxProducts in *.
      destruct (isShowAllQuery query), (isSpecificProductQuery query);
        repeat split; intros; try discriminate; lia.
Qed.

Lemma C3_product_list_cap_witness :
  exists r s' l,
    enhanceResponse (sampleResponse "product_inquiry") catalogContext
      (sampleAnalysis "product_inquiry" "researching") "asus laptops"
      shopWorld emptyStore = (Ok r, s')
    /\ AIResponse.products r <> AIResponse.products (sampleResponse "product_inquiry")
    /\ AIResponse.products r = Some l
    /\ (length l <= 3)%nat.
Proof.
  pose (run := enhanceResponse (sampleResponse "product_inquiry") catalogContext
                 (sampleAnalysis "product_inquiry" "researching") "asus laptops"
                 shopWorld emptyStore).
  assert (E : run = (Ok (value_of (sampleResponse "") run), snd run))
    by (vm_compute; reflexivity).
  assert (Hne : AIResponse.products (value_of (sampleResponse "") run)
                <> AIResponse.products (sampleResponse "product_inquiry"))
    by (vm_compute; discriminate).
  destruct (C3_product_list_cap shopWorld emptyStore
              (sampleResponse "product_inquiry") catalogContext
              (sampleAnalysis "product_inquiry" "researching") "asus laptops"
              (value_of (sampleResponse "") run) (snd run) E Hne)
    as (l & Hl & _ & _ & H3 & _).
  exists (value_of (sampleResponse "") run), (snd run), l.
  split; [exact E|]. split; [exact Hne|]. split; [exact Hl|].
  apply H3; reflexivity.
Defined.

(** C3, counterexample to the claim as stated.  The query names a brand
    and also matches the show-all pattern; with five products known from
    retrieval the attached list has five entries, more than three. *)
Lemma C3_brand_query_under_show_all_exceeds_three :
  isSpecificProductQuery showAllBrandQuery = true
  /\ exists r s' l,
       enhanceResponse (sampleResponse "product_inquiry") catalogContext
         (sampleAnalysis "product_inquiry" "researching") showAllBrandQuery
         shopWorld emptyStore = (Ok r, s')
       /\ AIResponse.products (sampleResponse "product_inquiry") = None
       /\ AIResponse.products r = Some l
       /\ length l = 5%nat
       /\ ~ (length l <= 3)%nat.
Proof.
  split; [reflexivity|].
  pose (run := enhanceResponse (sampleResponse "product_inquiry") catalogContext
                 (sampleAnalysis "product_inquiry" "researching") showAllBrandQuery
                 shopWorld emptyStore).
  exists (value_of (sampleResponse "") run), (snd run),
    (or_empty (AIResponse.products (value_of (sampleResponse "") run))).
  split; [vm_compute; reflexivity|].
  split; [reflexivity|].
  split; [vm_compute; reflexivity|].
  split; [vm_compute; reflexivity|].
  vm_compute. lia.
Qed.

Lemma attachProducts_coupons (enhanced : AIResponse.t) (context : ConversationContext.t)
    (analysis : Analysis.t) (query : string) (w : World) (s : Store) r s' :
  attachProducts enhanced context analysis query w s = (Ok r, s') ->
  AIResponse.coupons r = AIResponse.coupons enhanced.
Proof.
  intros H. apply attachProducts_inv in H as [->|(rel & _ & ->)]; reflexivity.
Qed.

Lemma Qmin_15 (q : Q) : (Qmin q 15 <= 15)%Q.
Proof. apply Qmin_le_r. Qed.

(** C5.  Starting from a generated response without coupons, every coupon
    on the enhanced response got there as follows: the classified intent is
    purchase_intent, the purchase readiness is ready_to_buy, the coupon
    collaborator reported the session eligible, and the coupon is what the
    collaborator issued for a request of a percentage coupon of
    [min(maxDiscount, 15)] percent, hence at most 15, valid for 7 days; it
    is then the only coupon.  In every other case the response carries no
    coupon. *)
Theorem C5_coupon_only_when_ready_and_eligible (w : World) (s : Store)
    (response : AIResponse.t) (context : ConversationContext.t)
    (analysis : Analysis.t) (query : string) (r : AIResponse.t) (s' : Store) :
  AIResponse.coupons response = None ->
  enhanceResponse response context analysis query w s = (Ok r, s') ->
  let sessionId := ConversationContext.sessionId context in
  let siteId := ConversationContext.siteId context in
  let userId := ConversationContext.userId context in
  forall c : Coupon.t,
    c ∈ or_empty (AIResponse.coupons r) ->
    Analysis.intent analysis = "purchase_intent"
    /\ Analysis.purchaseReadiness analysis = "ready_to_buy"
    /\ exists e,
         coupon_checkEligibility w sessionId siteId userId = Ok e
         /\ Eligibility.eligible e = true
         /\ coupon_generate w sessionId siteId (eligibleCouponParams e) = Ok (Some c)
         /\ AIResponse.coupons r = Some [c]
         /\ CouponParams.discountType (eligibleCouponParams e) = Some "percentage"
         /\ CouponParams.amount (eligibleCouponParams e)
              = Some (Qmin (Eligibility.maxDiscount e) 15)
         /\ (Qmin (Eligibility.maxDiscount e) 15 <= 15)%Q
         /\ CouponParams.validityDays (eligibleCouponParams e) = Some 7%Q.
Proof.
  intros Hnone H sessionId siteId userId c Hc.
  apply enhanceResponse_inv in H
    as [->|[(_ & n & _ & ->)|(_ & e1 & s1 & e2 & s2 & H1 & H2 & ->)]].
  - rewrite Hnone in Hc. inversion Hc.
  - simpl in Hc. rewrite Hnone in Hc. inversion Hc.
  - apply attachProducts_coupons in H1.
    destruct (attachCoupons_spec e1 context analysis w s1) as (r0 & s0 & E & Hr).
    rewrite E in H2. inversion H2; subst r0 s0; clear H2.
    simpl in Hc.
    destruct (String.eqb (Analysis.intent analysis) "purchase_intent") eqn:Hi;
      [destruct (String.eqb (Analysis.purchaseReadiness analysis) "ready_to_buy") eqn:Hp|];
      simpl in Hr.
    + destruct Hr as (l & Hgen & ->). simpl in Hc |- *.
      apply String.eqb_eq in Hi. apply String.eqb_eq in Hp.
      split; [exact Hi|]. split; [exact Hp|].
      destruct (generateCouponIfEligible_spec context analysis w s1)
        as (l' & s'' & Hgen' & Hspec).
      rewrite Hgen' in Hgen. inversion Hgen; subst l' s''; clear Hgen.
      fold sessionId siteId userId in Hspec.
      destruct (coupon_checkEligibility w sessionId siteId userId) as [e|err].
      * destruct (Eligibility.eligible e) eqn:He.
        -- destruct Hspec as [_ Hl]. exists e.
           destruct (coupon_generate w sessionId siteId (eligibleCouponParams e))
             as [[c'|]|err]; subst l; try (inversion Hc; fail).
           apply list_elem_of_singleton in Hc. subst c'.
           split; [reflexivity|]. split; [exact He|].
           repeat (split; [reflexivity|]). split; [apply Qmin_15 | reflexivity].
        -- destruct Hspec as [_ ->]. inversion Hc.
      * destruct Hspec as [_ ->]. inversion Hc.
    + destruct Hr as [-> _]. rewrite H1, Hnone in Hc. inversion Hc.
    + destruct Hr as [-> _]. rewrite H1, Hnone in Hc. inversion Hc.
Qed.

Lemma C5_coupon_only_when_ready_and_eligible_witness :
  AIResponse.coupons (sampleResponse "purchase_intent") = None
  /\ exists r s',
       enhanceResponse (sampleResponse "purchase_intent") (sampleContext None)
         (sampleAnalysis "purchase_intent" "ready_to_buy") "I will buy it now"
         eligibleWorld emptyStore = (Ok r, s')
       /\ AIResponse.coupons r = Some [ {| Coupon.code := "SAVE" |} ]
       /\ exists e,
            coupon_checkEligibility eligibleWorld "sess1" "S1" None = Ok e
            /\ CouponParams.amount (eligibleCouponParams e) = Some 15%Q.
Proof.
  split; [reflexivity|].
  pose (run := enhanceResponse (sampleResponse "purchase_intent") (sampleContext None)
                 (sampleAnalysis "purchase_intent" "ready_to_buy") "I will buy it now"
                 eligibleWorld emptyStore).
  assert (E : run = (Ok (value_of (sampleResponse "") run), snd run))
    by (vm_compute; reflexivity).
  assert (Hc : {| Coupon.code := "SAVE" |}
               ∈ or_empty (AIResponse.coupons (value_of (sampleResponse "") run)))
    by (vm_compute; apply list_elem_of_here).
  destruct (C5_coupon_only_when_ready_and_eligible eligibleWorld emptyStore
              (sampleResponse "purchase_intent") (sampleContext None)
              (sampleAnalysis "purchase_intent" "ready_to_buy") "I will buy it now"
              (value_of (sampleResponse "") run) (snd run) eq_refl E
              {| Coupon.code := "SAVE" |} Hc)
    as (_ & _ & e & He & _ & _ & Hr & _ & Ha & _ & _).
  exists (value_of (sampleResponse "") run), (snd run).
  split; [exact E|]. split; [exact Hr|].
  exists e. split; [exact He|].
  rewrite Ha. simpl in He. inversion He. reflexivity.
Defined.

(** ** Knowledge retrieval *)

Lemma array_includes_elem (l : list string) (x : string) :
  Js.array_includes l x = true <-> x ∈ l.
Proof.
  unfold Js.array_includes. rewrite existsb_exists. split.
  - intros (y & Hy & E). apply String.eqb_eq in E. subst y.
    apply list_elem_of_In. exact Hy.
  - intros H. exists x. split; [apply list_elem_of_In, H | apply String.eqb_refl].
Qed.

Lemma set_add_elem (acc : list string) (x y : string) :
  y ∈ set_add acc x <-> y ∈ acc \/ y = x.
Proof.
  unfold set_add. destruct (Js.array_includes acc x) eqn:E.
  - apply array_includes_elem in E. split; [auto|]. intros [H| ->]; assumption.
  - rewrite elem_of_app, list_elem_of_singleton. reflexivity.
Qed.

Lemma set_add_NoDup (acc : list string) (x : string) :
  NoDup acc -> NoDup (set_add acc x).
Proof.
  intros H. unfold set_add. destruct (Js.array_includes acc x) eqn:E; [exact H|].
  apply NoDup_app. split; [exact H|]. split.
  - intros y Hy Hx. apply list_elem_of_singleton in Hx. subst y.
    apply array_includes_elem in Hy. congruence.
  - apply NoDup_singleton.
Qed.

Lemma fold_set_add_spec (names acc : list string) :
  NoDup acc ->
  NoDup (fold_left set_add names acc)
  /\ forall y, y ∈ fold_left set_add names acc <-> y ∈ acc \/ y ∈ names.
Proof.
  revert acc. induction names as [|x names IH]; intros acc Hacc; simpl.
  - split; [exact Hacc|]. intros y. rewrite elem_of_nil. tauto.
  - destruct (IH (set_add acc x) (set_add_NoDup acc x Hacc)) as [Hnd Hel].
    split; [exact Hnd|]. intros y. rewrite Hel, set_add_elem, elem_of_cons. tauto.
Qed.

(** The distinct names: no repetition, and exactly the names that occur. *)
Lemma distinct_spec (names : list string) :
  NoDup (distinct names) /\ forall y, y ∈ distinct names <-> y ∈ names.
Proof.
  destruct (fold_set_add_spec names [] (NoDup_nil_2)) as [Hnd Hel].
  split; [exact Hnd|]. intros y. unfold distinct. rewrite Hel, elem_of_nil. tauto.
Qed.

Lemma categoriesOf_spec (products : list Product.t) :
  NoDup (categoriesOf products)
  /\ forall name,
       name ∈ categoriesOf products <->
       exists p c, p ∈ products /\ c ∈ Product.categories p /\ Category.name c = name.
Proof.
  unfold categoriesOf. split; [apply distinct_spec|].
  intros name. rewrite (proj2 (distinct_spec _)), list_elem_of_In, in_flat_map.
  split.
  - intros (p & Hp & Hin). apply in_map_iff in Hin as (c & Hc & Hin).
    exists p, c. rewrite !list_elem_of_In. auto.
  - intros (p & c & Hp & Hc & Hname). exists p.
    split; [apply list_elem_of_In, Hp|].
    apply in_map_iff. exists c. split; [exact Hname | apply list_elem_of_In, Hc].
Qed.

Lemma knowledgeNodes_nil (toString : Q -> string) (products : list Product.t) :
  knowledgeNodes toString products = [] -> products = [].
Proof.
  unfold knowledgeNodes. destruct products; [reflexivity | discriminate].
Qed.

(** getProductKnowledge catches every failure. *)
Lemma getProductKnowledge_safe (query siteId : string) :
  safe (getProductKnowledge query siteId).
Proof. apply safe_try_catch. intros e. apply safe_ret. Qed.

(** C7.  Every call of getProductKnowledge is on the cache-miss path,
    since the cache client it is handed always misses.  When the text search
    over the published catalog finds nothing and the site has published
    products, it returns the whole published catalog as knowledge nodes and
    this list is not empty.  The nodes carry the catalog: the node at the
    position of a product has the identifier of that product, the
    descriptive text built from its name, description, price, categories and
    rating, score 1, and metadata of type [product] that repeats the
    identifier, name, price, currency, category names, rating, review count,
    stock flag, permalink and the sale and regular prices of the product;
    after them comes one node per distinct category name, in order of first
    occurrence, with identifier [category_] followed by the name, score 0.8
    and metadata of type [category] with that name.  getProductKnowledge
    returns the empty list only when the published catalog is empty or a
    catalog query failed. *)
Theorem C7_retriever_falls_back_to_full_catalog (w : World) (s : Store)
    (query siteId : string) :
  (forall published : list Product.t,
      isRequestingAllProducts query = false ->
      db_searchProducts w siteId (Some query) publish = Ok [] ->
      db_findBySite w siteId "publish" = Ok published ->
      published <> [] ->
      exists nodes s',
        getProductKnowledge query siteId w s = (Ok nodes, s')
        /\ nodes <> []
        /\ nodes = map (productNode (number_toString w)) published
                   ++ map categoryNode (categoriesOf published)
        /\ length nodes = (length published + length (categoriesOf published))%nat
        /\ NoDup (categoriesOf published)
        /\ (forall name,
              name ∈ categoriesOf published <->
              exists p c, p ∈ published /\ c ∈ Product.categories p
                          /\ Category.name c = name)
        /\ map LangGraphNode.id nodes
           = map Product.id published
             ++ map (fun name => "category_" +:+ name) (categoriesOf published)
        /\ (forall i p,
              published !! i = Some p ->
              exists node meta,
                nodes !! i = Some node
                /\ LangGraphNode.id node = Product.id p
                /\ LangGraphNode.content node
                   = Product.name p +:+ ": " +:+ show_str (Product.description p) +:+
                     ". Price: " +:+ show_str (Product.currency p) +:+
                     number_toString w (Product.price p) +:+
                     ". Categories: " +:+
                     Js.join ", " (map Category.name (Product.categories p)) +:+
                     ". Rating: " +:+
                     show_num (number_toString w) (Product.averageRating p) +:+
                     "/5 (" +:+ show_num (number_toString w) (Product.reviewCount p) +:+
                     " reviews)."
                /\ LangGraphNode.score node = Some 1%Q
                /\ LangGraphNode.metadata node = Some meta
                /\ NodeMeta.type meta = "product"
                /\ NodeMeta.id meta = Some (Product.id p)
                /\ NodeMeta.name meta = Some (Product.name p)
                /\ NodeMeta.price meta = Some (Product.price p)
                /\ NodeMeta.currency meta = Product.currency p
                /\ NodeMeta.categories meta = map Category.name (Product.categories p)
                /\ NodeMeta.rating meta = Product.averageRating p
                /\ NodeMeta.reviewCount meta = Product.reviewCount p
                /\ NodeMeta.inStock meta
                   = Some (String.eqb (Product.stockStatus p) "instock")
                /\ NodeMeta.permalink meta = Some (Product.permalink p)
                /\ NodeMeta.salePrice meta = Product.salePrice p
                /\ NodeMeta.regularPrice meta = Product.regularPrice p)
        /\ (forall j name,
              categoriesOf published !! j = Some name ->
              exists node meta,
                nodes !! (length published + j)%nat = Some node
                /\ LangGraphNode.id node = "category_" +:+ name
                /\ LangGraphNode.content node
                   = "Product category: " +:+ name +:+
                     ". Available products in this category."
                /\ LangGraphNode.score node = Some (8 # 10)%Q
                /\ LangGraphNode.metadata node = Some meta
                /\ NodeMeta.type meta = "category"
                /\ NodeMeta.name meta = Some name
                /\ NodeMeta.id meta = None))
  /\ (forall s',
        getProductKnowledge query siteId w s = (Ok [], s') ->
        db_findBySite w siteId "publish" = Ok []
        \/ (exists e, db_findBySite w siteId "publish" = Throw e)
        \/ (exists e, db_searchProducts w siteId (Some query) publish = Throw e)).
Proof.
  split.
  - intros published Hall Hsearch Hsite Hne.
    unfold getProductKnowledge, try_catch, bind, redisCache_get_knowledge,
      redisCache_set_knowledge, ProductModel_searchProducts, ProductModel_findBySite,
      call, ask, ret.
    rewrite !redisCache_getClient_null, Hall, Hsearch. simpl. rewrite Hsite. simpl.
    eexists; eexists; split; [reflexivity|].
    split; [intros E; apply knowledgeNodes_nil in E; contradiction|].
    split; [reflexivity|].
    split; [unfold knowledgeNodes; rewrite length_app, !length_map; reflexivity|].
    split; [apply categoriesOf_spec|].
    split; [apply categoriesOf_spec|].
    split; [unfold knowledgeNodes; rewrite map_app, !map_map; reflexivity|].
    split.
    + intros i p Hp. unfold knowledgeNodes.
      exists (productNode (number_toString w) p).
      destruct (LangGraphNode.metadata (productNode (number_toString w) p))
        as [meta|] eqn:Em; [|discriminate Em].
      exists meta. split.
      { rewrite lookup_app_l by (rewrite length_map; eapply lookup_lt_Some; exact Hp).
        rewrite list_lookup_fmap, Hp. reflexivity. }
      unfold productNode in Em. cbn [LangGraphNode.metadata] in Em.
      inversion Em; subst meta; clear Em.
      repeat split.
    + intros j name Hj. unfold knowledgeNodes.
      exists (categoryNode name).
      destruct (LangGraphNode.metadata (categoryNode name)) as [meta|] eqn:Em;
        [|discriminate Em].
      exists meta. split.
      { rewrite lookup_app_r by (rewrite length_map; lia).
        rewrite length_map.
        replace (length published + j - length published)%nat with j by lia.
        rewrite list_lookup_fmap, Hj. reflexivity. }
      unfold categoryNode in Em. cbn [LangGraphNode.metadata] in Em.
      inversion Em; subst meta; clear Em.
      repeat split.
  - intros s'.
    unfold getProductKnowledge, getAllProducts, try_catch, bind,
      redisCache_get_knowledge, redisCache_set_knowledge,
      ProductModel_searchProducts, ProductModel_findBySite, call, ask, ret.
    rewrite !redisCache_getClient_null.
    destruct (isRequestingAllProducts query); simpl.
    + destruct (db_findSortedByName w siteId true) as [[|p l]|e]; simpl;
        try (destruct (db_findBySite w siteId "publish") as [[|p' l']|e']; simpl);
        intros H; inversion H; eauto.
    + destruct (db_searchProducts w siteId (Some query) publish) as [[|p l]|e]; simpl;
        try (destruct (db_findBySite w siteId "publish") as [[|p' l']|e']; simpl);
        intros H; inversion H; eauto.
Qed.

Lemma C7_retriever_falls_back_to_full_catalog_witness :
  exists nodes s',
    getProductKnowledge "gaming laptop" "S1" shopWorld emptyStore = (Ok nodes, s')
    /\ map LangGraphNode.id nodes = ["p1"; "p2"; "p3"; "p4"; "p5"; "category_laptops"]
    /\ (LangGraphNode.content <$> nodes !! 1%nat)
       = Some "Laptop p2: A laptop. Price: $0. Categories: laptops. Rating: 0/5 (0 reviews)."
    /\ (LangGraphNode.score <$> nodes !! 1%nat) = Some (Some 1%Q)
    /\ ((fun meta => (NodeMeta.type meta, NodeMeta.id meta, NodeMeta.name meta,
                      NodeMeta.categories meta, NodeMeta.inStock meta))
          <$> (nodes !! 1%nat ≫= LangGraphNode.metadata))
       = Some ("product", Some "p2", Some "Laptop p2", ["laptops"], Some true)
    /\ (LangGraphNode.content <$> nodes !! 5%nat)
       = Some "Product category: laptops. Available products in this category."
    /\ (LangGraphNode.score <$> nodes !! 5%nat) = Some (Some (8 # 10)%Q)
    /\ ((fun meta => (NodeMeta.type meta, NodeMeta.id meta, NodeMeta.name meta))
          <$> (nodes !! 5%nat ≫= LangGraphNode.metadata))
       = Some ("category", None, Some "laptops").
Proof.
  destruct (C7_retriever_falls_back_to_full_catalog shopWorld emptyStore
              "gaming laptop" "S1") as [H _].
  destruct (H catalog eq_refl eq_refl eq_refl ltac:(discriminate))
    as (nodes & s' & E & _ & Hnodes & _).
  exists nodes, s'. split; [exact E|]. rewrite Hnodes. vm_compute. repeat split.
Defined.

(** ** Text-pattern function calls *)

Section MatcherFacts.
Context {A : Type} (P : option A -> Prop).
Hypothesis P_none : P None.
Hypothesis P_orelse : forall x y, P x -> P y -> P (orelse x y).

(** A property of results that holds of failure, is kept by [orelse] and
    holds of everything the continuation returns, holds of the match. *)
Lemma rmatch_post (ci : bool) (r : regex) :
  forall prev s cap (k : kont),
    (forall p s' c, P (k p s' c)) -> P (rmatch ci r prev s cap k).
Proof.
  induction r as [|c|cs|r1 IH1 r2 IH2|r1 IH1 r2 IH2|r1 IH1|r1 IH1|r1 IH1|r1 IH1| | |];
    intros prev s cap k Hk; simpl.
  - apply Hk.
  - destruct s as [|a s']; [apply P_none|].
    destruct (chr_eq ci a c); [apply Hk | apply P_none].
  - destruct s as [|a s']; [apply P_none|].
    destruct (cset_mem cs a); [apply Hk | apply P_none].
  - apply IH1. intros p s' c. apply IH2, Hk.
  - apply P_orelse; [apply IH1, Hk | apply IH2, Hk].
  - apply P_orelse; [apply IH1, Hk | apply Hk].
  - apply IH1. intros p s' c.
    destruct (String.length s' <? String.length s); [|apply Hk].
    apply P_orelse; [|apply Hk].
    generalize (String.length s). intros fuel. clear prev s cap.
    revert p s' c. induction fuel as [|fuel IHf]; intros prev s cap.
    + apply P_none.
    + apply IH1. intros p s' c.
      destruct (String.length s' <? String.length s); [|apply Hk].
      apply P_orelse; [apply IHf | apply Hk].
  - apply IH1. intros p s' c.
    destruct (String.length s' <? String.length s); [|apply Hk].
    apply P_orelse; [apply Hk|].
    generalize (String.length s). intros fuel. clear prev s cap.
    revert p s' c. induction fuel as [|fuel IHf]; intros prev s cap.
    + apply P_none.
    + apply IH1. intros p s' c.
      destruct (String.length s' <? String.length s); [|apply Hk].
      apply P_orelse; [apply Hk | apply IHf].
  - apply IH1. intros p s' c. apply Hk.
  - destruct (xorb (word_opt prev) (word_opt (head_char s))); [apply Hk | apply P_none].
  - destruct prev; [apply P_none | apply Hk].
  - destruct s; [apply Hk | apply P_none].
Qed.

Lemma search_post (ci : bool) (r : regex) (k : kont) :
  (forall prev s, P (rmatch ci r prev s None k)) ->
  forall prev s, P (search ci r prev s k).
Proof.
  intros H prev s. revert prev. induction s as [|c s IH]; intros prev; simpl.
  - apply P_orelse; [apply H | apply P_none].
  - apply P_orelse; [apply H | apply IH].
Qed.
End MatcherFacts.

Lemma rmatch_Seq {A : Type} (ci : bool) (r1 r2 : regex) prev s cap (k : @kont A) :
  rmatch ci (Seq r1 r2) prev s cap k =
  rmatch ci r1 prev s cap (fun p s' c => rmatch ci r2 p s' c k).
Proof. reflexivity. Qed.

Lemma rmatch_Cap {A : Type} (ci : bool) (r : regex) prev s cap (k : @kont A) :
  rmatch ci (Cap r) prev s cap k =
  rmatch ci r prev s cap (fun p s' _ => k p s' (Some (consumed s s'))).
Proof. reflexivity. Qed.

(** In a match of the search-call pattern the capture group always takes
    part. *)
Lemma searchCallPattern_group (content : string) :
  match_group true searchCallPattern content <> Some None.
Proof.
  unfold match_group.
  set (P := fun x : option (option string) => x <> Some None).
  assert (PN : P None) by (unfold P; discriminate).
  assert (PO : forall x y, P x -> P y -> P (orelse x y)).
  { unfold P. intros [x|] y Hx Hy; simpl; assumption. }
  apply (search_post P PN PO). intros prev s.
  unfold searchCallPattern. cbn [seqs].
  do 6 (rewrite rmatch_Seq; apply (rmatch_post P PN PO); intros ? ? ?; cbv beta).
  rewrite rmatch_Seq, rmatch_Cap.
  apply (rmatch_post P PN PO). intros q t g.
  cbn [rmatch]. apply PO.
  - destruct t as [|a t']; [exact PN|].
    destruct (chr_eq true a (ascii_of_nat 10)); [unfold P; discriminate | exact PN].
  - destruct t; [unfold P; discriminate | exact PN].
Qed.

(** The search step never throws and only queries the catalog. *)
Lemma parseSearchStep_spec (content : string) (context : ConversationContext.t)
    (w : World) (s : Store) :
  exists actions s1 pre,
    parseSearchStep content context w s = (Ok actions, s1)
    /\ calls s1 = calls s ++ pre
    /\ Forall (fun c => isEligibilityCheck c = false) pre
    /\ Forall (fun a => action_type a = "show_products") actions.
Proof.
  unfold parseSearchStep.
  pose proof (searchCallPattern_group content) as Hg.
  destruct (match_group true searchCallPattern content) as [[g|]|].
  - unfold bind, searchProducts, try_catch, bind, ProductModel_searchProducts, call, ret.
    simpl.
    destruct (db_searchProducts w (ConversationContext.siteId context)
                (Some (Js.strip_quotes (Js.trim g))) _) as [l|e].
    + eexists; eexists; eexists. split; [reflexivity|]. simpl.
      split; [reflexivity|]. split; repeat constructor.
    + eexists; eexists; eexists. split; [reflexivity|]. simpl.
      split; [reflexivity|]. split; repeat constructor.
  - contradiction.
  - exists [], s, []. unfold ret. rewrite app_nil_r. repeat split; constructor.
Qed.

(** The reply parser never looks at the eligibility check. *)
Lemma parseFunctionCallsFromContent_ignores_eligibility (content : string)
    (context : ConversationContext.t) (w : World) (s : Store) f :
  parseFunctionCallsFromContent content context (with_checkEligibility f w) s =
  parseFunctionCallsFromContent content context w s.
Proof.
  unfold parseFunctionCallsFromContent, parseSearchStep, parseCouponStep,
    searchProducts, try_catch, bind, ProductModel_searchProducts,
    couponService_generateCouponForSession, call, run, ret, throw.
  destruct (match_group true searchCallPattern content) as [[g|]|];
    destruct (test true couponCallPattern content); reflexivity.
Qed.

(** C10.  In text-pattern mode, when the reply matches the coupon pattern
    the parser asks the coupon collaborator to issue a percentage coupon of
    10 percent.  That request is the last collaborator call it makes, and
    no call it makes is an eligibility check; the parser returns the same
    actions whatever the eligibility check would answer.  A [generate_coupon]
    action is emitted exactly for the coupon the collaborator issues for
    that request, so the amount does not come from [maxDiscount]. *)
Theorem C10_text_mode_coupon_without_eligibility_check (w : World) (s : Store)
    (content : string) (context : ConversationContext.t) :
  test true couponCallPattern content = true ->
  let sessionId := ConversationContext.sessionId context in
  let siteId := ConversationContext.siteId context in
  let request := CouponGenerate sessionId siteId textCouponParams in
  exists actions s' pre,
    parseFunctionCallsFromContent content context w s = (Ok actions, s')
    /\ calls s' = calls s ++ pre ++ [request]
    /\ Forall (fun c => isEligibilityCheck c = false) (pre ++ [request])
    /\ CouponParams.discountType textCouponParams = Some "percentage"
    /\ CouponParams.amount textCouponParams = Some 10%Q
    /\ (forall coupon,
          coupon_generate w sessionId siteId textCouponParams = Ok (Some coupon)
          <-> generate_coupon coupon ∈ actions)
    /\ (forall f,
          parseFunctionCallsFromContent content context (with_checkEligibility f w) s
          = (Ok actions, s')).
Proof.
  intros Hmatch sessionId siteId request.
  destruct (parseSearchStep_spec content context w s)
    as (acts & s1 & pre & Hstep & Hcalls & Hpre & Hacts).
  assert (Hshow : forall coupon, generate_coupon coupon ∉ acts).
  { intros coupon Hin. rewrite Forall_forall in Hacts.
    specialize (Hacts _ Hin). discriminate Hacts. }
  assert (Htransfer : forall coupon l,
             generate_coupon coupon ∈ parseTransferStep content l ->
             generate_coupon coupon ∈ l).
  { intros coupon l. unfold parseTransferStep.
    destruct (test true transferCallPattern content); [|auto].
    rewrite elem_of_app, list_elem_of_singleton.
    intros [H|H]; [exact H | discriminate H]. }
  assert (Htransfer' : forall (a : Action) l, a ∈ l -> a ∈ parseTransferStep content l).
  { intros a l H. unfold parseTransferStep.
    destruct (test true transferCallPattern content); [|exact H].
    apply elem_of_app. left. exact H. }
  assert (E : exists actions,
             parseFunctionCallsFromContent content context w s
               = (Ok actions, log request s1)
             /\ forall coupon,
                  coupon_generate w sessionId siteId textCouponParams = Ok (Some coupon)
                  <-> generate_coupon coupon ∈ actions).
  { unfold parseFunctionCallsFromContent, try_catch, bind. rewrite Hstep.
    unfold parseCouponStep. rewrite Hmatch.
    unfold bind, couponService_generateCouponForSession, call, ret.
    fold sessionId siteId request.
    destruct (coupon_generate w sessionId siteId textCouponParams) as [[c|]|e].
    - eexists. split; [reflexivity|]. intros coupon. split.
      + intros H. inversion H; subst. apply Htransfer'.
        apply elem_of_app. right. apply list_elem_of_here.
      + intros H. apply Htransfer in H. apply elem_of_app in H as [H|H].
        * exfalso. exact (Hshow _ H).
        * apply list_elem_of_singleton in H. inversion H. reflexivity.
    - eexists. split; [reflexivity|]. intros coupon. split; [discriminate|].
      intros H. apply Htransfer in H. exfalso. exact (Hshow _ H).
    - eexists. split; [reflexivity|]. intros coupon. split; [discriminate|].
      intros H. exfalso. exact (Hshow _ H). }
  destruct E as (actions & E & Hiff).
  exists actions, (log request s1), pre.
  split; [exact E|].
  split; [rewrite calls_log, Hcalls, app_assoc; reflexivity|].
  split; [apply Forall_app; split; [exact Hpre | repeat constructor]|].
  split; [reflexivity|]. split; [reflexivity|].
  split; [exact Hiff|].
  intros f. rewrite parseFunctionCallsFromContent_ignores_eligibility. exact E.
Qed.

Lemma C10_text_mode_coupon_without_eligibility_check_witness :
  test true couponCallPattern offerReply = true
  /\ (Eligibility.eligible <$>
        match coupon_checkEligibility shopWorld "sess1" "S1" None with
        | Ok e => Some e
        | Throw _ => None
        end) = Some false
  /\ exists actions s',
       parseFunctionCallsFromContent offerReply (sampleContext None) shopWorld emptyStore
         = (Ok actions, s')
       /\ generate_coupon {| Coupon.code := "SAVE" |} ∈ actions
       /\ Forall (fun c => isEligibilityCheck c = false) (calls s').
Proof.
  split; [reflexivity|]. split; [reflexivity|].
  destruct (C10_text_mode_coupon_without_eligibility_check shopWorld emptyStore
              offerReply (sampleContext None) eq_refl)
    as (actions & s' & pre & E & Hcalls & Hno & _ & _ & Hiff & _).
  exists actions, s'. split; [exact E|]. split.
  - apply Hiff. reflexivity.
  - rewrite Hcalls. exact Hno.
Defined.

(** ** The error boundary *)

Lemma Math_random_range (bits : N) :
  (0 <= Math_random bits)%Q /\ (Math_random bits < 1)%Q.
Proof.
  unfold Math_random, Qle, Qlt. simpl Qnum. simpl Qden.
  assert (H : (bits mod 2 ^ 53 < 2 ^ 53)%N) by (apply N.mod_lt; discriminate).
  change (2 ^ 53)%N with 9007199254740992%N in *.
  change (2 ^ 53)%positive with 9007199254740992%positive.
  set (m := (bits mod 9007199254740992)%N) in *. clearbody m.
  split; lia.
Qed.

Lemma fallback_index_range (bits : N) :
  (0 <= Math_floor (Math_random bits * inject_Z (Z.of_nat (length fallbackMessages))) < 4)%Z.
Proof.
  destruct (Math_random_range bits) as [H0 H1].
  change (inject_Z (Z.of_nat (length fallbackMessages))) with 4%Q.
  unfold Math_floor. split.
  - change 0%Z with (Qfloor 0). apply Qfloor_resp_le. lra.
  - rewrite Zlt_Qlt. pose proof (Qfloor_le (Math_random bits * 4)) as H.
    change (inject_Z 4) with 4%Q. lra.
Qed.

Lemma fallbackMessages_nonempty : Forall (fun m => m <> EmptyString) fallbackMessages.
Proof. repeat constructor; discriminate. Qed.

(** The fallback text is always one of the four prepared messages. *)
Lemma randomMessage_in_pool (bits : N) : randomMessage bits ∈ fallbackMessages.
Proof.
  unfold randomMessage.
  pose proof (fallback_index_range bits) as H.
  set (index := Math_floor _) in *.
  destruct (Z.ltb_spec index 0) as [Hneg|_]; [lia|].
  assert (Hi : (Z.to_nat index < 4)%nat) by lia.
  destruct (Z.to_nat index) as [|[|[|[|n]]]]; simpl;
    [apply list_elem_of_In; simpl; tauto .. | lia].
Qed.

Lemma or_str_nonempty (o : option string) (d : string) :
  d <> EmptyString -> or_str o d <> EmptyString.
Proof.
  intros Hd. unfold or_str, truthy_str.
  destruct o as [[|c s]|]; try exact Hd; discriminate.
Qed.

Lemma enhanceResponse_message (response : AIResponse.t) (context : ConversationContext.t)
    (analysis : Analysis.t) (query : string) (w : World) (s : Store) r s' :
  enhanceResponse response context analysis query w s = (Ok r, s') ->
  AIResponse.message r = AIResponse.message response.
Proof.
  intros H.
  apply enhanceResponse_inv in H
    as [->|[(_ & n & _ & ->)|(_ & e1 & s1 & e2 & s2 & H1 & H2 & ->)]];
    try reflexivity.
  simpl.
  destruct (attachCoupons_spec e1 context analysis w s1) as (r0 & s0 & E & Hr).
  rewrite E in H2. inversion H2; subst r0 s0; clear H2.
  apply attachProducts_inv in H1 as [->|(rel & _ & ->)];
    destruct (String.eqb (Analysis.intent analysis) "purchase_intent"
              && String.eqb (Analysis.purchaseReadiness analysis) "ready_to_buy");
    try (destruct Hr as (l & _ & ->)); try (destruct Hr as [-> _]); reflexivity.
Qed.

(** A generated response always has a text: the reply of the provider or
    the apology. *)
Lemma generateAIResponse_message (request : AIRequest.t) (context : ConversationContext.t)
    (analysis : Analysis.t) (w : World) (s : Store) r context' s' :
  generateAIResponse request context analysis w s = (Ok (r, context'), s') ->
  AIResponse.message r <> EmptyString.
Proof.
  unfold generateAIResponse. intros H.
  apply try_catch_inv in H as [(a & H & Ha)|(e & s1 & _ & H)]; [|discriminate H].
  inversion Ha; subst a; clear Ha.
  apply bind_inv in H as [(pk & s1 & _ & H)|(e & _ & H)]; [|discriminate H].
  cbv zeta in H.
  apply bind_inv in H as [(model & s2 & _ & H)|(e & _ & H)]; [|discriminate H].
  apply bind_inv in H as [(maxTokens & s3 & _ & H)|(e & _ & H)]; [|discriminate H].
  apply bind_inv in H as [(temperature & s4 & _ & H)|(e & _ & H)]; [|discriminate H].
  apply bind_inv in H as [(completion & s5 & _ & H)|(e & _ & H)]; [|discriminate H].
  apply bind_inv in H as [(actions & s6 & _ & H)|(e & _ & H)]; [|discriminate H].
  apply bind_inv in H as [(now & s7 & _ & H)|(e & _ & H)]; [|discriminate H].
  unfold ret in H. inversion H; subst. simpl.
  apply or_str_nonempty. discriminate.
Qed.

Lemma processTurn_message (request : AIRequest.t) (w : World) (s : Store) r s' :
  processTurn request w s = (Ok r, s') -> AIResponse.message r <> EmptyString.
Proof.
  unfold processTurn. intros H.
  apply bind_inv in H as [(context & s1 & _ & H)|(e & _ & H)]; [|discriminate H].
  apply bind_inv in H as [(analysis & s2 & _ & H)|(e & _ & H)]; [|discriminate H].
  apply bind_inv in H as [([ai context'] & s3 & Hgen & H)|(e & _ & H)]; [|discriminate H].
  apply bind_inv in H as [(enhanced & s4 & Henh & H)|(e & _ & H)]; [|discriminate H].
  apply bind_inv in H as [(u1 & s5 & _ & H)|(e & _ & H)]; [|discriminate H].
  apply bind_inv in H as [(u2 & s6 & _ & H)|(e & _ & H)]; [|discriminate H].
  unfold ret in H. inversion H; subst.
  rewrite (enhanceResponse_message _ _ _ _ _ _ _ _ Henh).
  exact (generateAIResponse_message _ _ _ _ _ _ _ _ Hgen).
Qed.

(** C1.  For every request, whatever the collaborators do, processMessage
    returns a response and does not throw; the message of the response is
    not empty.  When the turn fails with an error that nothing inside
    catches, the response has intent [unknown], confidence 0.1, sentiment
    0, no actions, a message taken from the pool of four non-empty fallback
    messages, and metadata that flags the fallback and records the message
    of the error. *)
Theorem C1_processMessage_always_answers (w : World) (s : Store) (request : AIRequest.t) :
  exists r s',
    processMessage request w s = (Ok r, s')
    /\ AIResponse.message r <> EmptyString
    /\ (forall error s1,
          processTurn request w s = (Throw error, s1) ->
          AIResponse.intent r = "unknown"
          /\ AIResponse.confidence r = (1 # 10)%Q
          /\ AIResponse.sentiment r = 0%Q
          /\ AIResponse.actions r = []
          /\ AIResponse.products r = None
          /\ AIResponse.coupons r = None
          /\ AIResponse.message r ∈ fallbackMessages
          /\ Forall (fun m => m <> EmptyString) fallbackMessages
          /\ metadata_of r !! "fallback" = Some (MBool true)
          /\ metadata_of r !! "error" = Some (MStr error)).
Proof.
  unfold processMessage, try_catch.
  destruct (processTurn request w s) as [[r|error] s1] eqn:E.
  - exists r, s1. split; [reflexivity|].
    split; [exact (processTurn_message _ _ _ _ _ E)|].
    intros error s2 H. discriminate H.
  - unfold getFallbackResponse, bind, ask, ret.
    eexists. eexists. split; [reflexivity|]. simpl.
    pose proof (randomMessage_in_pool (random_bits w)) as Hin.
    pose proof fallbackMessages_nonempty as Hne.
    split.
    + rewrite Forall_forall in Hne. apply Hne, Hin.
    + intros error' s2 H. inversion H; subst.
      repeat (split; [reflexivity|]).
      split; [exact Hin|]. split; [exact Hne|].
      unfold metadata_of. simpl. split; reflexivity.
Qed.

(** With every collaborator down the turn itself fails with the error of
    the completion provider. *)
Example processTurn_fails_when_provider_down :
  fst (processTurn (sampleRequest "hello" None) deadWorld emptyStore)
  = Throw "service unavailable".
Proof. vm_compute. reflexivity. Qed.

(** With every collaborator down the turn still ends in a fallback reply. *)
Example processMessage_when_everything_fails :
  exists r s',
    processMessage (sampleRequest "hello" None) deadWorld emptyStore = (Ok r, s')
    /\ AIResponse.message r =
         "I apologize, but I'm having some technical difficulties right now. Could you please rephrase your question?"
    /\ metadata_of r !! "error" = Some (MStr "service unavailable").
Proof.
  pose (run := processMessage (sampleRequest "hello" None) deadWorld emptyStore).
  exists (value_of (sampleResponse "") run), (snd run).
  repeat split; vm_compute; reflexivity.
Qed.

(** * Further properties of the service *)

(** ** Conversation history sent to the provider *)

(** X1.  buildConversationMessages sends at most the ten most recent
    history entries, in their order, followed by the current message as a
    [user] turn; every role is [user] or [assistant]. *)
Theorem X1_conversation_window (previousMessages : list ChatMessage.t)
    (currentMessage : string) :
  let messages := buildConversationMessages previousMessages currentMessage in
  length messages = (Nat.min 10 (length previousMessages) + 1)%nat
  /\ last messages =
       Some {| PromptMessage.role := "user"; PromptMessage.content := currentMessage |}
  /\ map PromptMessage.content messages =
       map ChatMessage.content
         (drop (length previousMessages - 10) previousMessages) ++ [currentMessage]
  /\ ((length previousMessages <= 10)%nat ->
      map PromptMessage.content messages =
        map ChatMessage.content previousMessages ++ [currentMessage])
  /\ Forall (fun m => PromptMessage.role m = "user" \/ PromptMessage.role m = "assistant")
       messages.
Proof.
  intros messages. unfold messages, buildConversationMessages.
  split; [rewrite length_app, length_map, length_drop; cbn [length]; lia|].
  split; [apply last_snoc|].
  split; [rewrite map_app, map_map; reflexivity|].
  split.
  - intros Hlen. replace (length previousMessages - 10)%nat with 0%nat by lia.
    rewrite drop_0, map_app, map_map. reflexivity.
  - apply Forall_app. split.
    + rewrite Forall_forall. intros m Hm. apply list_elem_of_In in Hm.
      apply in_map_iff in Hm as (msg & <- & _). simpl.
      destruct (String.eqb (ChatMessage.type msg) "user"); auto.
    + repeat constructor.
Qed.

(** ** Interest tags *)

Lemma interest_scan_spec (content : string) (keys acc : list string) :
  NoDup acc ->
  let res :=
    fold_left (fun interests keyword =>
                 if Js.includes content keyword then set_add interests keyword
                 else interests) keys acc in
  NoDup res
  /\ forall y, y ∈ res <-> y ∈ acc \/ (y ∈ keys /\ Js.includes content y = true).
Proof.
  revert acc. induction keys as [|k keys IH]; intros acc Hacc; simpl.
  - split; [exact Hacc|]. intros y. rewrite elem_of_nil. tauto.
  - destruct (Js.includes content k) eqn:E.
    + destruct (IH (set_add acc k) (set_add_NoDup acc k Hacc)) as [Hnd Hel].
      split; [exact Hnd|]. intros y. rewrite Hel, set_add_elem, elem_of_cons.
      split; [intros [[H|H]|H]; subst; tauto | intros [H|[[H|H] H']]; subst; tauto].
    + destruct (IH acc Hacc) as [Hnd Hel].
      split; [exact Hnd|]. intros y. rewrite Hel, elem_of_cons.
      split; [tauto|]. intros [H|[[H|H] H']]; subst; try tauto. congruence.
Qed.

Lemma interest_fold_spec (keys : list string) (messages : list ChatMessage.t)
    (acc : list string) :
  NoDup acc ->
  let res :=
    fold_left
      (fun interests message =>
         if String.eqb (ChatMessage.type message) "user" then
           let content := Js.toLowerCase (ChatMessage.content message) in
           fold_left
             (fun interests keyword =>
                if Js.includes content keyword then set_add interests keyword
                else interests)
             keys interests
         else interests)
      messages acc in
  NoDup res
  /\ forall y,
       y ∈ res <->
       y ∈ acc
       \/ (y ∈ keys
           /\ exists m, m ∈ messages
                        /\ ChatMessage.type m = "user"
                        /\ Js.includes (Js.toLowerCase (ChatMessage.content m)) y = true).
Proof.
  revert acc. induction messages as [|m messages IH]; intros acc Hacc; cbn [fold_left].
  - split; [exact Hacc|]. intros y. split; [tauto|].
    intros [H|(_ & m & Hm & _)]; [exact H | inversion Hm].
  - destruct (String.eqb (ChatMessage.type m) "user") eqn:E.
    + apply String.eqb_eq in E.
      destruct (interest_scan_spec (Js.toLowerCase (ChatMessage.content m))
                  keys acc Hacc) as [Hnd Hel].
      destruct (IH _ Hnd) as [Hnd' Hel'].
      split; [exact Hnd'|]. intros y. rewrite Hel', Hel. split.
      * intros [[H|[H1 H2]]|(H1 & m' & Hm' & H2)]; [left; exact H | |].
        -- right. split; [exact H1|]. exists m. split; [apply list_elem_of_here | auto].
        -- right. split; [exact H1|]. exists m'.
           split; [apply list_elem_of_further, Hm' | exact H2].
      * intros [H|(H1 & m' & Hm' & H2 & H3)]; [left; left; exact H|].
        apply elem_of_cons in Hm' as [->|Hm']; [left; right; auto|].
        right. split; [exact H1|]. exists m'. auto.
    + destruct (IH _ Hacc) as [Hnd' Hel'].
      split; [exact Hnd'|]. intros y. rewrite Hel'. split.
      * intros [H|(H1 & m' & Hm' & H2)]; [left; exact H|].
        right. split; [exact H1|]. exists m'.
        split; [apply list_elem_of_further, Hm' | exact H2].
      * intros [H|(H1 & m' & Hm' & H2 & H3)]; [left; exact H|].
        apply elem_of_cons in Hm' as [->|Hm'].
        -- rewrite H2 in E. discriminate E.
        -- right. split; [exact H1|]. exists m'. auto.
Qed.

(** X2.  extractUserInterests returns each tag once, and a tag is returned
    exactly when it is one of the eighteen vocabulary words and occurs, in
    any letter case, as a substring of some user-authored message;
    assistant messages never activate a tag. *)
Theorem X2_interest_tags (messages : list ChatMessage.t) :
  NoDup (extractUserInterests messages)
  /\ forall keyword,
       keyword ∈ extractUserInterests messages <->
       keyword ∈ interestKeywords
       /\ exists m, m ∈ messages
                    /\ ChatMessage.type m = "user"
                    /\ Js.includes (Js.toLowerCase (ChatMessage.content m)) keyword = true.
Proof.
  destruct (interest_fold_spec interestKeywords messages [] (NoDup_nil_2)) as [Hnd Hel].
  split; [exact Hnd|]. intros keyword.
  unfold extractUserInterests. rewrite Hel, elem_of_nil.
  split; [intros [H|H]; [contradiction | exact H] | intros H; right; exact H].
Qed.

(** ** Price range *)

Lemma fold_Qmin_lower (l : list Q) (x y : Q) :
  y ∈ x :: l -> (fold_left Qmin l x <= y)%Q.
Proof.
  revert x y. induction l as [|a l IH]; intros x y Hy; simpl.
  - apply list_elem_of_singleton in Hy. subst. apply Qle_refl.
  - apply elem_of_cons in Hy as [->|Hy].
    + eapply Qle_trans; [apply IH, list_elem_of_here | apply Qmin_le_l].
    + apply elem_of_cons in Hy as [->|Hy].
      * eapply Qle_trans; [apply IH, list_elem_of_here | apply Qmin_le_r].
      * apply IH. apply list_elem_of_further, Hy.
Qed.

Lemma Qmax_ge_r (a b : Q) : (b <= Qmax a b)%Q.
Proof.
  unfold Qmax. destruct (Qle_bool a b) eqn:E; [apply Qle_refl|].
  apply Qlt_le_weak. destruct (Qlt_le_dec b a) as [H|H]; [exact H|].
  apply Qle_bool_iff in H. congruence.
Qed.

Lemma fold_Qmax_upper (l : list Q) (x y : Q) :
  y ∈ x :: l -> (y <= fold_left Qmax l x)%Q.
Proof.
  revert x y. induction l as [|a l IH]; intros x y Hy; simpl.
  - apply list_elem_of_singleton in Hy. subst. apply Qle_refl.
  - apply elem_of_cons in Hy as [->|Hy].
    + eapply Qle_trans; [apply Qmax_ge_l | apply IH, list_elem_of_here].
    + apply elem_of_cons in Hy as [->|Hy].
      * eapply Qle_trans; [apply Qmax_ge_r | apply IH, list_elem_of_here].
      * apply IH. apply list_elem_of_further, Hy.
Qed.

Lemma Math_min_max_bounds (prices : list Q) (p : Q) :
  p ∈ prices -> (Math_min prices <= p)%Q /\ (p <= Math_max prices)%Q.
Proof.
  destruct prices as [|x l]; [intros H; inversion H|].
  intros H. split; [apply fold_Qmin_lower, H | apply fold_Qmax_upper, H].
Qed.

(** One step of the [messages.forEach] loop of analyzeProductPreferences. *)
Lemma analyzeProductPreferences_snoc (messages : list ChatMessage.t) (m : ChatMessage.t) :
  analyzeProductPreferences (messages ++ [m]) =
  let preferences := analyzeProductPreferences messages in
  if String.eqb (ChatMessage.type m) "user" && (2 <=? length (messagePrices m))%nat then
    {| ProductPreferences.categories := ProductPreferences.categories preferences;
       ProductPreferences.priceRange :=
         Some {| PriceRange.min := Math_min (messagePrices m);
                 PriceRange.max := Math_max (messagePrices m) |};
       ProductPreferences.features := ProductPreferences.features preferences |}
  else preferences.
Proof.
  unfold analyzeProductPreferences. rewrite fold_left_app. cbn [fold_left].
  unfold messagePrices.
  destruct (String.eqb (ChatMessage.type m) "user"); [|reflexivity].
  destruct (match_all false pricePattern (Js.toLowerCase (ChatMessage.content m)))
    as [|t ts]; reflexivity.
Qed.

Lemma analyzeProductPreferences_invariant (messages : list ChatMessage.t) :
  let preferences := analyzeProductPreferences messages in
  ProductPreferences.categories preferences = []
  /\ ProductPreferences.features preferences = []
  /\ (ProductPreferences.priceRange preferences = None <->
      forall m, m ∈ messages -> ChatMessage.type m = "user" ->
                (length (messagePrices m) < 2)%nat)
  /\ forall r, ProductPreferences.priceRange preferences = Some r ->
       exists m, m ∈ messages /\ ChatMessage.type m = "user"
                 /\ (2 <= length (messagePrices m))%nat
                 /\ r = {| PriceRange.min := Math_min (messagePrices m);
                           PriceRange.max := Math_max (messagePrices m) |}.
Proof.
  induction messages as [|m messages IH] using rev_ind.
  - simpl. repeat split; try reflexivity; try discriminate.
    intros _ m Hm. inversion Hm.
  - rewrite analyzeProductPreferences_snoc. cbv zeta.
    destruct IH as (Hc & Hf & Hnone & Hsome).
    destruct (String.eqb (ChatMessage.type m) "user") eqn:Et;
      [destruct (2 <=? length (messagePrices m))%nat eqn:El|]; cbn [andb];
      cbn [ProductPreferences.categories ProductPreferences.features
           ProductPreferences.priceRange].
    + apply String.eqb_eq in Et. apply Nat.leb_le in El.
      split; [exact Hc|]. split; [exact Hf|]. split.
      * split; [discriminate|]. intros H.
        specialize (H m ltac:(apply elem_of_app; right; apply list_elem_of_here) Et). lia.
      * intros r Hr. inversion Hr; subst r; clear Hr. exists m.
        split; [apply elem_of_app; right; apply list_elem_of_here|].
        split; [exact Et|]. split; [exact El | reflexivity].
    + apply String.eqb_eq in Et. apply Nat.leb_gt in El.
      split; [exact Hc|]. split; [exact Hf|]. split.
      * rewrite Hnone. split.
        -- intros H m' Hm' Ht. apply elem_of_app in Hm' as [Hm'|Hm']; [auto|].
           apply list_elem_of_singleton in Hm'. subst m'. exact El.
        -- intros H m' Hm' Ht. apply H; [apply elem_of_app; left; exact Hm' | exact Ht].
      * intros r Hr. destruct (Hsome r Hr) as (m' & Hm' & H').
        exists m'. split; [apply elem_of_app; left; exact Hm' | exact H'].
    + split; [exact Hc|]. split; [exact Hf|]. split.
      * rewrite Hnone. split.
        -- intros H m' Hm' Ht. apply elem_of_app in Hm' as [Hm'|Hm']; [auto|].
           apply list_elem_of_singleton in Hm'. subst m'.
           rewrite Ht in Et. discriminate Et.
        -- intros H m' Hm' Ht. apply H; [apply elem_of_app; left; exact Hm' | exact Ht].
      * intros r Hr. destruct (Hsome r Hr) as (m' & Hm' & H').
        exists m'. split; [apply elem_of_app; left; exact Hm' | exact H'].
Qed.

(** X3.  analyzeProductPreferences never fills categories or features.
    It has no price range exactly when no user message carries two or more
    price tokens; a range it reports comes from one user message with at
    least two price tokens and contains every price read in that message,
    so its minimum is at most its maximum.  A further message replaces the
    range when it is a user message with at least two price tokens and
    leaves the preferences untouched otherwise. *)
Theorem X3_price_range (messages : list ChatMessage.t) (m : ChatMessage.t) :
  let preferences := analyzeProductPreferences messages in
  ProductPreferences.categories preferences = []
  /\ ProductPreferences.features preferences = []
  /\ (ProductPreferences.priceRange preferences = None <->
      forall m', m' ∈ messages -> ChatMessage.type m' = "user" ->
                 (length (messagePrices m') < 2)%nat)
  /\ (forall r, ProductPreferences.priceRange preferences = Some r ->
        (PriceRange.min r <= PriceRange.max r)%Q
        /\ exists m', m' ∈ messages /\ ChatMessage.type m' = "user"
                      /\ (2 <= length (messagePrices m'))%nat
                      /\ forall p, p ∈ messagePrices m' ->
                           (PriceRange.min r <= p)%Q /\ (p <= PriceRange.max r)%Q)
  /\ (ChatMessage.type m <> "user" \/ (length (messagePrices m) < 2)%nat ->
      analyzeProductPreferences (messages ++ [m]) = preferences)
  /\ (ChatMessage.type m = "user" -> (2 <= length (messagePrices m))%nat ->
      ProductPreferences.priceRange (analyzeProductPreferences (messages ++ [m])) =
        Some {| PriceRange.min := Math_min (messagePrices m);
                PriceRange.max := Math_max (messagePrices m) |}).
Proof.
  intros preferences.
  destruct (analyzeProductPreferences_invariant messages) as (Hc & Hf & Hnone & Hsome).
  split; [exact Hc|]. split; [exact Hf|]. split; [exact Hnone|]. split.
  - intros r Hr. destruct (Hsome r Hr) as (m' & Hm' & Ht & Hl & ->). simpl.
    assert (Hb : forall p, p ∈ messagePrices m' ->
                 (Math_min (messagePrices m') <= p)%Q
                 /\ (p <= Math_max (messagePrices m'))%Q)
      by (intros p; apply Math_min_max_bounds).
    split; [|exists m'; auto].
    destruct (messagePrices m') as [|p ps]; [simpl in Hl; lia|].
    destruct (Hb p ltac:(apply list_elem_of_here)) as [H1 H2].
    eapply Qle_trans; eassumption.
  - split.
    + intros H. rewrite analyzeProductPreferences_snoc. cbv zeta.
      destruct H as [H|H].
      * destruct (String.eqb (ChatMessage.type m) "user") eqn:E; [|reflexivity].
        apply String.eqb_eq in E. contradiction.
      * apply Nat.leb_gt in H. rewrite H, andb_false_r. reflexivity.
    + intros Ht Hl. rewrite analyzeProductPreferences_snoc. cbv zeta.
      apply String.eqb_eq in Ht. apply Nat.leb_le in Hl. rewrite Ht, Hl. reflexivity.
Qed.

Example price_range_of_one_message :
  ProductPreferences.priceRange
    (analyzeProductPreferences
       [ {| ChatMessage.type := "user";
            ChatMessage.content := "something between $100 and 250.50" |};
         {| ChatMessage.type := "user"; ChatMessage.content := "under 300 please" |} ])
  = Some {| PriceRange.min := 100; PriceRange.max := 250.50 |}.
Proof. vm_compute. reflexivity. Qed.

(** ** Retrieved knowledge, read back by the enhancement step *)

Lemma filter_product_nodes (toString : Q -> string) (products : list Product.t) :
  filter (fun n => isProductNode n = true) (map (productNode toString) products)
  = map (productNode toString) products.
Proof.
  induction products as [|p l IH]; [reflexivity|].
  cbn [map]. rewrite filter_cons_True by reflexivity. rewrite IH. reflexivity.
Qed.

Lemma filter_category_nodes (names : list string) :
  filter (fun n => isProductNode n = true) (map categoryNode names) = [].
Proof.
  induction names as [|c l IH]; [reflexivity|].
  cbn [map]. rewrite filter_cons_False by (simpl; discriminate). exact IH.
Qed.

Lemma omap_product_nodes (toString : Q -> string) (products : list Product.t) :
  omap (fun node : LangGraphNode.t =>
          match LangGraphNode.metadata node with
          | Some m => truthy_str (NodeMeta.id m)
          | None => None
          end)
       (map (productNode toString) products)
  = omap (fun p => truthy_str (Some (Product.id p))) products.
Proof.
  induction products as [|p l IH]; [reflexivity|].
  cbn [omap list_omap map LangGraphNode.metadata productNode NodeMeta.id].
  cbn [omap list_omap] in IH.
  destruct (truthy_str (Some (Product.id p))); rewrite IH; reflexivity.
Qed.

(** X4.  In the node list getProductKnowledge builds, the product nodes
    are exactly the nodes built from the products, in catalog order, each
    with score 1; the identifiers enhanceResponse reads back from the list
    are the non-empty product identifiers, in the same order; and the list
    contains a product node exactly when there is at least one product. *)
Theorem X4_retrieved_identifiers (toString : Q -> string) (products : list Product.t) :
  let nodes := knowledgeNodes toString products in
  filter (fun n => isProductNode n = true) nodes = map (productNode toString) products
  /\ nodeProductIds nodes = omap (fun p => truthy_str (Some (Product.id p))) products
  /\ ((forall p, p ∈ products -> Product.id p <> EmptyString) ->
      nodeProductIds nodes = map Product.id products)
  /\ (existsb isProductNode nodes = true <-> products <> [])
  /\ Forall (fun n => isProductNode n = true -> LangGraphNode.score n = Some 1%Q) nodes.
Proof.
  intros nodes. unfold nodes, knowledgeNodes.
  assert (Hf : filter (fun n => isProductNode n = true)
                 (map (productNode toString) products
                  ++ map categoryNode (categoriesOf products))
               = map (productNode toString) products).
  { rewrite filter_app, filter_product_nodes, filter_category_nodes.
    apply app_nil_r. }
  assert (Hids : nodeProductIds
                   (map (productNode toString) products
                    ++ map categoryNode (categoriesOf products))
                 = omap (fun p => truthy_str (Some (Product.id p))) products).
  { unfold nodeProductIds. rewrite Hf. apply omap_product_nodes. }
  split; [exact Hf|]. split; [exact Hids|]. split.
  - intros Hne. rewrite Hids. clear Hf Hids.
    induction products as [|p l IH]; [reflexivity|].
    assert (Hp : Product.id p <> EmptyString) by (apply Hne, list_elem_of_here).
    cbn [omap list_omap map].
    destruct (Product.id p) as [|c i] eqn:E; [contradiction|].
    cbn [truthy_str]. f_equal. apply IH.
    intros q Hq. apply Hne, list_elem_of_further, Hq.
  - split.
    + destruct products as [|p l]; [|split; [discriminate | reflexivity]].
      cbn [map app]. split; [|intros H; contradiction].
      intros H. exfalso.
      apply existsb_exists in H as (n & Hn & Hp).
      apply list_elem_of_In in Hn.
      assert (Hin : n ∈ filter (fun n => isProductNode n = true)
                          (map categoryNode (categoriesOf []))).
      { apply list_elem_of_filter. split; assumption. }
      rewrite filter_category_nodes in Hin. inversion Hin.
    + apply Forall_app. split; rewrite Forall_forall; intros n Hn Hp;
        apply list_elem_of_In, in_map_iff in Hn as (x & <- & _);
        [reflexivity | discriminate Hp].
Qed.

(** ** Display records *)

Lemma Qlt_bool_iff (a b : Q) : Qlt_bool a b = true <-> (a < b)%Q.
Proof.
  unfold Qlt_bool. split.
  - intros H. apply negb_true_iff in H. apply Qle_bool_false, H.
  - intros H. apply negb_true_iff. destruct (Qle_bool b a) eqn:E; [|reflexivity].
    apply Qle_bool_iff in E. lra.
Qed.

(** X5.  The display record of a product copies identifier, name, price
    and stock status.  It shows a sale price only for a strictly positive
    sale price; it is on sale exactly when that sale price is strictly
    below the regular price, and carries the [Sale] badge exactly then; the
    [Out of Stock] badge appears exactly on products that are neither on
    sale nor in stock; the availability text agrees with the stock flag. *)
Theorem X5_display_record (toString : Q -> string) (product : Product.t) :
  let s := summarize toString product in
  ProductSummary.id s = Product.id product
  /\ ProductSummary.name s = Product.name product
  /\ ProductSummary.price s = Product.price product
  /\ ProductSummary.stock_status s = Product.stockStatus product
  /\ (forall sp, ProductSummary.sale_price s = Some sp ->
        (0 < sp)%Q /\ Product.salePrice product = Some sp)
  /\ (ProductSummary.on_sale s = Some true <->
      exists sp, ProductSummary.sale_price s = Some sp
                 /\ (sp < ProductSummary.regular_price s)%Q)
  /\ (ProductSummary.on_sale s = None <-> ProductSummary.sale_price s = None)
  /\ (ProductSummary.badge s = "Sale" <-> ProductSummary.on_sale s = Some true)
  /\ (ProductSummary.badge s = "Out of Stock" <->
      ProductSummary.on_sale s <> Some true /\ ProductSummary.in_stock s = false)
  /\ (ProductSummary.in_stock s = true <-> ProductSummary.stock_status s = "instock")
  /\ (ProductSummary.availability_text s = "In Stock" <->
      ProductSummary.in_stock s = true).
Proof.
  intros s. unfold s, summarize. cbn -[Qlt_bool truthy_num or_str stars Js.join Math_floor].
  repeat (split; [reflexivity|]).
  split.
  { intros sp. unfold truthy_num.
    destruct (Product.salePrice product) as [q|]; [|discriminate].
    destruct (Qeq_bool q 0); [discriminate|].
    destruct (Qlt_bool 0 q) eqn:E; [|discriminate].
    intros H. inversion H; subst. split; [apply Qlt_bool_iff, E | reflexivity]. }
  set (sale := match truthy_num (Product.salePrice product) with
               | Some sp => if Qlt_bool 0 sp then Some sp else None
               | None => None
               end).
  set (regular := match truthy_num (Product.regularPrice product) with
                  | Some rp => rp
                  | None => Product.price product
                  end).
  destruct sale as [sp|]; cbn.
  - destruct (Qlt_bool sp regular) eqn:E.
    + apply Qlt_bool_iff in E.
      split; [split; [intros _; exists sp; auto | reflexivity]|].
      split; [split; discriminate|].
      split; [split; reflexivity|].
      split; [split; [discriminate | intros [H _]; contradiction]|].
      split; [apply String.eqb_eq|].
      unfold instock. destruct (String.eqb _ _); split; (reflexivity || discriminate).
    + split.
      { split; [discriminate|]. intros (sp' & H & Hlt). inversion H; subst sp'.
        apply Qlt_bool_iff in Hlt. congruence. }
      split; [split; discriminate|].
      unfold instock. destruct (String.eqb (Product.stockStatus product) "instock") eqn:Es; cbn.
      * split; [split; discriminate|].
        split; [split; [discriminate | intros [_ H]; discriminate H]|].
        split; [split; [intros _; apply String.eqb_eq, Es | reflexivity]|].
        split; reflexivity.
      * split; [split; discriminate|].
        split; [split; [intros _; split; [discriminate | reflexivity] | reflexivity]|].
        split; [split; [discriminate | intros H; apply String.eqb_eq in H; congruence]|].
        split; discriminate.
  - split; [split; [discriminate | intros (sp' & H & _); discriminate H]|].
    split; [split; reflexivity|].
    unfold instock. destruct (String.eqb (Product.stockStatus product) "instock") eqn:Es; cbn.
    + split; [split; discriminate|].
      split; [split; [discriminate | intros [_ H]; discriminate H]|].
      split; [split; [intros _; apply String.eqb_eq, Es | reflexivity]|].
      split; reflexivity.
    + split; [split; discriminate|].
      split; [split; [intros _; split; [discriminate | reflexivity] | reflexivity]|].
      split; [split; [discriminate | intros H; apply String.eqb_eq in H; congruence]|].
      split; discriminate.
Qed.

(** ** Intent labels *)

Lemma chr_eq_refl (a : ascii) : chr_eq true a a = true.
Proof. unfold chr_eq. apply Ascii.eqb_refl. Qed.

(** A literal matches every input it is a prefix of. *)
Lemma rmatch_lit_prefix (g s : string) (prev : option ascii) (cap : option string) :
  Js.starts_with g s = true ->
  rmatch true (lit g) prev s cap (fun _ _ _ => Some tt) = Some tt.
Proof.
  revert s prev. induction g as [|c g IH]; intros s prev H; [reflexivity|].
  destruct s as [|a s]; [discriminate H|].
  cbn [Js.starts_with] in H. apply andb_true_iff in H as [Hc Hg].
  apply Ascii.eqb_eq in Hc. subst a.
  destruct g as [|c' g'].
  - cbn [lit rmatch]. rewrite chr_eq_refl. reflexivity.
  - change (lit (String c (String c' g'))) with (Seq (Chr c) (lit (String c' g'))).
    cbn [rmatch]. rewrite chr_eq_refl. apply IH, Hg.
Qed.

Lemma rmatch_alts_some (rs : list regex) (r : regex) (prev : option ascii)
    (s : string) (cap : option string) :
  r ∈ rs ->
  rmatch true r prev s cap (fun _ _ _ => Some tt) = Some tt ->
  rmatch true (alts rs) prev s cap (fun _ _ _ => Some tt) = Some tt.
Proof.
  induction rs as [|x rs IH]; intros Hin Hr; [inversion Hin|].
  destruct rs as [|y rs'].
  - apply list_elem_of_singleton in Hin. subst x. exact Hr.
  - change (alts (x :: y :: rs')) with (Alt x (alts (y :: rs'))). cbn [rmatch].
    apply elem_of_cons in Hin as [->|Hin].
    + rewrite Hr. reflexivity.
    + rewrite (IH Hin Hr).
      destruct (rmatch true x prev s cap (fun _ _ _ => Some tt)) as [[]|]; reflexivity.
Qed.

(** X6.  inferIntentFromKeywords answers with one of the seven intents or
    [unknown].  The greeting pattern comes first: a message that begins, in
    any letter case, with one of the six greeting words is a greeting
    whatever else it says. *)
Theorem X6_intent_labels_and_greeting_priority (message : string) :
  inferIntentFromKeywords message ∈ intentLabels
  /\ forall g, g ∈ greetingWords ->
       Js.starts_with g (Js.toLowerCase message) = true ->
       inferIntentFromKeywords message = "greeting".
Proof.
  split.
  - unfold inferIntentFromKeywords.
    pose proof (first_matching_spec intentPatterns (Js.toLowerCase message)) as H.
    destruct (first_matching intentPatterns (Js.toLowerCase message)) as [intent|].
    + destruct H as (pre & pattern & post & Heq & _).
      assert (Hin : intent ∈ map fst intentPatterns).
      { rewrite Heq, map_app. apply elem_of_app. right. apply list_elem_of_here. }
      change (map fst intentPatterns) with
        ["greeting"; "product_inquiry"; "price_question"; "comparison";
         "purchase_intent"; "complaint"; "goodbye"] in Hin.
      unfold intentLabels.
      repeat (apply elem_of_cons in Hin as [->|Hin];
              [repeat (first [apply list_elem_of_here | apply list_elem_of_further])|]).
      inversion Hin.
    + unfold intentLabels.
      repeat (first [apply list_elem_of_here | apply list_elem_of_further]).
  - intros g Hg Hprefix. unfold inferIntentFromKeywords.
    set (lowerMessage := Js.toLowerCase message) in *.
    assert (Htest : test true (Seq Bol (words greetingWords)) lowerMessage = true).
    { unfold test.
      assert (E : rmatch true (Seq Bol (words greetingWords)) None lowerMessage None
                    (fun _ _ _ => Some tt) = Some tt).
      { cbn [rmatch]. unfold words. apply (rmatch_alts_some _ (lit g)).
        - apply list_elem_of_In, in_map, list_elem_of_In, Hg.
        - apply rmatch_lit_prefix, Hprefix. }
      destruct lowerMessage; cbn [search]; rewrite E; reflexivity. }
    unfold intentPatterns. cbn [first_matching].
    unfold greetingWords in Htest. rewrite Htest. reflexivity.
Qed.

Example greeting_beats_purchase :
  inferIntentFromKeywords "Hi, I want to buy a laptop" = "greeting"
  /\ inferIntentFromKeywords "History books please" = "greeting"
  /\ inferIntentFromKeywords "oh hi, I want to buy a laptop" = "product_inquiry".
Proof. repeat split; vm_compute; reflexivity. Qed.

(** ** Cache keys of the retriever *)

(** Fifteen bytes encode to twenty characters, so the first twenty
    characters of an encoding only depend on the first fifteen bytes. *)
Lemma base64_first_twenty (q : string) :
  (15 <= String.length q)%nat ->
  Js.substring0 20 (Js.base64 q) = Js.base64 (Js.substring0 15 q).
Proof.
  intros H.
  do 15 (destruct q as [|? q]; [simpl in H; lia|]).
  reflexivity.
Qed.

(** The first catalog query of the retriever. *)
Lemma getProductKnowledge_run (w : World) (s : Store) (query siteId : string) :
  let key := knowledgeCacheKey query siteId in
  let firstQuery :=
    if isRequestingAllProducts query
    then DbFindSortedByName siteId true
    else DbSearchProducts siteId (Some query) publish in
  exists nodes rest,
    getProductKnowledge query siteId w s
    = (Ok nodes,
       {| contexts := contexts s; knowledge := knowledge s; responses := responses s;
          calls := calls s ++ CacheGet key :: firstQuery :: rest |})
    /\ forall s0,
         getProductKnowledge query siteId w s0
         = (Ok nodes,
            {| contexts := contexts s0; knowledge := knowledge s0;
               responses := responses s0;
               calls := calls s0 ++ CacheGet key :: firstQuery :: rest |}).
Proof.
  intros key firstQuery. subst firstQuery.
  unfold getProductKnowledge, getAllProducts, try_catch, bind,
    redisCache_get_knowledge, redisCache_set_knowledge,
    ProductModel_searchProducts, ProductModel_findBySite, call, ask, ret.
  rewrite !redisCache_getClient_null. fold key.
  destruct (isRequestingAllProducts query); cbn [fst snd].
  - destruct (db_findSortedByName w siteId true) as [[|p l]|e]; cbn;
      try (destruct (db_findBySite w siteId "publish") as [[|p' l']|e']; cbn);
      eexists; eexists; (split; [|intros s0]);
      unfold log; cbn; rewrite <- ?app_assoc; cbn; reflexivity.
  - destruct (db_searchProducts w siteId (Some query) publish) as [[|p l]|e]; cbn;
      try (destruct (db_findBySite w siteId "publish") as [[|p' l']|e']; cbn);
      eexists; eexists; (split; [|intros s0]);
      unfold log; cbn; rewrite <- ?app_assoc; cbn; reflexivity.
Qed.

(** X7.  The retriever never answers from the cache and never fills it.
    Every call of getProductKnowledge looks the key up, misses, and goes on
    to query the catalog: the full listing for a request for everything,
    the text search otherwise.  The cache holds after the call what it held
    before, and the nodes returned and the calls made are the same whatever
    the cache holds; so a repeated query asks the catalog again. *)
Theorem X7_knowledge_is_never_cached (w : World) (s : Store) (query siteId : string) :
  let key := knowledgeCacheKey query siteId in
  let firstQuery :=
    if isRequestingAllProducts query
    then DbFindSortedByName siteId true
    else DbSearchProducts siteId (Some query) publish in
  exists nodes s' rest,
    getProductKnowledge query siteId w s = (Ok nodes, s')
    /\ calls s' = calls s ++ CacheGet key :: firstQuery :: rest
    /\ knowledge s' = knowledge s
    /\ contexts s' = contexts s
    /\ responses s' = responses s
    /\ (forall s0,
          exists s0',
            getProductKnowledge query siteId w s0 = (Ok nodes, s0')
            /\ calls s0' = calls s0 ++ CacheGet key :: firstQuery :: rest)
    /\ exists s'',
         getProductKnowledge query siteId w s' = (Ok nodes, s'')
         /\ calls s'' = calls s' ++ CacheGet key :: firstQuery :: rest.
Proof.
  intros key firstQuery.
  destruct (getProductKnowledge_run w s query siteId) as (nodes & rest & E & Hall).
  fold key firstQuery in E, Hall.
  eexists. eexists. exists rest. split; [exact E|].
  repeat (split; [reflexivity|]).
  split.
  - intros s0. eexists. split; [apply Hall | reflexivity].
  - eexists. split; [apply Hall | reflexivity].
Qed.

(** An entry that sits in the cache under the key of the query is not
    used: with the catalog store down the answer is the empty list. *)
Example cached_knowledge_is_ignored :
  knowledge gamingStore !! knowledgeCacheKey "show me gaming laptops" "S1"
  = Some (knowledgeNodes (fun _ => "0") catalog)
  /\ fst (getProductKnowledge "show me gaming laptops" "S1" storeDownWorld gamingStore)
     = Ok [].
Proof. split; [apply lookup_insert_eq | vm_compute; reflexivity]. Qed.

(** X8.  The cache key keeps twenty characters of the encoded query, which
    is fifteen bytes of the query: the key of a query of at least fifteen
    characters is the prefix, the site and the encoding of its first
    fifteen characters, so two such queries that agree on their first
    fifteen characters look up one and the same key. *)
Theorem X8_cache_key_truncation (w : World) (s : Store) (q1 q2 siteId : string) :
  (15 <= String.length q1)%nat ->
  (15 <= String.length q2)%nat ->
  Js.substring0 15 q1 = Js.substring0 15 q2 ->
  knowledgeCacheKey q1 siteId = knowledgeCacheKey q2 siteId
  /\ knowledgeCacheKey q1 siteId
     = "product_knowledge:" +:+ siteId +:+ ":" +:+ Js.base64 (Js.substring0 15 q1)
  /\ exists nodes1 s1 rest1 nodes2 s2 rest2,
       getProductKnowledge q1 siteId w s = (Ok nodes1, s1)
       /\ calls s1 = calls s ++ CacheGet (knowledgeCacheKey q1 siteId) :: rest1
       /\ getProductKnowledge q2 siteId w s = (Ok nodes2, s2)
       /\ calls s2 = calls s ++ CacheGet (knowledgeCacheKey q1 siteId) :: rest2.
Proof.
  intros H1 H2 Heq.
  assert (Hkey1 : knowledgeCacheKey q1 siteId
                  = "product_knowledge:" +:+ siteId +:+ ":" +:+
                    Js.base64 (Js.substring0 15 q1)).
  { unfold knowledgeCacheKey. rewrite (base64_first_twenty q1 H1). reflexivity. }
  assert (Hkey : knowledgeCacheKey q1 siteId = knowledgeCacheKey q2 siteId).
  { unfold knowledgeCacheKey.
    rewrite (base64_first_twenty q1 H1), (base64_first_twenty q2 H2), Heq.
    reflexivity. }
  split; [exact Hkey|]. split; [exact Hkey1|].
  destruct (getProductKnowledge_run w s q1 siteId) as (nodes1 & rest1 & E1 & _).
  destruct (getProductKnowledge_run w s q2 siteId) as (nodes2 & rest2 & E2 & _).
  rewrite <- Hkey in E2.
  eexists. eexists. eexists. eexists. eexists. eexists.
  split; [exact E1|]. split; [reflexivity|]. split; [exact E2|]. reflexivity.
Qed.

Lemma X8_cache_key_truncation_witness :
  (15 <= String.length "show me gaming laptops")%nat
  /\ (15 <= String.length "show me gaming keyboards")%nat
  /\ Js.substring0 15 "show me gaming laptops" = Js.substring0 15 "show me gaming keyboards"
  /\ knowledgeCacheKey "show me gaming laptops" "S1"
     = knowledgeCacheKey "show me gaming keyboards" "S1"
  /\ knowledgeCacheKey "show me gaming keyboards" "S1"
     = "product_knowledge:S1:c2hvdyBtZSBnYW1pbmcg".
Proof.
  assert (H1 : (15 <= String.length "show me gaming laptops")%nat) by (simpl; lia).
  assert (H2 : (15 <= String.length "show me gaming keyboards")%nat) by (simpl; lia).
  split; [exact H1|]. split; [exact H2|]. split; [reflexivity|].
  destruct (X8_cache_key_truncation shopWorld emptyStore
              "show me gaming laptops" "show me gaming keyboards" "S1" H1 H2 eq_refl)
    as (Hkey & Hform & _).
  split; [exact Hkey|]. rewrite <- Hkey, Hform. reflexivity.
Defined.

(** X9.  A failed text search is not followed by the fallback to the site
    listing.  For a query that does not ask for the whole inventory, when
    the text search throws, getProductKnowledge returns the empty list after
    exactly two calls, the cache lookup and the search: the listing of the
    site is not tried, whatever it would return, and nothing is stored. *)
Theorem X9_failed_search_skips_the_fallback (w : World) (s : Store)
    (query siteId : string) (e : JsError) :
  isRequestingAllProducts query = false ->
  db_searchProducts w siteId (Some query) publish = Throw e ->
  getProductKnowledge query siteId w s
  = (Ok [],
     logs [CacheGet (knowledgeCacheKey query siteId);
           DbSearchProducts siteId (Some query) publish] s).
Proof.
  intros Hall Hs.
  unfold getProductKnowledge, try_catch, bind, redisCache_get_knowledge,
    ProductModel_searchProducts, call, ret.
  rewrite redisCache_getClient_null, Hall. cbn. rewrite Hs.
  unfold logs, log. cbn. rewrite <- app_assoc. reflexivity.
Qed.

(** The search is down while the listing of the site would still answer. *)
Lemma X9_failed_search_skips_the_fallback_witness :
  db_findBySite
    (mkWorld "gpt-4" true (Ok 5%Q) down (Ok catalog) (Ok (plainReply "")) (Ok noAnalysis)
       down down) "S1" "publish" = Ok catalog
  /\ getProductKnowledge "gaming laptop" "S1"
       (mkWorld "gpt-4" true (Ok 5%Q) down (Ok catalog) (Ok (plainReply ""))
          (Ok noAnalysis) down down) emptyStore
     = (Ok [],
        logs [CacheGet (knowledgeCacheKey "gaming laptop" "S1");
              DbSearchProducts "S1" (Some "gaming laptop") publish] emptyStore).
Proof.
  split; [reflexivity|].
  apply (X9_failed_search_skips_the_fallback
           (mkWorld "gpt-4" true (Ok 5%Q) down (Ok catalog) (Ok (plainReply ""))
              (Ok noAnalysis) down down)
           emptyStore "gaming laptop" "S1" "service unavailable");
    reflexivity.
Defined.

(** ** The classifier *)

(** X10.  analyzeUserMessage never throws and makes exactly one call, the
    analysis completion.  Its result is the parsed reply with the defaults
    filled in when the provider answers and the answer parses, and the
    keyword fallback (confidence 0.3, urgency medium, readiness researching)
    in every other case. *)
Theorem X10_classifier_recovers_locally (w : World) (s : Store) (message : string)
    (context : ConversationContext.t) :
  let params :=
    analysisParams (cfg_model w) (analysisPrompt (number_toString w) message context) in
  exists analysis,
    analyzeUserMessage message context w s = (Ok analysis, log (LlmCreate params) s)
    /\ match llm_create w params with
       | Ok completion =>
           match json_parse_analysis w (or_str (completion_content completion) "{}") with
           | Ok parsed => analysis = mergeAnalysis parsed
           | Throw _ => analysis = fallbackAnalysis message
           end
       | Throw _ => analysis = fallbackAnalysis message
       end
    /\ (analysis = fallbackAnalysis message ->
        Analysis.intent analysis = inferIntentFromKeywords message
        /\ Analysis.confidence analysis = (3 # 10)%Q
        /\ Analysis.urgency analysis = "medium"
        /\ Analysis.purchaseReadiness analysis = "researching").
Proof.
  intros params.
  unfold analyzeUserMessage, try_catch, bind, ask, openai_create, call, run, ret.
  fold params.
  destruct (llm_create w params) as [completion|e].
  - destruct (json_parse_analysis w (or_str (completion_content completion) "{}"))
      as [parsed|e].
    + eexists. split; [reflexivity|]. split; [reflexivity|].
      intros ->. repeat split.
    + eexists. split; [reflexivity|]. split; [reflexivity|].
      intros _. repeat split.
  - eexists. split; [reflexivity|]. split; [reflexivity|].
    intros _. repeat split.
Qed.

(** X11.  When the classifier has fallen back to keywords, the purchase
    readiness is never [ready_to_buy], so enhanceResponse attaches no
    coupon: the coupons of the response are those of the generated one, and
    for a generated response without coupons the conversation is marked as
    ended only for the [goodbye] intent. *)
Theorem X11_keyword_fallback_never_grants_a_coupon (w : World) (s : Store)
    (response : AIResponse.t) (context : ConversationContext.t)
    (message query : string) (r : AIResponse.t) (s' : Store) :
  enhanceResponse response context (fallbackAnalysis message) query w s = (Ok r, s') ->
  AIResponse.coupons r = AIResponse.coupons response
  /\ (AIResponse.coupons response = None ->
      AIResponse.shouldEndConversation response = None ->
      AIResponse.shouldEndConversation r = Some true ->
      inferIntentFromKeywords message = "goodbye").
Proof.
  intros H.
  apply enhanceResponse_inv in H
    as [->|[(_ & n & _ & ->)|(_ & e1 & s1 & e2 & s2 & H1 & H2 & ->)]].
  - split; [reflexivity|]. intros _ Hn Ht. congruence.
  - split; [reflexivity|]. simpl. intros _ Hn Ht. congruence.
  - apply attachProducts_coupons in H1.
    destruct (attachCoupons_spec e1 context (fallbackAnalysis message) w s1)
      as (r0 & s0 & E & Hr).
    rewrite E in H2. inversion H2; subst r0 s0; clear H2.
    replace (String.eqb (Analysis.intent (fallbackAnalysis message)) "purchase_intent"
             && String.eqb (Analysis.purchaseReadiness (fallbackAnalysis message))
                  "ready_to_buy")
      with false in Hr by (symmetry; apply andb_false_r).
    destruct Hr as [-> _]. simpl. split; [exact H1|].
    intros Hnone _ Ht. injection Ht as Hb. unfold hasCoupons in Hb.
    rewrite H1, Hnone, andb_false_r, orb_false_r in Hb.
    apply String.eqb_eq, Hb.
Qed.

Lemma X11_keyword_fallback_never_grants_a_coupon_witness :
  exists r s',
    enhanceResponse (sampleResponse "purchase_intent") (sampleContext None)
      (fallbackAnalysis "I want to buy it now") "I want to buy it now"
      eligibleWorld emptyStore = (Ok r, s')
    /\ AIResponse.coupons r = None.
Proof.
  pose (run := enhanceResponse (sampleResponse "purchase_intent") (sampleContext None)
                 (fallbackAnalysis "I want to buy it now") "I want to buy it now"
                 eligibleWorld emptyStore).
  assert (E : run = (Ok (value_of (sampleResponse "") run), snd run))
    by (vm_compute; reflexivity).
  destruct (X11_keyword_fallback_never_grants_a_coupon eligibleWorld emptyStore
              (sampleResponse "purchase_intent") (sampleContext None)
              "I want to buy it now" "I want to buy it now"
              (value_of (sampleResponse "") run) (snd run) E) as [Hc _].
  exists (value_of (sampleResponse "") run), (snd run).
  split; [exact E | exact Hc].
Defined.

(** ** Catalog search and function calls *)

(** X12.  The private searchProducts never throws.  It always restricts the
    search to published products and drops a price bound that is absent or
    zero.  With a category that does not compile as a regular expression it
    returns the empty list without querying the catalog; otherwise it makes
    one catalog query and returns its result, or the empty list when the
    query fails. *)
Theorem X12_catalog_search_never_throws (w : World) (s : Store)
    (parameters : CallParams.t) (siteId : string) :
  let filters := searchFilters parameters in
  let query := DbSearchProducts siteId (CallParams.query parameters) filters in
  SearchFilters.status filters = "publish"
  /\ (forall q, CallParams.minPrice parameters = Some q -> (q == 0)%Q ->
        SearchFilters.price_gte filters = None)
  /\ (forall q, CallParams.maxPrice parameters = Some q -> (q == 0)%Q ->
        SearchFilters.price_lte filters = None)
  /\ exists products s',
       searchProducts parameters siteId w s = (Ok products, s')
       /\ ((exists category,
              SearchFilters.category filters = Some category
              /\ regexp_compiles w category = false
              /\ products = [] /\ s' = s)
           \/ (s' = log query s
               /\ products =
                    match db_searchProducts w siteId (CallParams.query parameters) filters with
                    | Ok l => l
                    | Throw _ => []
                    end)).
Proof.
  intros filters query.
  split; [reflexivity|].
  split.
  { intros q Hq H0. unfold filters, searchFilters. simpl. rewrite Hq. simpl.
    apply Qeq_bool_iff in H0. rewrite H0. reflexivity. }
  split.
  { intros q Hq H0. unfold filters, searchFilters. simpl. rewrite Hq. simpl.
    apply Qeq_bool_iff in H0. rewrite H0. reflexivity. }
  unfold searchProducts, try_catch, bind, run, ProductModel_searchProducts, call, ret.
  fold filters. fold query.
  destruct (SearchFilters.category filters) as [category|] eqn:Ec.
  - destruct (regexp_compiles w category) eqn:Er.
    + destruct (db_searchProducts w siteId (CallParams.query parameters) filters);
        eexists; eexists; (split; [reflexivity|]); right; split; reflexivity.
    + eexists; eexists. split; [reflexivity|]. left. exists category. auto.
  - destruct (db_searchProducts w siteId (CallParams.query parameters) filters);
      eexists; eexists; (split; [reflexivity|]); right; split; reflexivity.
Qed.

Ltac dispatch_rest :=
  repeat match goal with
         | |- _ /\ _ => split
         | |- forall _, _ => intro
         | H : exists _, _ |- _ => destruct H
         | H : _ \/ _ |- _ => destruct H
         | H : Ok _ = Ok _ |- _ => inversion H; clear H
         end;
  subst;
  try discriminate;
  try reflexivity;
  try congruence;
  try (exfalso;
       match goal with
       | H : _ ∉ _ |- _ =>
           apply H; repeat first [apply list_elem_of_here | apply list_elem_of_further]
       end).

(** X13.  handleFunctionCall never throws.  It makes at most one collaborator
    call and returns at most one action, of the kind that belongs to the
    function name.  Arguments that do not parse, and function names outside
    the catalog, give no action and no call; when the arguments parse to an
    object, a transfer request gives its action without any call.  When the
    arguments parse to [null], a search gives the action with an empty
    product list and no catalog query, a product lookup and a transfer
    request give no action and no call, and a coupon request still reaches
    the issuer, with [null] for its parameters. *)
Theorem X13_function_call_dispatch (w : World) (s : Store)
    (functionCall : FunctionCall.t) (context : ConversationContext.t) :
  let name := FunctionCall.name functionCall in
  let parsed :=
    json_parse_arguments w (or_str (FunctionCall.arguments functionCall) "{}") in
  exists actions s',
    handleFunctionCall functionCall context w s = (Ok actions, s')
    /\ (s' = s \/ exists c, s' = log c s)
    /\ (length actions <= 1)%nat
    /\ (forall act, act ∈ actions -> action_type act = actionTypeFor name)
    /\ ((exists e, parsed = Throw e) -> actions = [] /\ s' = s)
    /\ (name ∉ callableFunctions -> actions = [] /\ s' = s)
    /\ (forall parameters,
          parsed = Ok (Some parameters) ->
          name = "request_human_transfer" ->
          actions = [transfer_human (CallParams.reason parameters)] /\ s' = s)
    /\ (parsed = Ok None ->
        (name = "search_products" -> actions = [show_products []] /\ s' = s)
        /\ (name = "get_product_details" \/ name = "request_human_transfer" ->
            actions = [] /\ s' = s)
        /\ (name = "generate_coupon" ->
            s' = log (CouponGenerateNull (ConversationContext.sessionId context)
                        (ConversationContext.siteId context)) s
            /\ actions = match coupon_generate_null w
                                 (ConversationContext.sessionId context)
                                 (ConversationContext.siteId context) with
                         | Ok (Some coupon) => [generate_coupon coupon]
                         | _ => []
                         end)).
Proof.
  intros name parsed. subst parsed.
  unfold handleFunctionCall, try_catch, bind, run, searchProducts, try_catch, bind, run,
    ProductModel_searchProducts, ProductModel_findOne,
    couponService_generateCouponForSession,
    couponService_generateCouponForSession_null, call, ret, throw.
  fold name. unfold actionTypeFor.
  change callableFunctions
    with ["search_products"; "get_product_details"; "generate_coupon";
          "request_human_transfer"].
  clearbody name.
  destruct (json_parse_arguments w (or_str (FunctionCall.arguments functionCall) "{}"))
    as [[parameters|]|e].
  - (* the arguments parse to an object *)
    destruct (String.eqb name "search_products") eqn:E1.
    { apply String.eqb_eq in E1. subst name. cbn.
      destruct (truthy_str (CallParams.category parameters)) as [category|];
        [destruct (regexp_compiles w category)|];
        try destruct (db_searchProducts w (ConversationContext.siteId context)
                        (CallParams.query parameters) (searchFilters parameters));
        eexists; eexists; (split; [reflexivity|]);
        (split; [first [left; reflexivity | right; eexists; reflexivity]|]);
        (split; [cbn; lia|]);
        (split; [intros act Ha; apply list_elem_of_singleton in Ha; subst act;
                 reflexivity|]);
        dispatch_rest. }
    destruct (String.eqb name "get_product_details") eqn:E2.
    { apply String.eqb_eq in E2. subst name. cbn.
      destruct (db_findOne w (CallParams.productId parameters)
                  (ConversationContext.siteId context)) as [[p|]|e];
        eexists; eexists; (split; [reflexivity|]);
        (split; [first [left; reflexivity | right; eexists; reflexivity]|]);
        (split; [cbn; lia|]);
        (split; [intros act Ha;
                 first [apply list_elem_of_singleton in Ha; subst act; reflexivity
                       | inversion Ha]|]);
        dispatch_rest. }
    destruct (String.eqb name "generate_coupon") eqn:E3.
    { apply String.eqb_eq in E3. subst name. cbn.
      destruct (coupon_generate w (ConversationContext.sessionId context)
                  (ConversationContext.siteId context) (couponParamsOf parameters))
        as [[c|]|e];
        eexists; eexists; (split; [reflexivity|]);
        (split; [first [left; reflexivity | right; eexists; reflexivity]|]);
        (split; [cbn; lia|]);
        (split; [intros act Ha;
                 first [apply list_elem_of_singleton in Ha; subst act; reflexivity
                       | inversion Ha]|]);
        dispatch_rest. }
    destruct (String.eqb name "request_human_transfer") eqn:E4.
    { apply String.eqb_eq in E4. subst name. cbn.
      eexists; eexists; (split; [reflexivity|]);
        (split; [left; reflexivity|]); (split; [cbn; lia|]);
        (split; [intros act Ha; apply list_elem_of_singleton in Ha; subst act;
                 reflexivity|]);
        dispatch_rest. }
    apply String.eqb_neq in E1, E2, E3, E4.
    eexists; eexists; (split; [reflexivity|]);
      (split; [left; reflexivity|]); (split; [cbn; lia|]);
      (split; [intros act Ha; inversion Ha|]);
      dispatch_rest.
  - (* the arguments parse to null *)
    destruct (String.eqb name "search_products") eqn:E1.
    { apply String.eqb_eq in E1. subst name. cbn.
      eexists; eexists; (split; [reflexivity|]);
        (split; [left; reflexivity|]); (split; [cbn; lia|]);
        (split; [intros act Ha; apply list_elem_of_singleton in Ha; subst act;
                 reflexivity|]);
        dispatch_rest. }
    destruct (String.eqb name "get_product_details") eqn:E2.
    { apply String.eqb_eq in E2. subst name. cbn.
      eexists; eexists; (split; [reflexivity|]);
        (split; [left; reflexivity|]); (split; [cbn; lia|]);
        (split; [intros act Ha; inversion Ha|]);
        dispatch_rest. }
    destruct (String.eqb name "generate_coupon") eqn:E3.
    { apply String.eqb_eq in E3. subst name. cbn.
      destruct (coupon_generate_null w (ConversationContext.sessionId context)
                  (ConversationContext.siteId context)) as [[c|]|e];
        eexists; eexists; (split; [reflexivity|]);
        (split; [right; eexists; reflexivity|]);
        (split; [cbn; lia|]);
        (split; [intros act Ha;
                 first [apply list_elem_of_singleton in Ha; subst act; reflexivity
                       | inversion Ha]|]);
        dispatch_rest. }
    destruct (String.eqb name "request_human_transfer") eqn:E4.
    { apply String.eqb_eq in E4. subst name. cbn.
      eexists; eexists; (split; [reflexivity|]);
        (split; [left; reflexivity|]); (split; [cbn; lia|]);
        (split; [intros act Ha; inversion Ha|]);
        dispatch_rest. }
    apply String.eqb_neq in E1, E2, E3, E4.
    eexists; eexists; (split; [reflexivity|]);
      (split; [left; reflexivity|]); (split; [cbn; lia|]);
      (split; [intros act Ha; inversion Ha|]);
      dispatch_rest.
  - (* the arguments do not parse *)
    eexists; eexists; (split; [reflexivity|]);
      (split; [left; reflexivity|]); (split; [cbn; lia|]);
      (split; [intros act Ha; inversion Ha|]);
      dispatch_rest.
Qed.

(** Arguments that are the text [null], with a parser that reads it. *)
Example function_call_with_null_arguments :
  let w := {| cfg_model := "gpt-4";
              cfg_maxTokens := 1000%Q;
              cfg_temperature := (7 # 10)%Q;
              redis_up := true;
              db_countDocuments := fun _ _ => Ok 5%Q;
              db_findOne := fun _ _ => Ok None;
              db_searchProducts := fun _ _ _ => Ok catalog;
              db_findBySite := fun _ _ => Ok catalog;
              db_findByCategory := fun _ _ => Ok catalog;
              db_findSortedByName := fun _ _ => Ok catalog;
              llm_create := fun _ => down;
              coupon_checkEligibility := fun _ _ _ => down;
              coupon_generate := fun _ _ _ => down;
              coupon_generate_null := fun _ _ => down;
              log_aiInteraction := fun _ _ => Ok tt;
              analytics_trackAIInteraction := fun _ _ _ _ _ _ => Ok tt;
              random_bits := 0%N;
              date_now := 0%Q;
              number_toString := fun _ => "0";
              json_parse_analysis := fun _ => down;
              json_parse_arguments := fun text =>
                if String.eqb text "null" then Ok None else down;
              regexp_compiles := fun _ => true |} in
  let call name := {| FunctionCall.name := name; FunctionCall.arguments := Some "null" |} in
  handleFunctionCall (call "search_products") (sampleContext None) w emptyStore
  = (Ok [show_products []], emptyStore)
  /\ handleFunctionCall (call "request_human_transfer") (sampleContext None) w emptyStore
     = (Ok [], emptyStore).
Proof. split; reflexivity. Qed.

(** ** Fallback sourcing of products *)

Lemma uniqueProducts_fold_spec (products kept : list Product.t) :
  NoDup (map Product.id kept) ->
  let res :=
    fold_left
      (fun kept product =>
         if existsb (fun q => String.eqb (Product.id q) (Product.id product)) kept
         then kept else kept ++ [product])
      products kept in
  NoDup (map Product.id res)
  /\ (forall p, p ∈ res -> p ∈ kept \/ p ∈ products)
  /\ (forall p, p ∈ kept \/ p ∈ products -> Product.id p ∈ map Product.id res).
Proof.
  revert kept. induction products as [|x products IH]; intros kept Hk; cbn [fold_left].
  - split; [exact Hk|]. split; [auto|].
    intros p [H|H]; [|inversion H].
    apply list_elem_of_In, in_map, list_elem_of_In, H.
  - destruct (existsb (fun q => String.eqb (Product.id q) (Product.id x)) kept) eqn:E.
    + destruct (IH kept Hk) as (Hnd & Hsub & Hcov).
      split; [exact Hnd|]. split.
      * intros p Hp. destruct (Hsub p Hp) as [H|H]; [auto|].
        right. apply list_elem_of_further, H.
      * intros p [H|H]; [apply Hcov; auto|].
        apply elem_of_cons in H as [->|H]; [|apply Hcov; auto].
        apply existsb_exists in E as (q & Hq & Eq). apply String.eqb_eq in Eq.
        rewrite <- Eq. apply Hcov. left. apply list_elem_of_In, Hq.
    + assert (Hk' : NoDup (map Product.id (kept ++ [x]))).
      { rewrite map_app. apply NoDup_app. split; [exact Hk|]. split.
        - intros i Hi Hx. apply list_elem_of_singleton in Hx. subst i.
          apply list_elem_of_In, in_map_iff in Hi as (q & Hq1 & Hq2).
          assert (existsb (fun q => String.eqb (Product.id q) (Product.id x)) kept = true).
          { apply existsb_exists. exists q. split; [exact Hq2|].
            apply String.eqb_eq, Hq1. }
          congruence.
        - apply NoDup_singleton. }
      destruct (IH (kept ++ [x]) Hk') as (Hnd & Hsub & Hcov).
      split; [exact Hnd|]. split.
      * intros p Hp. destruct (Hsub p Hp) as [H|H].
        -- apply elem_of_app in H as [H|H]; [auto|].
           apply list_elem_of_singleton in H. subst p. right. apply list_elem_of_here.
        -- right. apply list_elem_of_further, H.
      * intros p [H|H].
        -- apply Hcov. left. apply elem_of_app. auto.
        -- apply elem_of_cons in H as [->|H].
           ++ apply Hcov. left. apply elem_of_app. right. apply list_elem_of_here.
           ++ apply Hcov. auto.
Qed.

(** X14.  getRelevantProducts never throws, and the products it returns
    have pairwise different identifiers.  Its de-duplication keeps only
    products of its input, one for every identifier that occurs there. *)
Theorem X14_relevant_products_are_distinct (w : World) (s : Store)
    (analysis : Analysis.t) (context : ConversationContext.t) :
  (exists products s',
     getRelevantProducts analysis context w s = (Ok products, s')
     /\ NoDup (map Product.id products))
  /\ forall found : list Product.t,
       NoDup (map Product.id (uniqueProducts found))
       /\ (forall p, p ∈ uniqueProducts found -> p ∈ found)
       /\ (forall p, p ∈ found -> Product.id p ∈ map Product.id (uniqueProducts found)).
Proof.
  assert (Hu : forall found : list Product.t,
             NoDup (map Product.id (uniqueProducts found))
             /\ (forall p, p ∈ uniqueProducts found -> p ∈ found)
             /\ (forall p, p ∈ found ->
                   Product.id p ∈ map Product.id (uniqueProducts found))).
  { intros found.
    destruct (uniqueProducts_fold_spec found [] (NoDup_nil_2)) as (Hnd & Hsub & Hcov).
    split; [exact Hnd|]. split.
    - intros p Hp. destruct (Hsub p Hp) as [H|H]; [inversion H | exact H].
    - intros p Hp. apply Hcov. auto. }
  split; [|exact Hu].
  destruct (getRelevantProducts analysis context w s) as [r s'] eqn:E.
  unfold getRelevantProducts in E.
  apply try_catch_inv in E as [(a & H & ->)|(e & s1 & _ & H)].
  - exists a, s'. split; [reflexivity|].
    cbv zeta in H.
    apply bind_inv in H as [(p1 & s1 & _ & H)|(e & _ & H)]; [|discriminate H].
    apply bind_inv in H as [(p2 & s2 & _ & H)|(e & _ & H)]; [|discriminate H].
    apply bind_inv in H as [(p3 & s3 & _ & H)|(e & _ & H)]; [|discriminate H].
    apply bind_inv in H as [(p4 & s4 & _ & H)|(e & _ & H)]; [|discriminate H].
    unfold ret in H. inversion H; subst. apply Hu.
  - unfold ret in H. inversion H; subst. exists [], s'.
    split; [reflexivity | constructor].
Qed.

(** ** Enrichment of the generated response *)

(** X15.  When the query is no inventory question and nothing asks for
    products (no product or show-all wording, no brand or model, no product
    node retrieved, no product-related intent), enhanceResponse calls no
    collaborator: it returns the generated response with only the end flag
    set, and the flag says whether the intent is [goodbye]. *)
Theorem X15_no_enrichment_without_a_cue (w : World) (s : Store)
    (response : AIResponse.t) (context : ConversationContext.t)
    (analysis : Analysis.t) (query : string) :
  isInventoryQuery query = false ->
  shouldIncludeProducts context analysis query = false ->
  enhanceResponse response context analysis query w s =
    (Ok (AIResponse.set_shouldEndConversation
           (String.eqb (Analysis.intent analysis) "goodbye") response),
     s).
Proof.
  intros Hq Hs.
  assert (Hi : String.eqb (Analysis.intent analysis) "purchase_intent" = false).
  { destruct (String.eqb (Analysis.intent analysis) "purchase_intent") eqn:E; [|reflexivity].
    apply String.eqb_eq in E. unfold shouldIncludeProducts in Hs. rewrite E in Hs.
    apply orb_false_iff in Hs as [_ Hs]. vm_compute in Hs. discriminate Hs. }
  unfold enhanceResponse, try_catch, bind. rewrite Hq.
  unfold attachProducts. rewrite Hs. unfold ret, attachCoupons. rewrite Hi.
  cbn [andb]. unfold ret, decideEnd. rewrite Hi. cbn [andb].
  rewrite orb_false_r. reflexivity.
Qed.

Lemma X15_no_enrichment_without_a_cue_witness :
  AIResponse.shouldEndConversation
    (value_of (sampleResponse "")
       (enhanceResponse (sampleResponse "goodbye") (sampleContext None)
          (sampleAnalysis "goodbye" "researching") "thanks, bye" eligibleWorld emptyStore))
  = Some true
  /\ snd (enhanceResponse (sampleResponse "goodbye") (sampleContext None)
            (sampleAnalysis "goodbye" "researching") "thanks, bye" eligibleWorld emptyStore)
     = emptyStore.
Proof.
  rewrite (X15_no_enrichment_without_a_cue eligibleWorld emptyStore
             (sampleResponse "goodbye") (sampleContext None)
             (sampleAnalysis "goodbye" "researching") "thanks, bye" eq_refl eq_refl).
  split; reflexivity.
Defined.

Lemma nodeProductIds_some (l : list LangGraphNode.t) :
  nodeProductIds l <> [] -> existsb isProductNode l = true.
Proof.
  unfold nodeProductIds. induction l as [|a l IH]; intros H.
  - exfalso. apply H. reflexivity.
  - cbn [existsb]. destruct (isProductNode a) eqn:E; [reflexivity|].
    cbn [orb]. apply IH. rewrite filter_cons_False in H; [exact H|].
    rewrite E. discriminate.
Qed.

Lemma logs_nil (s : Store) : logs [] s = s.
Proof. destruct s. unfold logs. simpl. rewrite app_nil_r. reflexivity. Qed.

Lemma logs_log (c : Call) (cs : list Call) (s : Store) : logs cs (log c s) = logs (c :: cs) s.
Proof. unfold logs, log. simpl. rewrite <- app_assoc. reflexivity. Qed.

Lemma logs_snoc (c : Call) (cs : list Call) (s : Store) :
  log c (logs cs s) = logs (cs ++ [c]) s.
Proof. unfold logs, log. simpl. rewrite <- app_assoc. reflexivity. Qed.

(** The lookup loop while no lookup fails. *)
Lemma fetch_loop_ok (w : World) (siteId : string) (ids : list string)
    (acc : list Product.t) (s : Store) :
  (forall id, id ∈ ids -> exists o, db_findOne w (Some id) siteId = Ok o) ->
  for_of ids acc
    (fun relevantProducts productId =>
       let* product := ProductModel_findOne (Some productId) siteId in
       ret match product with
           | Some product => relevantProducts ++ [product]
           | None => relevantProducts
           end) w s
  = (Ok (acc ++ omap (knownProduct w siteId) ids),
     logs (map (fun id => DbFindOne (Some id) siteId) ids) s).
Proof.
  revert acc s. induction ids as [|id ids IH]; intros acc s H.
  - cbn [for_of map]. unfold ret. rewrite logs_nil, app_nil_r. reflexivity.
  - cbn [for_of map]. unfold bind at 1. unfold bind at 1.
    unfold ProductModel_findOne, call.
    destruct (H id (list_elem_of_here _ _)) as [o Ho].
    assert (Hk : knownProduct w siteId id = o) by (unfold knownProduct; rewrite Ho; reflexivity).
    rewrite Ho. unfold ret at 1.
    rewrite IH by (intros i Hi; apply H, list_elem_of_further, Hi).
    rewrite logs_log. f_equal. f_equal.
    change (omap (knownProduct w siteId) (id :: ids))
      with (match knownProduct w siteId id with
            | Some p => p :: omap (knownProduct w siteId) ids
            | None => omap (knownProduct w siteId) ids
            end).
    rewrite Hk. destruct o as [p|]; [rewrite <- app_assoc|]; reflexivity.
Qed.

(** The lookup loop stops at the first lookup that fails. *)
Lemma fetch_loop_throw (w : World) (siteId : string) (pre : list string) (id : string)
    (rest : list string) (e : JsError) (acc : list Product.t) (s : Store) :
  (forall i, i ∈ pre -> exists o, db_findOne w (Some i) siteId = Ok o) ->
  db_findOne w (Some id) siteId = Throw e ->
  for_of (pre ++ id :: rest) acc
    (fun relevantProducts productId =>
       let* product := ProductModel_findOne (Some productId) siteId in
       ret match product with
           | Some product => relevantProducts ++ [product]
           | None => relevantProducts
           end) w s
  = (Throw e, logs (map (fun i => DbFindOne (Some i) siteId) (pre ++ [id])) s).
Proof.
  revert acc s. induction pre as [|i pre IH]; intros acc s H He.
  - cbn [app for_of map]. unfold bind at 1. unfold bind at 1.
    unfold ProductModel_findOne, call. rewrite He. reflexivity.
  - cbn [app for_of map]. unfold bind at 1. unfold bind at 1.
    unfold ProductModel_findOne, call.
    destruct (H i (list_elem_of_here _ _)) as [o Ho]. rewrite Ho. unfold ret at 1.
    rewrite IH by (try exact He; intros j Hj; apply H, list_elem_of_further, Hj).
    rewrite logs_log. reflexivity.
Qed.

Lemma shouldIncludeProducts_known (context : ConversationContext.t)
    (analysis : Analysis.t) (query : string) :
  hasProductKnowledge context = true ->
  shouldIncludeProducts context analysis query = true.
Proof.
  intros H. unfold shouldIncludeProducts. rewrite H.
  rewrite orb_true_r. reflexivity.
Qed.

(** X16.  When retrieval left product nodes on the context and every lookup
    of their identifiers answers, enhanceResponse lists the products found
    by identifier (ranked, capped and formatted) whatever the intent of the
    message is, provided the query is no inventory question and at least one
    product is found. *)
Theorem X16_retrieved_products_are_listed (w : World) (s : Store)
    (response : AIResponse.t) (context : ConversationContext.t)
    (analysis : Analysis.t) (query : string) :
  let siteId := ConversationContext.siteId context in
  let ids := nodeProductIds (or_empty (ConversationContext.productKnowledge context)) in
  let found := omap (knownProduct w siteId) ids in
  isInventoryQuery query = false ->
  (forall id, id ∈ ids -> exists o, db_findOne w (Some id) siteId = Ok o) ->
  found <> [] ->
  exists r s',
    enhanceResponse response context analysis query w s = (Ok r, s')
    /\ AIResponse.products r =
         Some (map (summarize (number_toString w)) (prioritizedProducts query found))
    /\ attachProducts response context analysis query w s =
         (Ok (AIResponse.set_products
                (map (summarize (number_toString w)) (prioritizedProducts query found))
                response),
          logs (map (fun id => DbFindOne (Some id) siteId) ids) s).
Proof.
  intros siteId ids found Hq Hok Hfound.
  assert (Hk : hasProductKnowledge context = true).
  { unfold hasProductKnowledge. apply nodeProductIds_some. fold ids.
    intros Hnil. apply Hfound. unfold found. rewrite Hnil. reflexivity. }
  assert (HA : attachProducts response context analysis query w s =
                 (Ok (AIResponse.set_products
                        (map (summarize (number_toString w))
                             (prioritizedProducts query found))
                        response),
                  logs (map (fun id => DbFindOne (Some id) siteId) ids) s)).
  { unfold attachProducts.
    rewrite (shouldIncludeProducts_known context analysis query Hk), Hk.
    unfold bind at 1. unfold bind at 1. unfold fetchKnownProducts. fold ids siteId.
    rewrite (fetch_loop_ok w siteId ids [] s Hok). cbn [app]. fold found.
    destruct found as [|p found']; [exfalso; apply Hfound; reflexivity|].
    unfold ret at 1. unfold bind, ask, ret. reflexivity. }
  destruct (enhanceResponse response context analysis query w s) as [r s'] eqn:E.
  revert E. unfold enhanceResponse, try_catch, bind. rewrite Hq, HA.
  destruct (attachCoupons_spec
              (AIResponse.set_products
                 (map (summarize (number_toString w)) (prioritizedProducts query found))
                 response)
              context analysis w
              (logs (map (fun id => DbFindOne (Some id) siteId) ids) s))
    as (r0 & s0 & E0 & _).
  rewrite E0. unfold ret. intros E. inversion E; subst r s'.
  exists (decideEnd r0 analysis), s0. split; [reflexivity|]. split; [|reflexivity].
  apply attachCoupons_products in E0. unfold decideEnd.
  destruct r0. simpl in *. exact E0.
Qed.

Lemma X16_retrieved_products_are_listed_witness :
  exists r s',
    enhanceResponse (sampleResponse "greeting") catalogContext
      (sampleAnalysis "greeting" "researching") "hello" shopWorld emptyStore = (Ok r, s')
    /\ (AIResponse.products r ≫= fun l => Some (map ProductSummary.id l))
       = Some ["p4"; "p3"; "p2"; "p5"; "p1"].
Proof.
  destruct (X16_retrieved_products_are_listed shopWorld emptyStore
              (sampleResponse "greeting") catalogContext
              (sampleAnalysis "greeting" "researching") "hello")
    as (r & s' & E & Hp & _).
  - reflexivity.
  - intros id _. eexists. reflexivity.
  - vm_compute. discriminate.
  - exists r, s'. split; [exact E|]. rewrite Hp. vm_compute. reflexivity.
Defined.

(** X17.  A lookup by identifier that throws undoes the whole enrichment:
    the loop stops at that lookup, and enhanceResponse returns the generated
    response as it was, without products, coupons or end flag, whatever the
    intent and the purchase readiness are. *)
Theorem X17_failed_lookup_drops_enrichment (w : World) (s : Store)
    (response : AIResponse.t) (context : ConversationContext.t)
    (analysis : Analysis.t) (query : string)
    (pre : list string) (id : string) (rest : list string) (e : JsError) :
  let siteId := ConversationContext.siteId context in
  isInventoryQuery query = false ->
  nodeProductIds (or_empty (ConversationContext.productKnowledge context))
    = pre ++ id :: rest ->
  (forall i, i ∈ pre -> exists o, db_findOne w (Some i) siteId = Ok o) ->
  db_findOne w (Some id) siteId = Throw e ->
  enhanceResponse response context analysis query w s =
    (Ok response, logs (map (fun i => DbFindOne (Some i) siteId) (pre ++ [id])) s).
Proof.
  intros siteId Hq Hids Hpre He.
  assert (Hk : hasProductKnowledge context = true).
  { unfold hasProductKnowledge. apply nodeProductIds_some. rewrite Hids.
    destruct pre; discriminate. }
  unfold enhanceResponse, try_catch, bind. rewrite Hq.
  unfold attachProducts.
  rewrite (shouldIncludeProducts_known context analysis query Hk), Hk.
  unfold bind at 1. unfold bind at 1. unfold fetchKnownProducts. rewrite Hids.
  fold siteId.
  rewrite (fetch_loop_throw w siteId pre id rest e [] s Hpre He).
  reflexivity.
Qed.

Lemma X17_failed_lookup_drops_enrichment_witness :
  enhanceResponse (sampleResponse "purchase_intent") catalogContext
    (sampleAnalysis "purchase_intent" "ready_to_buy") "I want to buy it"
    storeDownWorld emptyStore
  = (Ok (sampleResponse "purchase_intent"), logs [DbFindOne (Some "p1") "S1"] emptyStore).
Proof.
  apply (X17_failed_lookup_drops_enrichment storeDownWorld emptyStore
           (sampleResponse "purchase_intent") catalogContext
           (sampleAnalysis "purchase_intent" "ready_to_buy") "I want to buy it"
           [] "p1" ["p2"; "p3"; "p4"; "p5"] "service unavailable").
  - reflexivity.
  - vm_compute. reflexivity.
  - intros i Hi. inversion Hi.
  - reflexivity.
Defined.

(** ** Function calls read from the reply text *)

Lemma parseSearchStep_cases (content : string) (context : ConversationContext.t)
    (w : World) (s : Store) :
  exists actions s1,
    parseSearchStep content context w s = (Ok actions, s1)
    /\ (actions = [] \/ exists products, actions = [show_products products])
    /\ (match_group true searchCallPattern content = None -> actions = [] /\ s1 = s).
Proof.
  unfold parseSearchStep.
  pose proof (searchCallPattern_group content) as Hg.
  destruct (match_group true searchCallPattern content) as [[g|]|].
  - unfold bind, searchProducts, try_catch, bind, ProductModel_searchProducts, call, ret.
    simpl.
    destruct (db_searchProducts w (ConversationContext.siteId context)
                (Some (Js.strip_quotes (Js.trim g))) _) as [l|e];
      eexists; eexists; (split; [reflexivity|]);
      (split; [right; eexists; reflexivity | discriminate]).
  - contradiction.
  - exists [], s. unfold ret. split; [reflexivity|]. split; [left; reflexivity|].
    intros _. split; reflexivity.
Qed.

(** X18.  parseFunctionCallsFromContent never throws.  The actions it
    returns come in the order search, coupon, transfer, each kind at most
    once.  A text that matches none of the three patterns gives no action
    and no collaborator call.  When the coupon request throws, the transfer
    step is skipped with it and only the search action, if any, remains;
    otherwise a text that matches the transfer pattern ends in the transfer
    action. *)
Theorem X18_text_calls_in_order (w : World) (s : Store)
    (content : string) (context : ConversationContext.t) :
  let issued :=
    coupon_generate w (ConversationContext.sessionId context)
      (ConversationContext.siteId context) textCouponParams in
  exists actions s',
    parseFunctionCallsFromContent content context w s = (Ok actions, s')
    /\ sublist (map action_type actions)
               ["show_products"; "generate_coupon"; "transfer_human"]
    /\ (match_group true searchCallPattern content = None ->
        test true couponCallPattern content = false ->
        test true transferCallPattern content = false ->
        actions = [] /\ s' = s)
    /\ (test true couponCallPattern content = true ->
        (exists e, issued = Throw e) ->
        Forall (fun a => action_type a = "show_products") actions)
    /\ (test true transferCallPattern content = true ->
        (test true couponCallPattern content = false \/ exists o, issued = Ok o) ->
        last actions = Some (transfer_human (Some "Customer requested human assistance"))).
Proof.
  intros issued. subst issued.
  destruct (parseSearchStep_cases content context w s) as (acts & s1 & Hstep & Hacts & Hnone).
  unfold parseFunctionCallsFromContent, try_catch, bind. rewrite Hstep.
  unfold parseCouponStep, parseTransferStep, bind,
    couponService_generateCouponForSession, call, ret.
  destruct (test true couponCallPattern content) eqn:Hc;
    [destruct (coupon_generate w (ConversationContext.sessionId context)
                 (ConversationContext.siteId context) textCouponParams) as [[c|]|e]|];
    destruct (test true transferCallPattern content) eqn:Ht;
    destruct Hacts as [->|[products ->]];
    eexists; eexists; (split; [reflexivity|]);
    (split; [cbn [map app action_type]; repeat constructor|]);
    (split; [intros Hn Hc' Ht';
             first [discriminate Hc' | discriminate Ht'
                   | destruct (Hnone Hn) as [Hnil ->]; first [discriminate Hnil | auto]]|]);
    (split; [intros Hc' [err Herr];
             first [discriminate Hc' | discriminate Herr | repeat constructor]|]);
    intros Ht' Hor;
    first [discriminate Ht' | reflexivity
          | destruct Hor as [Hor|[o Hor]]; discriminate Hor].
Qed.

(** A reply that names a search, an offer and an agent while the coupon
    issuer is down: the search action stays, the transfer is lost. *)
Example text_calls_when_issuer_down :
  let reply := "search products: gaming laptops" +:+ nl +:+ "Ask an agent for an offer" in
  let w := with_checkEligibility (fun _ _ _ => down)
             (mkWorld "claude-3" true (Ok 5%Q) (Ok catalog) (Ok catalog)
                (Ok (plainReply "")) (Ok noAnalysis) down down) in
  test true transferCallPattern reply = true
  /\ map action_type
       (value_of [] (parseFunctionCallsFromContent reply (sampleContext None) w emptyStore))
     = ["show_products"].
Proof. vm_compute. split; reflexivity. Qed.

(** ** The response cache and the error boundary *)

Section Frame.

Context {B : Type} (field : Store -> B).
Hypothesis field_log : forall c s, field (log c s) = field s.

Lemma keeps_ret {A : Type} (a : A) : keeps field (ret a).
Proof. intros w s. reflexivity. Qed.

Lemma keeps_throw {A : Type} (e : JsError) : keeps field (@throw A e).
Proof. intros w s. reflexivity. Qed.

Lemma keeps_ask {A : Type} (f : World -> A) : keeps field (ask f).
Proof. intros w s. reflexivity. Qed.

Lemma keeps_run {A : Type} (f : World -> Result A) : keeps field (run f).
Proof. intros w s. reflexivity. Qed.

Lemma keeps_call {A : Type} (c : Call) (f : World -> Result A) : keeps field (call c f).
Proof. intros w s. apply field_log. Qed.

Lemma keeps_bind {A C : Type} (m : M A) (f : A -> M C) :
  keeps field m -> (forall a, keeps field (f a)) -> keeps field (bind m f).
Proof.
  intros Hm Hf w s. unfold bind. specialize (Hm w s).
  destruct (m w s) as [[a|e] s1]; simpl in Hm.
  - rewrite Hf. exact Hm.
  - exact Hm.
Qed.

Lemma keeps_try_catch {A : Type} (m : M A) (h : JsError -> M A) :
  keeps field m -> (forall e, keeps field (h e)) -> keeps field (try_catch m h).
Proof.
  intros Hm Hh w s. unfold try_catch. specialize (Hm w s).
  destruct (m w s) as [[a|e] s1]; simpl in Hm.
  - exact Hm.
  - rewrite Hh. exact Hm.
Qed.

Lemma keeps_for_of {A C : Type} (l : list A) (acc : C) (f : C -> A -> M C) :
  (forall acc x, keeps field (f acc x)) -> keeps field (for_of l acc f).
Proof.
  intros Hf. revert acc. induction l as [|x l IH]; intros acc; cbn [for_of].
  - apply keeps_ret.
  - apply keeps_bind; [apply Hf | intros a; apply IH].
Qed.

Lemma keeps_eq {A : Type} (m : M A) (w : World) (s : Store) r s' :
  keeps field m -> m w s = (r, s') -> field s' = field s.
Proof. intros Hm E. specialize (Hm w s). rewrite E in Hm. exact Hm. Qed.

End Frame.

Section Oblivious.

Lemma oblivious_ret {A : Type} (a : A) : oblivious (ret a).
Proof. intros w s1 s2. reflexivity. Qed.

Lemma oblivious_throw {A : Type} (e : JsError) : oblivious (@throw A e).
Proof. intros w s1 s2. reflexivity. Qed.

Lemma oblivious_ask {A : Type} (f : World -> A) : oblivious (ask f).
Proof. intros w s1 s2. reflexivity. Qed.

Lemma oblivious_run {A : Type} (f : World -> Result A) : oblivious (run f).
Proof. intros w s1 s2. reflexivity. Qed.

Lemma oblivious_call {A : Type} (c : Call) (f : World -> Result A) : oblivious (call c f).
Proof. intros w s1 s2. reflexivity. Qed.

Lemma oblivious_bind {A C : Type} (m : M A) (f : A -> M C) :
  oblivious m -> (forall a, oblivious (f a)) -> oblivious (bind m f).
Proof.
  intros Hm Hf w s1 s2. unfold bind. specialize (Hm w s1 s2).
  destruct (m w s1) as [r1 t1], (m w s2) as [r2 t2]. cbn in Hm. subst r2.
  destruct r1 as [a|e]; [apply Hf | reflexivity].
Qed.

Lemma oblivious_try_catch {A : Type} (m : M A) (h : JsError -> M A) :
  oblivious m -> (forall e, oblivious (h e)) -> oblivious (try_catch m h).
Proof.
  intros Hm Hh w s1 s2. unfold try_catch. specialize (Hm w s1 s2).
  destruct (m w s1) as [r1 t1], (m w s2) as [r2 t2]. cbn in Hm. subst r2.
  destruct r1 as [a|e]; [reflexivity | apply Hh].
Qed.

Lemma oblivious_for_of {A C : Type} (l : list A) (acc : C) (f : C -> A -> M C) :
  (forall acc x, oblivious (f acc x)) -> oblivious (for_of l acc f).
Proof.
  intros Hf. revert acc. induction l as [|x l IH]; intros acc; cbn [for_of].
  - apply oblivious_ret.
  - apply oblivious_bind; [apply Hf | intros a; apply IH].
Qed.

End Oblivious.

Lemma cached_log (c : Call) (s : Store) : cached (log c s) = cached s.
Proof. reflexivity. Qed.

Lemma inert_ret {A : Type} (a : A) : inert (ret a).
Proof. split; [apply keeps_ret | apply oblivious_ret]. Qed.

Lemma inert_throw {A : Type} (e : JsError) : inert (@throw A e).
Proof. split; [apply keeps_throw | apply oblivious_throw]. Qed.

Lemma inert_ask {A : Type} (f : World -> A) : inert (ask f).
Proof. split; [apply keeps_ask | apply oblivious_ask]. Qed.

Lemma inert_run {A : Type} (f : World -> Result A) : inert (run f).
Proof. split; [apply keeps_run | apply oblivious_run]. Qed.

Lemma inert_call {A : Type} (c : Call) (f : World -> Result A) : inert (call c f).
Proof. split; [apply keeps_call, cached_log | apply oblivious_call]. Qed.

Lemma inert_bind {A C : Type} (m : M A) (f : A -> M C) :
  inert m -> (forall a, inert (f a)) -> inert (bind m f).
Proof.
  intros [Hk Ho] Hf. split.
  - apply keeps_bind; [exact Hk | intros a; apply Hf].
  - apply oblivious_bind; [exact Ho | intros a; apply Hf].
Qed.

Lemma inert_try_catch {A : Type} (m : M A) (h : JsError -> M A) :
  inert m -> (forall e, inert (h e)) -> inert (try_catch m h).
Proof.
  intros [Hk Ho] Hh. split.
  - apply keeps_try_catch; [exact Hk | intros e; apply Hh].
  - apply oblivious_try_catch; [exact Ho | intros e; apply Hh].
Qed.

Lemma inert_for_of {A C : Type} (l : list A) (acc : C) (f : C -> A -> M C) :
  (forall acc x, inert (f acc x)) -> inert (for_of l acc f).
Proof.
  intros Hf. split.
  - apply keeps_for_of. intros a x. apply Hf.
  - apply oblivious_for_of. intros a x. apply Hf.
Qed.

(** The five cache operations of the engine: a read misses and a write
    stores nothing. *)
Lemma inert_get_context (key : string) : inert (redisCache_get_context key).
Proof.
  split; intros w s; [|intros s2]; rewrite !redisCache_get_context_miss; reflexivity.
Qed.

Lemma inert_set_context (key : string) (v : ConversationContext.t) :
  inert (redisCache_set_context key v).
Proof.
  split; intros w s; [|intros s2]; rewrite !redisCache_set_context_off; reflexivity.
Qed.

Lemma inert_get_knowledge (key : string) : inert (redisCache_get_knowledge key).
Proof.
  split; intros w s; [|intros s2]; rewrite !redisCache_get_knowledge_miss; reflexivity.
Qed.

Lemma inert_set_knowledge (key : string) (v : list LangGraphNode.t) :
  inert (redisCache_set_knowledge key v).
Proof.
  split; intros w s; [|intros s2]; rewrite !redisCache_set_knowledge_off; reflexivity.
Qed.

Lemma inert_set_response (key : string) (v : AIResponse.t) :
  inert (redisCache_set_response key v).
Proof.
  split; intros w s; [|intros s2]; rewrite !redisCache_set_response_off; reflexivity.
Qed.

Ltac inert_step :=
  first
    [ apply inert_ret | apply inert_throw | apply inert_ask | apply inert_run
    | apply inert_call
    | apply inert_get_context | apply inert_set_context
    | apply inert_get_knowledge | apply inert_set_knowledge
    | apply inert_set_response
    | apply inert_bind; [|intros ?]
    | apply inert_try_catch; [|intros ?]
    | apply inert_for_of; intros ? ?
    | match goal with
      | |- inert (match ?x with _ => _ end) => destruct x
      end ].

Lemma inert_buildConversationContext (request : AIRequest.t) :
  inert (buildConversationContext request).
Proof. unfold buildConversationContext. repeat inert_step. Qed.

Lemma inert_analyzeUserMessage (message : string) (context : ConversationContext.t) :
  inert (analyzeUserMessage message context).
Proof. unfold analyzeUserMessage, openai_create. repeat inert_step. Qed.

Lemma inert_getProductKnowledge (query siteId : string) :
  inert (getProductKnowledge query siteId).
Proof.
  unfold getProductKnowledge, getAllProducts, ProductModel_searchProducts,
    ProductModel_findBySite.
  repeat inert_step.
Qed.

Lemma inert_searchProducts (parameters : CallParams.t) (siteId : string) :
  inert (searchProducts parameters siteId).
Proof. unfold searchProducts, ProductModel_searchProducts. repeat inert_step. Qed.

Lemma inert_handleFunctionCall (functionCall : FunctionCall.t)
    (context : ConversationContext.t) :
  inert (handleFunctionCall functionCall context).
Proof.
  unfold handleFunctionCall, ProductModel_findOne, couponService_generateCouponForSession,
    couponService_generateCouponForSession_null.
  repeat first [apply inert_searchProducts | inert_step].
Qed.

Lemma inert_parseFunctionCallsFromContent (content : string)
    (context : ConversationContext.t) :
  inert (parseFunctionCallsFromContent content context).
Proof.
  unfold parseFunctionCallsFromContent, parseSearchStep, parseCouponStep,
    couponService_generateCouponForSession.
  repeat first [apply inert_searchProducts | inert_step].
Qed.

Lemma inert_generateAIResponse (request : AIRequest.t)
    (context : ConversationContext.t) (analysis : Analysis.t) :
  inert (generateAIResponse request context analysis).
Proof.
  unfold generateAIResponse, openai_create.
  repeat first [apply inert_getProductKnowledge
               | apply inert_handleFunctionCall
               | apply inert_parseFunctionCallsFromContent
               | inert_step].
Qed.

Lemma inert_getRelevantProducts (analysis : Analysis.t) (context : ConversationContext.t) :
  inert (getRelevantProducts analysis context).
Proof.
  unfold getRelevantProducts, ProductModel_searchProducts, ProductModel_findByCategory,
    ProductModel_findBySite.
  repeat inert_step.
Qed.

Lemma inert_enhanceResponse (response : AIResponse.t)
    (context : ConversationContext.t) (analysis : Analysis.t) (query : string) :
  inert (enhanceResponse response context analysis query).
Proof.
  unfold enhanceResponse, attachProducts, attachCoupons, fetchKnownProducts,
    generateCouponIfEligible, ProductModel_countDocuments, ProductModel_findOne,
    couponService_checkCouponEligibility, couponService_generateCouponForSession.
  repeat first [apply inert_getRelevantProducts | inert_step].
Qed.

Lemma inert_processMessage (request : AIRequest.t) : inert (processMessage request).
Proof.
  unfold processMessage, processTurn, cacheResponse, logInteraction, getFallbackResponse.
  repeat first [apply inert_buildConversationContext
               | apply inert_analyzeUserMessage
               | apply inert_generateAIResponse
               | apply inert_enhanceResponse
               | inert_step].
Qed.

Lemma safe_no_throw {A : Type} (m : M A) (w : World) (s : Store) e s' :
  safe m -> m w s <> (Throw e, s').
Proof. intros Hm E. destruct (Hm w s) as (a & s1 & E1). rewrite E1 in E. discriminate E. Qed.

Lemma cacheResponse_spec (request : AIRequest.t) (response : AIResponse.t)
    (w : World) (s : Store) :
  cacheResponse request response w s
  = (Ok tt, log (CacheSet (responseCacheKey request)) s).
Proof.
  unfold cacheResponse, try_catch, bind, ret. fold (responseCacheKey request).
  rewrite redisCache_set_response_off. reflexivity.
Qed.

Lemma processMessage_returns (request : AIRequest.t) (w : World) (s : Store) :
  exists r s', processMessage request w s = (Ok r, s').
Proof.
  unfold processMessage, try_catch.
  destruct (processTurn request w s) as [[r|e] s1]; [eauto|].
  unfold getFallbackResponse, bind, ask, ret. eauto.
Qed.

(** X19.  The engine never uses the cache.  Each of its cache calls goes
    through the exported client, which has no connection to hand out: a
    read misses and a write, that of cacheResponse included, stores
    nothing.  So for every request processMessage leaves the three
    namespaces of the cache (contexts, knowledge, responses) as it found
    them, and the response it returns is the same whatever the cache
    holds. *)
Theorem X19_engine_never_uses_the_cache (w : World) (s : Store) (request : AIRequest.t) :
  exists r s',
    processMessage request w s = (Ok r, s')
    /\ contexts s' = contexts s
    /\ knowledge s' = knowledge s
    /\ responses s' = responses s
    /\ (forall s0, fst (processMessage request w s0) = Ok r)
    /\ (forall response s0,
          cacheResponse request response w s0
          = (Ok tt, log (CacheSet (responseCacheKey request)) s0)).
Proof.
  destruct (processMessage_returns request w s) as (r & s' & E).
  destruct (inert_processMessage request) as [Hk Ho].
  exists r, s'. split; [exact E|].
  pose proof (keeps_eq cached _ _ _ _ _ Hk E) as Hc.
  unfold cached in Hc. inversion Hc as [[H1 H2 H3]].
  repeat (split; [reflexivity|]).
  split.
  - intros s0. rewrite (Ho w s0 s), E. reflexivity.
  - intros response s0. apply cacheResponse_spec.
Qed.

(** A turn on a store whose cache holds entries for the session and for
    the query gives the same response as on the empty store. *)
Example cache_contents_do_not_matter :
  fst (processMessage (sampleRequest "show me gaming laptops" None) shopWorld gamingStore)
  = fst (processMessage (sampleRequest "show me gaming laptops" None) shopWorld emptyStore)
  /\ fst (processMessage (sampleRequest "hi" None) shopWorld cachedStore)
     = fst (processMessage (sampleRequest "hi" None) shopWorld emptyStore).
Proof. split; apply (proj2 (inert_processMessage _)). Qed.

Lemma buildConversationContext_safe (request : AIRequest.t) :
  safe (buildConversationContext request).
Proof.
  intros w s. unfold buildConversationContext, bind, ret.
  rewrite redisCache_get_context_miss, redisCache_set_context_off. eauto.
Qed.

Lemma analyzeUserMessage_safe (message : string) (context : ConversationContext.t) :
  safe (analyzeUserMessage message context).
Proof. apply safe_try_catch. intros e. apply safe_ret. Qed.

Lemma handleFunctionCall_safe (functionCall : FunctionCall.t)
    (context : ConversationContext.t) :
  safe (handleFunctionCall functionCall context).
Proof. apply safe_try_catch. intros e. apply safe_ret. Qed.

Lemma parseFunctionCallsFromContent_safe (content : string)
    (context : ConversationContext.t) :
  safe (parseFunctionCallsFromContent content context).
Proof. apply safe_try_catch. intros e. apply safe_ret. Qed.

Lemma cacheResponse_safe (request : AIRequest.t) (response : AIResponse.t) :
  safe (cacheResponse request response).
Proof. apply safe_try_catch. intros e. apply safe_ret. Qed.

(** The only throw that leaves generateAIResponse is the one of the
    completion call. *)
Lemma generateAIResponse_throw (request : AIRequest.t) (context : ConversationContext.t)
    (analysis : Analysis.t) (w : World) (s : Store) e s' :
  generateAIResponse request context analysis w s = (Throw e, s') ->
  exists params,
    llm_create w params = Throw e
    /\ CompletionParams.model params = cfg_model w
    /\ CompletionParams.max_tokens params = cfg_maxTokens w
    /\ CompletionParams.temperature params = cfg_temperature w.
Proof.
  unfold generateAIResponse. intros H.
  apply try_catch_inv in H as [(a & _ & H)|(e0 & s1 & H & He)]; [discriminate H|].
  unfold throw in He. inversion He; subst e0 s1; clear He.
  apply bind_inv in H as [(pk & s1 & _ & H)|(e0 & H & _)].
  2: { exfalso. exact (safe_no_throw _ _ _ _ _ (getProductKnowledge_safe _ _) H). }
  cbv zeta in H.
  apply bind_inv in H as [(model & s2 & Hm & H)|(e0 & H & _)]; [|discriminate H].
  apply bind_inv in H as [(maxTokens & s3 & Ht & H)|(e0 & H & _)]; [|discriminate H].
  apply bind_inv in H as [(temperature & s4 & Hp & H)|(e0 & H & _)]; [|discriminate H].
  unfold ask in Hm, Ht, Hp. inversion Hm; subst. inversion Ht; subst.
  inversion Hp; subst. clear Hm Ht Hp.
  apply bind_inv in H as [(completion & s5 & _ & H)|(e0 & H & He)].
  2: { unfold openai_create, call in H. inversion H as [[Hc Hs]]. inversion He; subst e0.
       eexists. split; [exact Hc|]. repeat split. }
  apply bind_inv in H as [(actions & s6 & _ & H)|(e0 & H & _)].
  2: { exfalso.
       destruct (Completion.message completion) as [rm|]; [|discriminate H].
       destruct (ResponseMessage.function_call rm) as [fc|].
       - exact (safe_no_throw _ _ _ _ _ (handleFunctionCall_safe _ _) H).
       - destruct (truthy_str (ResponseMessage.content rm)) as [content|];
           [|discriminate H].
         destruct (Js.includes (cfg_model w) "claude"); [|discriminate H].
         exact (safe_no_throw _ _ _ _ _ (parseFunctionCallsFromContent_safe _ _) H). }
  apply bind_inv in H as [(now & s7 & _ & H)|(e0 & H & _)]; discriminate H.
Qed.

Lemma logInteraction_throw (request : AIRequest.t) (response : AIResponse.t)
    (w : World) (s : Store) e s' :
  logInteraction request response w s = (Throw e, s') ->
  (log_aiInteraction w (responseTokenUsage response) (cfg_model w) = Throw e /\ s' = s)
  \/ (log_aiInteraction w (responseTokenUsage response) (cfg_model w) = Ok tt
      /\ analytics_trackAIInteraction w (AIRequest.sessionId request)
           (AIRequest.siteId request)
           (or_str (Some (AIResponse.intent response)) "unknown")
           (AIResponse.sentiment response) (AIResponse.confidence response)
           (responseTokenUsage response) = Throw e).
Proof.
  unfold logInteraction, bind, ask, run, call. cbv zeta.
  destruct (log_aiInteraction w (responseTokenUsage response) (cfg_model w))
    as [[]|e0] eqn:El; intros H.
  - right. split; [reflexivity|]. inversion H as [[Ht Hs]]. reflexivity.
  - left. inversion H; subst. split; reflexivity.
Qed.

(** What can leave the body of the try block: the error of the completion
    call of generateAIResponse, or, once the reply has been enhanced and
    cacheResponse has run, an error of logInteraction. *)
Lemma processTurn_throw (request : AIRequest.t) (w : World) (s : Store) e s' :
  processTurn request w s = (Throw e, s') ->
  (exists params,
     llm_create w params = Throw e
     /\ CompletionParams.model params = cfg_model w
     /\ CompletionParams.max_tokens params = cfg_maxTokens w
     /\ CompletionParams.temperature params = cfg_temperature w)
  \/ (exists response s0,
        logInteraction request response w (log (CacheSet (responseCacheKey request)) s0)
        = (Throw e, s')).
Proof.
  unfold processTurn. intros E.
  apply bind_inv in E as [(context & s2 & _ & E)|(e0 & H & _)].
  2: { exfalso. exact (safe_no_throw _ _ _ _ _ (buildConversationContext_safe _) H). }
  apply bind_inv in E as [(analysis & s3 & _ & E)|(e0 & H & _)].
  2: { exfalso. exact (safe_no_throw _ _ _ _ _ (analyzeUserMessage_safe _ _) H). }
  apply bind_inv in E as [([ai context'] & s4 & _ & E)|(e0 & H & He)].
  2: { left. inversion He; subst e0. exact (generateAIResponse_throw _ _ _ _ _ _ _ H). }
  apply bind_inv in E as [(enhanced & s5 & _ & E)|(e0 & H & _)].
  2: { exfalso. exact (safe_no_throw _ _ _ _ _ (enhanceResponse_safe _ _ _ _) H). }
  apply bind_inv in E as [(u1 & s6 & Hc & E)|(e0 & H & _)].
  2: { exfalso. exact (safe_no_throw _ _ _ _ _ (cacheResponse_safe _ _) H). }
  rewrite cacheResponse_spec in Hc. inversion Hc; subst u1 s6; clear Hc.
  apply bind_inv in E as [(u2 & s7 & _ & E)|(e0 & H & He)].
  - unfold ret in E. discriminate E.
  - right. inversion He; subst e0. exists enhanced, s5. exact H.
Qed.

(** X20.  What can end a turn.  An error leaves the try block of
    processMessage in one of three ways only: it is the error of the
    completion call that generates the reply (the call made with the
    configured model, token limit and temperature), or the interaction log
    throws it, or the log has returned and the analytics call throws it;
    the last two are calls of logInteraction, which processMessage does not
    guard.  Every other failure, of the cache, the catalog store, the coupon
    issuer, the classifier call or the parsers, is absorbed on the way.  So
    while the completion provider answers and the two sinks return,
    processMessage returns the generated reply and never the fallback; and
    when the provider answers but the interaction log throws, the reply
    that was generated is dropped: processMessage returns the fallback for
    the error of the log, after cacheResponse has run. *)
Theorem X20_what_can_fail_a_turn (w : World) (s : Store) (request : AIRequest.t) :
  (forall e s1,
     processTurn request w s = (Throw e, s1) ->
     (exists params,
        llm_create w params = Throw e
        /\ CompletionParams.model params = cfg_model w
        /\ CompletionParams.max_tokens params = cfg_maxTokens w
        /\ CompletionParams.temperature params = cfg_temperature w)
     \/ (exists response,
           log_aiInteraction w (responseTokenUsage response) (cfg_model w) = Throw e
           \/ (log_aiInteraction w (responseTokenUsage response) (cfg_model w) = Ok tt
               /\ analytics_trackAIInteraction w (AIRequest.sessionId request)
                    (AIRequest.siteId request)
                    (or_str (Some (AIResponse.intent response)) "unknown")
                    (AIResponse.sentiment response) (AIResponse.confidence response)
                    (responseTokenUsage response) = Throw e)))
  /\ ((forall params, exists completion, llm_create w params = Ok completion) ->
      (forall tokenUsage model, log_aiInteraction w tokenUsage model = Ok tt) ->
      (forall sessionId siteId intent sentiment confidence tokenUsage,
         analytics_trackAIInteraction w sessionId siteId intent sentiment confidence
           tokenUsage = Ok tt) ->
      exists r s',
        processMessage request w s = (Ok r, s')
        /\ processTurn request w s = (Ok r, s')
        /\ metadata_of r !! "fallback" = None
        /\ metadata_of r !! "model" = Some (MStr (cfg_model w)))
  /\ (forall e,
        (forall params, exists completion, llm_create w params = Ok completion) ->
        (forall tokenUsage model, log_aiInteraction w tokenUsage model = Throw e) ->
        exists s' before,
          processMessage request w s =
            (Ok {| AIResponse.message := randomMessage (random_bits w);
                   AIResponse.intent := "unknown";
                   AIResponse.confidence := (1 # 10)%Q;
                   AIResponse.sentiment := 0%Q;
                   AIResponse.actions := [];
                   AIResponse.products := None;
                   AIResponse.coupons := None;
                   AIResponse.shouldEndConversation := None;
                   AIResponse.metadata :=
                     Some (<["fallback" := MBool true]> (<["error" := MStr e]> ∅)) |},
             s')
          /\ fst (processTurn request w s) = Throw e
          /\ calls s' = before ++ [CacheSet (responseCacheKey request)]).
Proof.
  split; [|split].
  { intros e s1 E. apply processTurn_throw in E as [E|(response & s0 & E)];
      [left; exact E|].
    right. exists response. apply logInteraction_throw in E as [[E _]|E];
      [left|right]; exact E. }
  2: { intros e Hup Hlog. unfold processMessage, try_catch.
       destruct (processTurn request w s) as [[r|e'] s1] eqn:E.
       - exfalso. unfold processTurn in E.
         apply bind_inv in E as [(context & s2 & _ & E)|(e0 & _ & E)]; [|discriminate E].
         apply bind_inv in E as [(analysis & s3 & _ & E)|(e0 & _ & E)]; [|discriminate E].
         apply bind_inv in E as [([ai context'] & s4 & _ & E)|(e0 & _ & E)];
           [|discriminate E].
         apply bind_inv in E as [(enhanced & s5 & _ & E)|(e0 & _ & E)]; [|discriminate E].
         apply bind_inv in E as [(u1 & s6 & _ & E)|(e0 & _ & E)]; [|discriminate E].
         apply bind_inv in E as [(u2 & s7 & H & _)|(e0 & _ & E)]; [|discriminate E].
         unfold logInteraction, bind, ask, run in H. cbv zeta in H.
         rewrite Hlog in H. discriminate H.
       - apply processTurn_throw in E as [(params & Hp & _)|(response & s0 & E)].
         { destruct (Hup params) as [c Hc]. rewrite Hc in Hp. discriminate Hp. }
         apply logInteraction_throw in E as [[E ->]|[E _]].
         + rewrite Hlog in E. inversion E; subst e'.
           unfold getFallbackResponse, bind, ask, ret.
           exists (log (CacheSet (responseCacheKey request)) s0), (calls s0).
           repeat split.
         + rewrite Hlog in E. discriminate E. }
  intros Hup Hlog Htrack. unfold processMessage, try_catch.
  destruct (processTurn request w s) as [[r|e] s1] eqn:E.
  2: { apply processTurn_throw in E as [(params & Hp & _)|(response & s0 & E)].
       - destruct (Hup params) as [c Hc]. rewrite Hc in Hp. discriminate Hp.
       - apply logInteraction_throw in E as [[E _]|[_ E]].
         + rewrite Hlog in E. discriminate E.
         + rewrite Htrack in E. discriminate E. }
  exists r, s1. split; [reflexivity|]. split; [reflexivity|].
  unfold processTurn in E.
  apply bind_inv in E as [(context & s2 & _ & E)|(e & _ & E)]; [|discriminate E].
  apply bind_inv in E as [(analysis & s3 & _ & E)|(e & _ & E)]; [|discriminate E].
  apply bind_inv in E as [([ai context'] & s4 & Hgen & E)|(e & _ & E)]; [|discriminate E].
  apply bind_inv in E as [(enhanced & s5 & Henh & E)|(e & _ & E)]; [|discriminate E].
  apply bind_inv in E as [(u1 & s6 & _ & E)|(e & _ & E)]; [|discriminate E].
  apply bind_inv in E as [(u2 & s7 & _ & E)|(e & _ & E)]; [|discriminate E].
  unfold ret in E. inversion E; subst enhanced s7; clear E.
  assert (Hai : metadata_of ai !! "fallback" = None
                /\ metadata_of ai !! "model" = Some (MStr (cfg_model w))).
  { unfold generateAIResponse in Hgen.
    apply try_catch_inv in Hgen as [(a & H & Ha)|(e & s0 & _ & H)]; [|discriminate H].
    inversion Ha; subst a; clear Ha.
    apply bind_inv in H as [(pk & s1' & _ & H)|(e & _ & H)]; [|discriminate H].
    cbv zeta in H.
    apply bind_inv in H as [(model & s2' & Hm & H)|(e & _ & H)]; [|discriminate H].
    unfold ask in Hm. inversion Hm; subst model s2'; clear Hm.
    apply bind_inv in H as [(maxTokens & s3' & _ & H)|(e & _ & H)]; [|discriminate H].
    apply bind_inv in H as [(temperature & s4' & _ & H)|(e & _ & H)]; [|discriminate H].
    apply bind_inv in H as [(completion & s5' & _ & H)|(e & _ & H)]; [|discriminate H].
    apply bind_inv in H as [(actions & s6' & _ & H)|(e & _ & H)]; [|discriminate H].
    apply bind_inv in H as [(now & s7' & _ & H)|(e & _ & H)]; [|discriminate H].
    unfold ret in H. inversion H; subst. unfold metadata_of. cbn [AIResponse.metadata].
    split.
    - rewrite !lookup_insert_ne by discriminate. apply lookup_empty.
    - rewrite lookup_insert_ne by discriminate. apply lookup_insert_eq. }
  destruct Hai as [Hf Hm].
  apply enhanceResponse_inv in Henh
    as [->|[(_ & n & _ & ->)|(_ & e1 & s1' & e2 & s2' & H1 & H2 & ->)]].
  - split; assumption.
  - unfold metadata_of in *. destruct ai; cbn in *.
    rewrite !lookup_insert_ne by discriminate. split; assumption.
  - destruct (attachCoupons_spec e1 context' analysis w s1') as (r0 & s0 & E0 & Hr).
    rewrite E0 in H2. inversion H2; subst r0 s0; clear H2.
    assert (He1 : metadata_of e1 = metadata_of ai).
    { apply attachProducts_inv in H1 as [->|(rel & _ & ->)]; [reflexivity|].
      destruct ai; reflexivity. }
    assert (He2 : metadata_of e2 = metadata_of e1).
    { destruct (String.eqb (Analysis.intent analysis) "purchase_intent"
                && String.eqb (Analysis.purchaseReadiness analysis) "ready_to_buy").
      - destruct Hr as (l & _ & ->). destruct e1; reflexivity.
      - destruct Hr as [-> _]. reflexivity. }
    assert (Hd : metadata_of (decideEnd e2 analysis) = metadata_of e2).
    { unfold decideEnd. destruct e2; reflexivity. }
    rewrite Hd, He2, He1. split; assumption.
Qed.

(** On the sample shop with an interaction log that throws, the reply that
    was generated is lost: the turn ends in the fallback that records the
    error of the log. *)
Example failing_log_gives_fallback :
  let r := value_of (sampleResponse "")
             (processMessage (sampleRequest "hello" None)
                (with_sinks (Throw "log transport closed") (Ok tt) shopWorld) emptyStore) in
  AIResponse.message r = randomMessage 0
  /\ metadata_of r !! "fallback" = Some (MBool true)
  /\ metadata_of r !! "error" = Some (MStr "log transport closed").
Proof. vm_compute. repeat split; reflexivity. Qed.

(** A turn on the sample shop succeeds and is not flagged as a fallback. *)
Example turn_succeeds_on_sample_shop :
  let r := value_of (sampleResponse "")
             (processMessage (sampleRequest "hello" None) shopWorld emptyStore) in
  AIResponse.message r = "We have a special offer for you"
  /\ metadata_of r !! "fallback" = None.
Proof. vm_compute. split; reflexivity. Qed.

(** X21.  When the completion provider fails every call with the same error,
    processMessage answers with the fallback reply that records this error,
    whatever the other collaborators do: the classifier falls back to the
    keyword rules and retrieval goes on, but the generation call ends the
    turn. *)
Theorem X21_provider_down_gives_fallback (w : World) (s : Store)
    (request : AIRequest.t) (e : JsError) :
  (forall params, llm_create w params = Throw e) ->
  exists s',
    processMessage request w s =
      (Ok {| AIResponse.message := randomMessage (random_bits w);
             AIResponse.intent := "unknown";
             AIResponse.confidence := (1 # 10)%Q;
             AIResponse.sentiment := 0%Q;
             AIResponse.actions := [];
             AIResponse.products := None;
             AIResponse.coupons := None;
             AIResponse.shouldEndConversation := None;
             AIResponse.metadata :=
               Some (<["fallback" := MBool true]> (<["error" := MStr e]> ∅)) |},
       s')
    /\ fst (processTurn request w s) = Throw e.
Proof.
  intros Hdown.
  assert (E : exists s1, processTurn request w s = (Throw e, s1)).
  { unfold processTurn. unfold bind at 1.
    destruct (buildConversationContext_safe request w s) as (context & s1 & E1).
    rewrite E1. unfold bind at 1.
    destruct (analyzeUserMessage_safe (AIRequest.message request) context w s1)
      as (analysis & s2 & E2).
    rewrite E2. unfold bind at 1.
    assert (E3 : exists s3,
               generateAIResponse request context analysis w s2 = (Throw e, s3)).
    { unfold generateAIResponse, try_catch. unfold bind at 1.
      destruct (getProductKnowledge_safe (AIRequest.message request)
                  (ConversationContext.siteId context) w s2) as (pk & s3 & E3).
      rewrite E3. cbv zeta. unfold bind, ask, openai_create, call.
      rewrite Hdown. unfold throw. eauto. }
    destruct E3 as (s3 & E3). rewrite E3. eauto. }
  destruct E as (s1 & E).
  unfold processMessage, try_catch. rewrite E.
  unfold getFallbackResponse, bind, ask, ret. eexists. split; reflexivity.
Qed.

Lemma X21_provider_down_gives_fallback_witness :
  exists r s',
    processMessage (sampleRequest "hello" None) deadWorld emptyStore = (Ok r, s')
    /\ metadata_of r !! "error" = Some (MStr "service unavailable").
Proof.
  destruct (X21_provider_down_gives_fallback deadWorld emptyStore
              (sampleRequest "hello" None) "service unavailable")
    as (s' & E & _).
  - intros params. reflexivity.
  - eexists. exists s'. split; [exact E|]. reflexivity.
Defined.

(** ** The metadata of a response *)

Lemma generateAIResponse_metadata (request : AIRequest.t) (context : ConversationContext.t)
    (analysis : Analysis.t) (w : World) (s : Store) r context' s' :
  generateAIResponse request context analysis w s = (Ok (r, context'), s') ->
  dom (metadata_of r) = ({[ "tokenUsage"; "model"; "processingTime" ]} : gset string).
Proof.
  unfold generateAIResponse. intros H.
  apply try_catch_inv in H as [(a & H & Ha)|(e & s1 & _ & H)]; [|discriminate H].
  inversion Ha; subst a; clear Ha.
  apply bind_inv in H as [(pk & s1 & _ & H)|(e & _ & H)]; [|discriminate H].
  cbv zeta in H.
  apply bind_inv in H as [(model & s2 & _ & H)|(e & _ & H)]; [|discriminate H].
  apply bind_inv in H as [(maxTokens & s3 & _ & H)|(e & _ & H)]; [|discriminate H].
  apply bind_inv in H as [(temperature & s4 & _ & H)|(e & _ & H)]; [|discriminate H].
  apply bind_inv in H as [(completion & s5 & _ & H)|(e & _ & H)]; [|discriminate H].
  apply bind_inv in H as [(actions & s6 & _ & H)|(e & _ & H)]; [|discriminate H].
  apply bind_inv in H as [(now & s7 & _ & H)|(e & _ & H)]; [|discriminate H].
  unfold ret in H. inversion H; subst. unfold metadata_of. cbn [AIResponse.metadata].
  rewrite !dom_insert_L, dom_empty_L. set_solver.
Qed.

Lemma enhanceResponse_metadata (response : AIResponse.t) (context : ConversationContext.t)
    (analysis : Analysis.t) (query : string) (w : World) (s : Store) r s' :
  enhanceResponse response context analysis query w s = (Ok r, s') ->
  metadata_of r = metadata_of response
  \/ (isInventoryQuery query = true
      /\ exists n, metadata_of r = <["totalProductCount" := MNum n]> (metadata_of response)).
Proof.
  intros H.
  apply enhanceResponse_inv in H
    as [->|[(Hq & n & _ & ->)|(_ & e1 & s1 & e2 & s2 & H1 & H2 & ->)]].
  - left. reflexivity.
  - right. split; [exact Hq|]. exists n. reflexivity.
  - left.
    destruct (attachCoupons_spec e1 context analysis w s1) as (r0 & s0 & E0 & Hr).
    rewrite E0 in H2. inversion H2; subst r0 s0; clear H2.
    assert (He1 : metadata_of e1 = metadata_of response).
    { apply attachProducts_inv in H1 as [->|(rel & _ & ->)]; [reflexivity|].
      destruct response; reflexivity. }
    assert (He2 : metadata_of e2 = metadata_of e1).
    { destruct (String.eqb (Analysis.intent analysis) "purchase_intent"
                && String.eqb (Analysis.purchaseReadiness analysis) "ready_to_buy").
      - destruct Hr as (l & _ & ->). destruct e1; reflexivity.
      - destruct Hr as [-> _]. reflexivity. }
    assert (Hd : metadata_of (decideEnd e2 analysis) = metadata_of e2).
    { unfold decideEnd. destruct e2; reflexivity. }
    rewrite Hd, He2, He1. reflexivity.
Qed.

Lemma processMessage_metadata (request : AIRequest.t) (w : World) (s : Store) r s' :
  processMessage request w s = (Ok r, s') ->
  dom (metadata_of r) = ({[ "fallback"; "error" ]} : gset string)
  \/ dom (metadata_of r) = ({[ "tokenUsage"; "model"; "processingTime" ]} : gset string)
  \/ (isInventoryQuery (AIRequest.message request) = true
      /\ dom (metadata_of r)
         = ({[ "tokenUsage"; "model"; "processingTime"; "totalProductCount" ]}
              : gset string)).
Proof.
  unfold processMessage. intros H.
  apply try_catch_inv in H as [(a & E & Ha)|(e & s1 & _ & H)].
  - inversion Ha; subst a; clear Ha. right. unfold processTurn in E.
    apply bind_inv in E as [(context & s2 & _ & E)|(e & _ & E)]; [|discriminate E].
    apply bind_inv in E as [(analysis & s3 & _ & E)|(e & _ & E)]; [|discriminate E].
    apply bind_inv in E as [([ai context'] & s4 & Hgen & E)|(e & _ & E)]; [|discriminate E].
    apply bind_inv in E as [(enhanced & s5 & Henh & E)|(e & _ & E)]; [|discriminate E].
    apply bind_inv in E as [(u1 & s6 & _ & E)|(e & _ & E)]; [|discriminate E].
    apply bind_inv in E as [(u2 & s7 & _ & E)|(e & _ & E)]; [|discriminate E].
    unfold ret in E. inversion E; subst enhanced s7; clear E.
    apply generateAIResponse_metadata in Hgen.
    apply enhanceResponse_metadata in Henh as [->|(Hq & n & ->)].
    + left. exact Hgen.
    + right. split; [exact Hq|]. rewrite dom_insert_L, Hgen. set_solver.
  - left. unfold getFallbackResponse, bind, ask, ret in H. inversion H; subst.
    unfold metadata_of. cbn [AIResponse.metadata].
    rewrite !dom_insert_L, dom_empty_L. set_solver.
Qed.

(** X22.  The metadata of the response processMessage returns has one of
    three shapes: the two keys of the fallback reply; the three keys of a
    generated reply (token usage, model, processing time); or these three
    with the product count, which appears only on an inventory question.
    The fallback shape occurs exactly when the turn failed. *)
Theorem X22_response_metadata_shapes (w : World) (s : Store) (request : AIRequest.t) :
  exists r s',
    processMessage request w s = (Ok r, s')
    /\ (dom (metadata_of r) = ({[ "fallback"; "error" ]} : gset string)
        \/ dom (metadata_of r) = ({[ "tokenUsage"; "model"; "processingTime" ]} : gset string)
        \/ (isInventoryQuery (AIRequest.message request) = true
            /\ dom (metadata_of r)
               = ({[ "tokenUsage"; "model"; "processingTime"; "totalProductCount" ]}
                    : gset string)))
    /\ ("fallback" ∈ dom (metadata_of r) <->
        exists e, fst (processTurn request w s) = Throw e).
Proof.
  destruct (processMessage request w s) as [[r|e] s'] eqn:E.
  2: { exfalso. revert E. unfold processMessage, try_catch.
       destruct (processTurn request w s) as [[r|e0] s1]; [discriminate|].
       unfold getFallbackResponse, bind, ask, ret. discriminate. }
  exists r, s'. split; [reflexivity|].
  split; [exact (processMessage_metadata _ _ _ _ _ E)|].
  revert E. unfold processMessage, try_catch.
  destruct (processTurn request w s) as [[r0|e0] s1] eqn:Et; intros E.
  - inversion E; subst r0 s1; clear E.
    assert (Hm : processMessage request w s = (Ok r, s')).
    { unfold processMessage, try_catch. rewrite Et. reflexivity. }
    apply processMessage_metadata in Hm. split.
    + intros Hin. exfalso. unfold processTurn in Et.
      apply bind_inv in Et as [(context & s2 & _ & Et)|(e & _ & Et)]; [|discriminate Et].
      apply bind_inv in Et as [(analysis & s3 & _ & Et)|(e & _ & Et)]; [|discriminate Et].
      apply bind_inv in Et as [([ai context'] & s4 & Hgen & Et)|(e & _ & Et)];
        [|discriminate Et].
      apply bind_inv in Et as [(enhanced & s5 & Henh & Et)|(e & _ & Et)]; [|discriminate Et].
      apply bind_inv in Et as [(u1 & s6 & _ & Et)|(e & _ & Et)]; [|discriminate Et].
      apply bind_inv in Et as [(u2 & s7 & _ & Et)|(e & _ & Et)]; [|discriminate Et].
      unfold ret in Et. inversion Et; subst enhanced s7; clear Et.
      apply generateAIResponse_metadata in Hgen.
      apply enhanceResponse_metadata in Henh as [Hr|(_ & n & Hr)]; rewrite Hr in Hin.
      * rewrite Hgen in Hin. clear -Hin.
        rewrite !elem_of_union, !elem_of_singleton in Hin.
        destruct Hin as [[Hin|Hin]|Hin]; discriminate Hin.
      * rewrite dom_insert_L, Hgen in Hin. clear -Hin.
        rewrite !elem_of_union, !elem_of_singleton in Hin.
        destruct Hin as [Hin|[[Hin|Hin]|Hin]]; discriminate Hin.
    + intros [e He]. discriminate He.
  - unfold getFallbackResponse, bind, ask, ret in E. inversion E; subst. split.
    + intros _. exists e0. reflexivity.
    + intros _. unfold metadata_of. cbn [AIResponse.metadata].
      rewrite !dom_insert_L. set_solver.
Qed.

(** ** The chat route *)

Lemma processMessage_safe (request : AIRequest.t) : safe (processMessage request).
Proof.
  apply safe_try_catch. intros e w s.
  unfold getFallbackResponse, bind, ask, ret. eauto.
Qed.

Lemma route_keys_free (request : AIRequest.t) (w : World) (s : Store) r s' (k : string) :
  processMessage request w s = (Ok r, s') ->
  k ∈ routeMetadataKeys ->
  metadata_of r !! k = None.
Proof.
  intros H Hk. apply not_elem_of_dom.
  apply processMessage_metadata in H as [H|[H|[_ H]]]; rewrite H; clear H;
    rewrite !elem_of_union, !elem_of_singleton; intros Hin;
    unfold routeMetadataKeys in Hk;
    repeat (apply elem_of_cons in Hk as [->|Hk]);
    try (inversion Hk; fail);
    repeat (destruct Hin as [Hin|Hin]; try discriminate Hin);
    discriminate Hin.
Qed.

(** X23.  The status of [POST /chat].  Without a shop identifier the
    handler answers 401 and touches neither the chat service nor the
    engine.  Otherwise it answers 200 or 500, and a 500 always carries the
    error of a chat-service call: the engine itself never makes the route
    fail, so with a working chat service the answer is 200 whatever the
    collaborators of the engine do. *)
Theorem X23_chat_route_status (req : ChatRequest.t) (rw : RouteWorld) (s : Store)
    (chat : list ChatCall) :
  let result := chatHandler req rw s chat in
  let response := fst (fst result) in
  (truthy_str (ChatRequest.shopId req) = None ->
   result = ({| HttpResponse.status := 401; HttpResponse.body := AuthRequired |}, s, chat))
  /\ (HttpResponse.status response = 401 <-> truthy_str (ChatRequest.shopId req) = None)
  /\ (HttpResponse.status response = 200
      \/ HttpResponse.status response = 401
      \/ HttpResponse.status response = 500)
  /\ (HttpResponse.status response = 500 ->
      exists error,
        HttpResponse.body response = ChatFailure error (route_now_iso rw)
        /\ ((exists args, chat_createChatSession rw args = Throw error)
            \/ (exists args, chat_sendMessage rw args = Throw error)))
  /\ (truthy_str (ChatRequest.shopId req) <> None ->
      (forall args, exists id, chat_createChatSession rw args = Ok id) ->
      (forall args, exists stored, chat_sendMessage rw args = Ok stored) ->
      HttpResponse.status response = 200).
Proof.
  intros result response. subst response result. unfold chatHandler.
  destruct (truthy_str (ChatRequest.shopId req)) as [shopId|].
  2: { cbn. split; [reflexivity|]. split; [split; reflexivity|].
       split; [auto|]. split; [discriminate|]. intros H. contradiction. }
  split; [discriminate|].
  assert (Hsession :
    (exists sessionId c, openSession req shopId rw chat = (Ok sessionId, c))
    \/ (exists e c args, openSession req shopId rw chat = (Throw e, c)
                         /\ chat_createChatSession rw args = Throw e)).
  { unfold openSession.
    destruct (truthy_str (ChatBody.session_id (ChatRequest.body req))); [eauto|].
    destruct (chat_createChatSession rw _) eqn:E; eauto 6. }
  destruct Hsession as [(sessionId & c & ->)|(e & c & args & -> & Hc)].
  2: { cbn. split; [split; discriminate|]. split; [auto|]. split.
       - intros _. exists e. split; [reflexivity|]. left. eauto.
       - intros _ Hcreate _. destruct (Hcreate args) as [id Hid].
         rewrite Hid in Hc. discriminate Hc. }
  destruct (chat_sendMessage rw (userMessageArgs req sessionId)) as [userMessage|e] eqn:Eu.
  2: { cbn. split; [split; discriminate|]. split; [auto|]. split.
       - intros _. exists e. split; [reflexivity|]. right. eauto.
       - intros _ _ Hsend. destruct (Hsend (userMessageArgs req sessionId)) as [m Hm].
         rewrite Hm in Eu. discriminate Eu. }
  destruct (processMessage_safe (aiRequest req sessionId shopId) (engine rw) s)
    as (aiResponse & s1 & ->).
  destruct (chat_sendMessage rw
              (aiMessageArgs sessionId (AIResponse.message aiResponse) (route_now rw)))
    as [aiMessage|e] eqn:Ea.
  2: { cbn. split; [split; discriminate|]. split; [auto|]. split.
       - intros _. exists e. split; [reflexivity|]. right. eauto.
       - intros _ _ Hsend.
         destruct (Hsend (aiMessageArgs sessionId (AIResponse.message aiResponse)
                            (route_now rw))) as [m Hm].
         rewrite Hm in Ea. discriminate Ea. }
  cbn. split; [split; discriminate|]. split; [auto|]. split; [discriminate|]. auto.
Qed.

(** Without a shop identifier: 401; with a chat service that is down: 500. *)
Example chat_route_rejections :
  HttpResponse.status (fst (fst (chatHandler (chatRequest None None "hello") shopRoute
                                   emptyStore [])))
  = 401
  /\ fst (fst (chatHandler (chatRequest (Some "S1") None "hello")
                 {| engine := shopWorld;
                    chat_createChatSession := fun _ => down;
                    chat_sendMessage := storeMessage;
                    route_now := 0%Q;
                    route_now_iso := "now" |}
                 emptyStore []))
     = {| HttpResponse.status := 500;
          HttpResponse.body := ChatFailure "service unavailable" "now" |}.
Proof. split; reflexivity. Qed.

(** X24.  The chat route never passes conversation history to the engine:
    the request it builds always carries the empty transcript.  So on this
    route the context of a turn has no messages, no interests and no price
    range, and the provider is sent the current message alone.  The
    transcript the cache may hold for the session plays no part: it is not
    read into the context, and the cache is left as it was, the context of
    the turn is not written to it; the engine only issues one read and one
    write of the session key to the cache client, which serves neither. *)
Theorem X24_route_never_passes_history (req : ChatRequest.t) (sessionId shopId : string)
    (w : World) (s : Store) :
  let request := aiRequest req sessionId shopId in
  exists context s',
    buildConversationContext request w s = (Ok context, s')
    /\ ConversationContext.previousMessages context = []
    /\ ConversationContext.userInterests context = []
    /\ ProductPreferences.priceRange (ConversationContext.productPreferences context) = None
    /\ buildConversationMessages (ConversationContext.previousMessages context)
         (AIRequest.message request)
       = [ {| PromptMessage.role := "user";
              PromptMessage.content := ChatBody.message (ChatRequest.body req) |} ]
    /\ contexts s' = contexts s
    /\ calls s' = calls s ++ [CacheGet ("conversation_context:" +:+ sessionId);
                              CacheSet ("conversation_context:" +:+ sessionId)].
Proof.
  intros request.
  assert (Hi : extractUserInterests [] = []) by reflexivity.
  assert (Hp : analyzeProductPreferences []
               = {| ProductPreferences.categories := [];
                    ProductPreferences.priceRange := None;
                    ProductPreferences.features := [] |}) by reflexivity.
  unfold buildConversationContext, bind, ret.
  rewrite redisCache_get_context_miss.
  change (request_previousMessages request) with (Some (@nil ChatMessage.t)).
  change (AIRequest.sessionId request) with sessionId.
  cbv zeta. cbn [ConversationContext.previousMessages ConversationContext.set_previousMessages
                 ConversationContext.set_userInterests].
  rewrite Hi, Hp, redisCache_set_context_off.
  eexists. eexists. split; [reflexivity|]. cbn.
  repeat (split; [reflexivity|]).
  rewrite <- app_assoc. reflexivity.
Qed.

(** A transcript cached for the session is neither read nor erased by a
    turn on the route. *)
Example route_ignores_cached_transcript :
  let request := aiRequest (chatRequest (Some "S1") (Some "sess1") "and cheaper?") "sess1" "S1" in
  (ConversationContext.previousMessages <$> contexts cachedStore !! "conversation_context:sess1")
  = Some [helloMessage]
  /\ match fst (buildConversationContext request shopWorld cachedStore) with
     | Ok context => ConversationContext.previousMessages context = []
     | Throw _ => False
     end
  /\ (ConversationContext.previousMessages <$>
        contexts (snd (buildConversationContext request shopWorld cachedStore))
          !! "conversation_context:sess1")
     = Some [helloMessage].
Proof. vm_compute. repeat split; reflexivity. Qed.

(** X25.  A 200 reply of [POST /chat] reports the response of the engine
    for the request the route built.  The session is the one named in the
    body when there is one; the bot message handed to the chat service is
    the message of the engine; the products appear, equal, at the three
    places of the reply (the empty list when the engine attached none); the
    six keys the route sets in the metadata keep their values, because no
    metadata key of the engine collides with them, and every metadata entry
    of the engine is copied. *)
Theorem X25_chat_reply_contents (req : ChatRequest.t) (rw : RouteWorld) (s : Store)
    (chat : list ChatCall) :
  let result := chatHandler req rw s chat in
  HttpResponse.status (fst (fst result)) = 200 ->
  exists shopId sessionId aiResponse data opened,
    truthy_str (ChatRequest.shopId req) = Some shopId
    /\ (forall given,
          truthy_str (ChatBody.session_id (ChatRequest.body req)) = Some given ->
          sessionId = given /\ opened = [])
    /\ processMessage (aiRequest req sessionId shopId) (engine rw) s
       = (Ok aiResponse, snd (fst result))
    /\ snd result =
         chat ++ opened
         ++ [SendMessage (userMessageArgs req sessionId);
             SendMessage (aiMessageArgs sessionId (AIResponse.message aiResponse)
                            (route_now rw))]
    /\ HttpResponse.body (fst (fst result)) = ChatSuccess data (route_now_iso rw)
    /\ ChatData.session_id data = sessionId
    /\ ChatData.products data = or_empty (AIResponse.products aiResponse)
    /\ AiReply.products (ChatData.ai_response data) = ChatData.products data
    /\ (let metadata := AiReply.metadata (ChatData.ai_response data) in
        metadata !! "products" = Some (RProducts (ChatData.products data))
        /\ metadata !! "coupons" = Some (RCoupons (or_empty (AIResponse.coupons aiResponse)))
        /\ metadata !! "actions" = Some (RActions (AIResponse.actions aiResponse))
        /\ metadata !! "intent" = Some (RStr (AIResponse.intent aiResponse))
        /\ metadata !! "confidence" = Some (RNum (AIResponse.confidence aiResponse))
        /\ metadata !! "sentiment" = Some (RNum (AIResponse.sentiment aiResponse))
        /\ forall k v, metadata_of aiResponse !! k = Some v ->
                       metadata !! k = Some (reply_meta v)).
Proof.
  intros result. subst result. unfold chatHandler.
  destruct (truthy_str (ChatRequest.shopId req)) as [shopId|]; [|discriminate].
  assert (Hsession :
    exists r c, openSession req shopId rw chat = (r, chat ++ c)
      /\ forall given,
           truthy_str (ChatBody.session_id (ChatRequest.body req)) = Some given ->
           r = Ok given /\ c = []).
  { unfold openSession.
    destruct (truthy_str (ChatBody.session_id (ChatRequest.body req))) as [given|].
    - exists (Ok given), []. rewrite app_nil_r. split; [reflexivity|].
      intros g Hg. inversion Hg; subst. auto.
    - eexists. eexists. split; [reflexivity|]. discriminate. }
  destruct Hsession as (r & opened & -> & Hgiven).
  destruct r as [sessionId|e]; [|discriminate].
  destruct (chat_sendMessage rw (userMessageArgs req sessionId)) as [userMessage|e];
    [|discriminate].
  destruct (processMessage (aiRequest req sessionId shopId) (engine rw) s)
    as [[aiResponse|e] s1] eqn:Eai; [|discriminate].
  destruct (chat_sendMessage rw
              (aiMessageArgs sessionId (AIResponse.message aiResponse) (route_now rw)))
    as [aiMessage|e]; [|discriminate].
  intros _. cbn [fst snd HttpResponse.body].
  exists shopId, sessionId, aiResponse,
    (chatData req sessionId userMessage aiMessage aiResponse), opened.
  split; [reflexivity|].
  split.
  { intros given Hg. destruct (Hgiven given Hg) as [Hr ->]. inversion Hr. auto. }
  split; [exact Eai|].
  split; [rewrite <- !app_assoc; reflexivity|].
  split; [reflexivity|].
  split; [reflexivity|]. split; [reflexivity|]. split; [reflexivity|].
  cbv zeta. cbn [chatData ChatData.ai_response AiReply.metadata ChatData.products].
  unfold replyMetadata.
  assert (Hfree : forall k, k ∈ routeMetadataKeys ->
                    (reply_meta <$> metadata_of aiResponse) !! k = None).
  { intros k Hk. rewrite lookup_fmap, (route_keys_free _ _ _ _ _ k Eai Hk). reflexivity. }
  repeat split.
  - rewrite lookup_union_r by (apply Hfree; unfold routeMetadataKeys;
        repeat first [apply list_elem_of_here | apply list_elem_of_further]).
    apply lookup_insert_eq.
  - rewrite lookup_union_r by (apply Hfree; unfold routeMetadataKeys;
        repeat first [apply list_elem_of_here | apply list_elem_of_further]).
    rewrite lookup_insert_ne by discriminate. apply lookup_insert_eq.
  - rewrite lookup_union_r by (apply Hfree; unfold routeMetadataKeys;
        repeat first [apply list_elem_of_here | apply list_elem_of_further]).
    rewrite !lookup_insert_ne by discriminate. apply lookup_insert_eq.
  - rewrite lookup_union_r by (apply Hfree; unfold routeMetadataKeys;
        repeat first [apply list_elem_of_here | apply list_elem_of_further]).
    rewrite !lookup_insert_ne by discriminate. apply lookup_insert_eq.
  - rewrite lookup_union_r by (apply Hfree; unfold routeMetadataKeys;
        repeat first [apply list_elem_of_here | apply list_elem_of_further]).
    rewrite !lookup_insert_ne by discriminate. apply lookup_insert_eq.
  - rewrite lookup_union_r by (apply Hfree; unfold routeMetadataKeys;
        repeat first [apply list_elem_of_here | apply list_elem_of_further]).
    rewrite !lookup_insert_ne by discriminate. apply lookup_insert_eq.
  - intros k v Hk. apply lookup_union_Some_l. rewrite lookup_fmap, Hk. reflexivity.
Qed.

Lemma X25_chat_reply_contents_witness :
  exists data,
    HttpResponse.body (fst (fst (chatHandler (chatRequest (Some "S1") None "show me laptops")
                                   shopRoute emptyStore [])))
    = ChatSuccess data (route_now_iso shopRoute)
    /\ ChatData.session_id data = "sess-new"
    /\ map ProductSummary.id (ChatData.products data) = ["p4"; "p3"; "p2"; "p5"; "p1"]
    /\ AiReply.metadata (ChatData.ai_response data) !! "intent" = Some (RStr "unknown").
Proof.
  destruct (X25_chat_reply_contents (chatRequest (Some "S1") None "show me laptops")
              shopRoute emptyStore [] eq_refl)
    as (shopId & sessionId & aiResponse & data & opened & _ & _ & _ & _ & Hbody & _).
  exists data. split; [exact Hbody|].
  vm_compute in Hbody. inversion Hbody. vm_compute. repeat split.
Defined.

(** ** The cache connection *)

(** X26.  The reconnection schedule.  The strategy gives up exactly when
    more than five retries were made; before that the delay is one hundred
    milliseconds per retry, so it never exceeds 500 and the cap of 2000 in
    the code is never the smaller operand. *)
Theorem X26_reconnect_schedule (retries : Q) :
  (reconnectStrategy retries = None <-> (5 < retries)%Q)
  /\ forall delay,
       reconnectStrategy retries = Some delay ->
       delay = (retries * 100)%Q /\ (delay <= 500)%Q /\ (delay < 2000)%Q
       /\ ((0 <= retries)%Q -> (0 <= delay)%Q).
Proof.
  unfold reconnectStrategy.
  destruct (Qlt_bool 5 retries) eqn:E.
  - apply Qlt_bool_iff in E. split; [split; auto|]. intros delay H. discriminate H.
  - assert (Hle : (retries <= 5)%Q).
    { apply Qnot_lt_le. intros Hlt. apply Qlt_bool_iff in Hlt. congruence. }
    split; [split; [discriminate|]|].
    + intros Hlt. exfalso. apply Qlt_bool_iff in Hlt. congruence.
    + intros delay H. inversion H; subst delay; clear H.
      assert (H500 : (retries * 100 <= 500)%Q) by lra.
      unfold Qmin. destruct (Qle_bool (retries * 100) 2000) eqn:Em.
      * split; [reflexivity|]. split; [exact H500|]. split; [lra|]. intros H0. lra.
      * exfalso. assert (Ht : Qle_bool (retries * 100) 2000 = true).
        { apply Qle_bool_iff. lra. }
        congruence.
Qed.

Lemma getOpen_Some (st : RedisState) (field : option ClientRef) (c : ClientRef) :
  getOpen st field = Some c <-> field = Some c /\ field_isOpen st field = true.
Proof.
  unfold getOpen, field_isOpen. destruct field as [r|].
  - destruct (default false (isOpen st !! r)); split.
    + intros H. inversion H. auto.
    + intros [H _]. exact H.
    + discriminate.
    + intros [_ H]. discriminate H.
  - split; [discriminate | intros [H _]; discriminate H].
Qed.

(** X27.  The client handed to the cache.  getRedisClientSafe returns the
    main client, and only while all three connections are open: after an
    error on the subscriber or the publisher alone the main client is still
    what getClient returns, but the cache gets none.  connect does nothing
    for a missing or blank address or one that starts with neither
    [redis://] nor [rediss://]; from the initial state a connect in which
    any of the three clients fails leaves the cache without a client, and a
    connect in which all three succeed provides one. *)
Theorem X27_cache_client_needs_all_connections (st : RedisState) :
  (forall c,
     getRedisClientSafe st = Some c <->
     RedisConnection.client (redisConnection st) = Some c /\ isConnected st = true)
  /\ (forall c role,
        getRedisClientSafe st = Some c -> role <> MainClient ->
        getRedisClientSafe (onError role st) = None
        /\ getClient (onError role st) = Some c)
  /\ (forall redisUrl established,
        (truthy_str redisUrl = None
         \/ (exists url, redisUrl = Some url
               /\ (Js.trim url = ""
                   \/ (Js.starts_with "redis://" url = false
                       /\ Js.starts_with "rediss://" url = false)))) ->
        connect redisUrl established st = st)
  /\ (forall url established,
        Js.trim url <> "" ->
        Js.starts_with "redis://" url = true \/ Js.starts_with "rediss://" url = true ->
        getRedisClientSafe (connect (Some url) established st)
        = if established (next_client st)
             && established (S (next_client st))
             && established (S (S (next_client st)))
          then Some (next_client st) else None).
Proof.
  assert (Hsafe : forall st0 c,
             getRedisClientSafe st0 = Some c <->
             RedisConnection.client (redisConnection st0) = Some c
             /\ isConnected st0 = true).
  { intros st0 c. unfold getRedisClientSafe. destruct (isConnected st0) eqn:Hc.
    - unfold getClient. rewrite getOpen_Some. split.
      + intros [H _]. auto.
      + intros [H _]. split; [exact H|]. unfold isConnected in Hc.
        apply andb_true_iff in Hc as [Hc _]. apply andb_true_iff in Hc as [Hc _].
        exact Hc.
    - split; [discriminate | intros [_ H]; discriminate H]. }
  split; [apply Hsafe|]. split; [|split].
  - intros c role H Hrole. apply Hsafe in H as [Hc Hconn].
    unfold isConnected in Hconn.
    apply andb_true_iff in Hconn as [Hconn Hp]. apply andb_true_iff in Hconn as [Hm Hs].
    destruct role; [contradiction| |].
    + split.
      * unfold getRedisClientSafe, isConnected, onError. cbn.
        rewrite andb_false_r. reflexivity.
      * unfold getClient, onError. cbn. apply getOpen_Some.
        split; [exact Hc | exact Hm].
    + split.
      * unfold getRedisClientSafe, isConnected, onError. cbn.
        rewrite andb_false_r. reflexivity.
      * unfold getClient, onError. cbn. apply getOpen_Some.
        split; [exact Hc | exact Hm].
  - intros redisUrl established [H|(url & -> & H)]; unfold connect.
    + rewrite H. reflexivity.
    + destruct (truthy_str (Some url)) as [u|] eqn:Eu; [|reflexivity].
      assert (u = url) by (destruct url; inversion Eu; reflexivity). subst u.
      destruct H as [H|[H1 H2]].
      * rewrite H. reflexivity.
      * rewrite H1, H2. destruct (String.eqb (Js.trim url) ""); reflexivity.
  - intros url established Hblank Hscheme. unfold connect.
    assert (Eu : truthy_str (Some url) = Some url).
    { destruct url; [|reflexivity]. exfalso. apply Hblank. reflexivity. }
    rewrite Eu.
    assert (Eb : String.eqb (Js.trim url) "" = false) by (apply String.eqb_neq, Hblank).
    rewrite Eb.
    assert (Es : negb (Js.starts_with "redis://" url)
                 && negb (Js.starts_with "rediss://" url) = false).
    { destruct Hscheme as [-> | ->]; [reflexivity | apply andb_false_r]. }
    rewrite Es. cbv zeta.
    set (c := next_client st).
    unfold getRedisClientSafe, isConnected, getClient, getOpen, field_isOpen.
    cbn [redisConnection isOpen].
    destruct (established c) eqn:E1; [|reflexivity].
    destruct (established (S c)) eqn:E2; [|reflexivity].
    destruct (established (S (S c))) eqn:E3; [|reflexivity].
    cbn [andb RedisConnection.client RedisConnection.subscriber RedisConnection.publisher].
    rewrite lookup_insert_eq.
    rewrite (lookup_insert_ne _ (S (S c)) (S c)) by lia.
    rewrite lookup_insert_eq.
    rewrite (lookup_insert_ne _ (S (S c)) c) by lia.
    rewrite (lookup_insert_ne _ (S c) c) by lia.
    rewrite lookup_insert_eq. reflexivity.
Qed.

(** A connect with a good address in which the subscriber times out. *)
Example connect_with_failed_subscriber :
  getRedisClientSafe
    (connect (Some "redis://cache:6379") (fun c => negb (Nat.eqb c 1)) redisInitial)
  = None
  /\ getRedisClientSafe (connect (Some "redis://cache:6379") (fun _ => true) redisInitial)
     = Some 0
  /\ connect (Some "http://cache") (fun _ => true) redisInitial = redisInitial.
Proof. vm_compute. repeat split. Qed.

(** X28.  A RedisCache never checks its client again.  Once getClient of a
    cache instance has returned a client, it returns the same client in
    every later state of the connection, also when that client is closed
    or the connection has dropped it; while it has returned none, the
    instance keeps nothing and asks the connection again the next time. *)
Theorem X28_cache_keeps_its_first_client (cache : RedisCache.t) (st : RedisState) :
  let first := RedisCache.getClient cache st in
  (forall c,
     fst first = Some c ->
     forall st', RedisCache.getClient (snd first) st' = (Some c, snd first))
  /\ (fst first = None ->
      snd first = cache
      /\ forall st', RedisCache.getClient (snd first) st'
                     = (match getRedisClientSafe st' with
                        | Some c => (Some c, {| RedisCache.client := Some c |})
                        | None => (None, cache)
                        end)).
Proof.
  intros first. subst first. unfold RedisCache.getClient.
  destruct cache as [[memo|]]; cbn [RedisCache.client].
  - split.
    + intros c H st'. inversion H; subst. reflexivity.
    + intros H. discriminate H.
  - destruct (getRedisClientSafe st) as [c0|]; cbn [fst snd RedisCache.client].
    + split; [|discriminate]. intros c H st'. inversion H; subst. reflexivity.
    + split; [discriminate|]. intros _. split; reflexivity.
Qed.

(** A cache created while connected keeps using the client after the
    connection lost it. *)
Example cache_outlives_connection :
  let st := connect (Some "redis://cache:6379") (fun _ => true) redisInitial in
  let cache := snd (RedisCache.getClient {| RedisCache.client := None |} st) in
  getRedisClientSafe (onError MainClient st) = None
  /\ fst (RedisCache.getClient cache (onError MainClient st)) = Some 0.
Proof. vm_compute. split; reflexivity. Qed.

(** ** Catalog import *)

Lemma syncBatch_fold {W P : Type} (w : ImportWorld W P) (transform : W -> P)
    (batchSize : Q) (pages : list nat) (totalSynced : Z) (errors : list string) :
  fold_left (syncBatch w transform batchSize) pages (totalSynced, errors)
  = ((totalSynced
      + foldr Z.add 0 (map (fun page => batchCount (batchOutcome w transform batchSize page))
                           pages))%Z,
     errors
     ++ omap (fun page => match batchOutcome w transform batchSize page with
                          | Ok _ => None
                          | Throw message => Some (batchError page message)
                          end) pages).
Proof.
  revert totalSynced errors. induction pages as [|page pages IH]; intros totalSynced errors.
  - cbn. rewrite Z.add_0_r, app_nil_r. reflexivity.
  - cbn [fold_left map foldr]. unfold syncBatch at 2.
    change (omap ?f (page :: pages))
      with (match f page with
            | Some x => x :: omap f pages
            | None => omap f pages
            end).
    cbv beta.
    destruct (batchOutcome w transform batchSize page) as [n|message]; rewrite IH.
    + cbn [batchCount]. f_equal; lia.
    + cbn [batchCount]. f_equal; try lia. rewrite <- app_assoc. reflexivity.
Qed.

Lemma omap_length_le {A B : Type} (f : A -> option B) (l : list A) :
  (length (omap f l) <= length l)%nat.
Proof.
  induction l as [|x l IH]; [reflexivity|].
  change (omap f (x :: l))
    with (match f x with Some y => y :: omap f l | None => omap f l end).
  destruct (f x); cbn [length]; lia.
Qed.

(** X29.  The report of syncProductsFromWooCommerce.  When the product
    count cannot be read, the sync fails with that one error and nothing
    synced.  Otherwise every page is attempted, a failed batch not stopping
    the later ones: the synced total is the sum of what the successful
    batches wrote, and the errors are the failed batches, in page order,
    each with its page number.  The sync is reported as a success exactly
    when the count was read and either no batch failed or something was
    written; so a sync in which batches failed still reports success as
    soon as one batch wrote a document. *)
Theorem X29_sync_report {W P : Type} (w : ImportWorld W P) (transform : W -> P)
    (options : SyncOptions.t) :
  let report := syncProductsFromWooCommerce w transform options in
  let batchSize := syncBatchSize options in
  let outcome := batchOutcome w transform batchSize in
  (forall message,
     wc_productCount w = Throw message ->
     report = {| SyncResult.success := false; SyncResult.synced := 0;
                 SyncResult.errors := [message] |})
  /\ (forall totalCount,
        wc_productCount w = Ok totalCount ->
        let pages := syncPages totalCount batchSize in
        SyncResult.synced report
        = foldr Z.add 0%Z (map (fun page => batchCount (outcome page)) pages)
        /\ SyncResult.errors report
           = omap (fun page => match outcome page with
                               | Ok _ => None
                               | Throw message => Some (batchError page message)
                               end) pages
        /\ (length (SyncResult.errors report) <= length pages)%nat
        /\ (SyncResult.success report = true <->
            SyncResult.errors report = [] \/ (0 < SyncResult.synced report)%Z)
        /\ ((forall page n, page ∈ pages -> outcome page = Ok n -> (0 <= n)%Z) ->
            (exists page n, page ∈ pages /\ outcome page = Ok n /\ (0 < n)%Z) ->
            SyncResult.success report = true))
  /\ (SyncOptions.batchSize options = None -> batchSize = 500%Q).
Proof.
  intros report batchSize outcome. subst report. unfold syncProductsFromWooCommerce.
  fold batchSize.
  destruct (wc_productCount w) as [totalCount|message0].
  - split; [discriminate|]. split.
    + intros tc Htc. inversion Htc; subst tc; clear Htc. cbv zeta.
      set (pages := syncPages totalCount batchSize). rewrite syncBatch_fold. fold outcome. cbn [app].
      set (total := foldr Z.add 0%Z (map (fun page => batchCount (outcome page)) pages)).
      set (errs := omap (fun page => match outcome page with
                                     | Ok _ => None
                                     | Throw message => Some (batchError page message)
                                     end) pages).
      cbn [SyncResult.synced SyncResult.errors SyncResult.success].
      rewrite Z.add_0_l.
      split; [reflexivity|]. split; [reflexivity|].
      split; [apply omap_length_le|].
      assert (Hsucc : (length errs =? 0) || (0 <? total)%Z = true <->
                      errs = [] \/ (0 < total)%Z).
      { rewrite orb_true_iff, Nat.eqb_eq, Z.ltb_lt.
        split; (intros [H|H]; [left | right; exact H]).
        - destruct errs; [reflexivity | discriminate H].
        - rewrite H. reflexivity. }
      split; [exact Hsucc|].
      intros Hpos (page & n & Hin & Hn & Hlt). apply Hsucc. right.
      subst total. clear Hsucc errs. induction pages as [|q pages IH].
      * inversion Hin.
      * cbn [map foldr].
        assert (Hq : (0 <= batchCount (outcome q))%Z).
        { destruct (outcome q) as [m|e] eqn:Eq; cbn; [|lia].
          apply (Hpos q m); [apply list_elem_of_here | exact Eq]. }
        assert (Hrest : (0 <= foldr Z.add 0
                                (map (fun page => batchCount (outcome page)) pages))%Z).
        { clear IH Hin. induction pages as [|q' pages IH']; cbn [map foldr]; [lia|].
          assert (Hq' : (0 <= batchCount (outcome q'))%Z).
          { destruct (outcome q') as [m|e] eqn:Eq'; cbn; [|lia].
            apply (Hpos q' m); [apply list_elem_of_further, list_elem_of_here | exact Eq']. }
          assert (IH'' : (0 <= foldr Z.add 0
                                  (map (fun page => batchCount (outcome page)) pages))%Z).
          { apply IH'. intros p m Hp Hm. apply (Hpos p m); [|exact Hm].
            apply elem_of_cons in Hp as [->|Hp];
              [apply list_elem_of_here | do 2 apply list_elem_of_further; exact Hp]. }
          lia. }
        apply elem_of_cons in Hin as [<-|Hin].
        -- rewrite Hn. cbn [batchCount]. lia.
        -- assert (0 < foldr Z.add 0
                          (map (fun page => batchCount (outcome page)) pages))%Z.
           { apply IH; [|exact Hin]. intros p m Hp Hm. apply (Hpos p m); [|exact Hm].
             apply list_elem_of_further, Hp. }
           lia.
    + intros H. unfold batchSize, syncBatchSize. rewrite H. reflexivity.
  - split.
    + intros message H. inversion H. reflexivity.
    + split; [discriminate|].
      intros H. unfold batchSize, syncBatchSize. rewrite H. reflexivity.
Qed.

(** Five products in batches of two: pages 1 and 3 are written, page 2
    fails, and the sync is reported as a success. *)
Example sync_with_a_failed_batch :
  syncProductsFromWooCommerce flakyShop (fun x => x) (batchesOf 2)
  = {| SyncResult.success := true; SyncResult.synced := 4;
       SyncResult.errors := ["Batch 2 failed: timeout"] |}.
Proof. vm_compute. reflexivity. Qed.

Lemma importEntries_null {R P : Type} (transform : R -> Result P)
    (products : list (option R)) (failed : Z) :
  None ∈ products ->
  importEntries transform products failed
  = Throw "Cannot read properties of null (reading 'id')".
Proof.
  revert failed. induction products as [|x products IH]; intros failed Hin.
  - apply elem_of_nil in Hin. destruct Hin.
  - cbn [importEntries]. destruct x as [r|]; [|reflexivity].
    apply elem_of_cons in Hin as [Hin|Hin]; [discriminate Hin|].
    cbn [importEntry]. destruct (transform r) as [p|e]; cbv zeta; rewrite IH by exact Hin;
      reflexivity.
Qed.

Lemma importEntries_ok {R P : Type} (transform : R -> Result P)
    (products : list (option R)) (failed : Z) :
  None ∉ products ->
  exists mapped,
    importEntries transform products failed
    = Ok (mapped,
          (failed + Z.of_nat (length products)
           - Z.of_nat (length (omap (fun entry => entry) mapped)))%Z)
    /\ omap (fun entry => entry) mapped
       = omap (fun entry => match entry with
                            | Some product => match transform product with
                                              | Ok p => Some p
                                              | Throw _ => None
                                              end
                            | None => None
                            end) products.
Proof.
  revert failed. induction products as [|x products IH]; intros failed Hnot.
  - exists []. cbn. split; [f_equal; f_equal; lia | reflexivity].
  - assert (Hx : x <> None).
    { intros ->. apply Hnot, list_elem_of_here. }
    assert (Hrest : None ∉ products).
    { intros H. apply Hnot, list_elem_of_further, H. }
    destruct x as [r|]; [clear Hx | destruct (Hx eq_refl)].
    cbn [importEntries importEntry].
    change (omap ?f (Some r :: products))
      with (match f (Some r) with Some y => y :: omap f products | None => omap f products end).
    cbv beta iota.
    destruct (transform r) as [p|e].
    + cbv zeta. destruct (IH failed Hrest) as (mapped & -> & Hm).
      exists (Some p :: mapped).
      change (omap (fun entry : option P => entry) (Some p :: mapped))
        with (p :: omap (fun entry : option P => entry) mapped).
      rewrite Hm. cbn [length].
      split; [f_equal; f_equal; lia | reflexivity].
    + cbv zeta. destruct (IH (failed + 1)%Z Hrest) as (mapped & -> & Hm).
      exists (None :: mapped).
      change (omap (fun entry : option P => entry) (None :: mapped))
        with (omap (fun entry : option P => entry) mapped).
      rewrite Hm. cbn [length].
      split; [f_equal; f_equal; lia | reflexivity].
Qed.

(** X30.  The report of bulkImportProducts.  A null entry in the request
    ends the import before anything is written: its transformation throws,
    the handler of that error throws again when it reads the id of the
    entry, and the report counts every product of the request as failed,
    with nothing imported or updated, whatever the store would answer.
    Without a null entry: when the write succeeds, the entries that could
    not be transformed are the failed ones, and the written count is split
    into imported and updated: imported is at most the number of documents
    sent, the two add up to the written count, and updated is positive only
    when the store reports more documents written than were sent; whenever
    it reports at most one per document, every written document counts as
    imported and updated is zero.  When the write throws, every product of
    the request counts as failed. *)
Theorem X30_bulk_import_report {R W P : Type} (w : ImportWorld W P)
    (transform : R -> Result P) (products : list (option R)) :
  let report := bulkImportProducts w transform products in
  let transformed :=
    omap (fun entry => match entry with
                       | Some product => match transform product with
                                         | Ok p => Some p
                                         | Throw _ => None
                                         end
                       | None => None
                       end) products in
  let sent := Z.of_nat (length transformed) in
  (None ∈ products ->
   report = {| ImportResult.imported := 0; ImportResult.updated := 0;
               ImportResult.failed := Z.of_nat (length products) |})
  /\ (None ∉ products ->
      (forall message,
         bulkUpsertProducts w transformed = Throw message ->
         report = {| ImportResult.imported := 0; ImportResult.updated := 0;
                     ImportResult.failed := Z.of_nat (length products) |})
      /\ (forall written,
            bulkUpsertProducts w transformed = Ok written ->
            (ImportResult.failed report + sent = Z.of_nat (length products))%Z
            /\ (ImportResult.imported report <= sent)%Z
            /\ (ImportResult.imported report + ImportResult.updated report = written)%Z
            /\ (0 <= ImportResult.updated report)%Z
            /\ ((0 < ImportResult.updated report)%Z <-> (sent < written)%Z)
            /\ ((written <= sent)%Z ->
                ImportResult.imported report = written
                /\ ImportResult.updated report = 0%Z))
      /\ (transformed = [] ->
          report = {| ImportResult.imported := 0; ImportResult.updated := 0;
                      ImportResult.failed := Z.of_nat (length products) |})).
Proof.
  intros report transformed sent. subst report. unfold bulkImportProducts. cbv zeta.
  split.
  { intros Hin. rewrite (importEntries_null transform products 0 Hin). reflexivity. }
  intros Hnot.
  destruct (importEntries_ok transform products 0 Hnot) as (mapped & -> & Hm).
  fold transformed in Hm. rewrite Hm. fold sent.
  assert (Hle : (sent <= Z.of_nat (length products))%Z).
  { unfold sent, transformed. clear. induction products as [|x products IH]; [cbn; lia|].
    change (omap ?f (x :: products))
      with (match f x with Some y => y :: omap f products | None => omap f products end).
    cbv beta. cbn [length] in *.
    destruct x as [r|]; [destruct (transform r)|]; cbn [length]; lia. }
  split; [|split].
  - intros message H. rewrite H. reflexivity.
  - intros written H. rewrite H.
    cbn [ImportResult.failed ImportResult.imported ImportResult.updated].
    lia.
  - intros Hnil. unfold sent in *. rewrite Hnil in *. cbn [bulkUpsertProducts length].
    f_equal. lia.
Qed.

(** Three entries, the second of them null: nothing is written and all
    three count as failed, although the store is up and the other two
    transform. *)
Example bulk_import_with_a_null_entry :
  bulkImportProducts flakyShop (fun name : string => Ok name) [Some "a"; None; Some "b"]
  = {| ImportResult.imported := 0; ImportResult.updated := 0; ImportResult.failed := 3 |}
  /\ bulkImportProducts flakyShop (fun name : string => Ok name) [Some "a"; Some "b"]
     = {| ImportResult.imported := 2; ImportResult.updated := 0; ImportResult.failed := 0 |}
  /\ bulkImportProducts flakyShop
       (fun name : string => if String.eqb name "a" then Throw "bad price" else Ok name)
       [Some "a"; Some "b"]
     = {| ImportResult.imported := 1; ImportResult.updated := 0; ImportResult.failed := 1 |}.
Proof. vm_compute. repeat split; reflexivity. Qed.
